(** * Weather dashboard: time window, cache, colour rules, refresh

    A shallow embedding of the temporal aggregation engine of the
    dashboard: the zustand store ([dashboardStore.js]), the provider hook
    ([useOpenMeteo]), the timeline hook ([useTimelineState]), the timeline
    slider component and the polygon refresh hook ([usePolygons]).

    Conventions of the embedding.
    - A JS [Date] is the integer number of milliseconds since the epoch.
    - A JS number is [NaN] or a finite value, and a finite value is read
      as the exact rational it denotes: the binary64 rounding of sums and
      products and the infinities are outside the model, except for the
      aggregation, which [calculateCurrentValue64] evaluates in binary64.
    - [Math.random()] is an explicit argument [u] of the functions that
      draw from it.
    - A function that can [throw] returns an [outcome]. *)

From Stdlib Require Import ZArith QArith Qround Qabs Lia Lqa Bool DecimalString.
From Stdlib Require SpecFloat.
From stdpp Require Import base strings list gmap.

Local Open Scope Z_scope.

(** ** JavaScript values *)

Inductive jsnum : Type :=
  | NaN
  | Num (q : Q).

(** An element of a provider array: [null] or a number.  [undefined] is
    what reading an array past its end gives, i.e. a failed lookup. *)
Inductive jsval : Type :=
  | JNull
  | JNumber (n : jsnum).

Inductive outcome (A : Type) : Type :=
  | Return (a : A)
  | Throw (message : string).
Arguments Return {A} a.
Arguments Throw {A} message.

Definition Qltb (x y : Q) : bool := negb (Qle_bool y x).

(** [a === b], [a < b], [a <= b], [a > b], [a >= b] on numbers: every
    comparison with [NaN] is false. *)
Definition num_eq (a b : jsnum) : bool :=
  match a, b with Num x, Num y => Qeq_bool x y | _, _ => false end.
Definition num_lt (a b : jsnum) : bool :=
  match a, b with Num x, Num y => Qltb x y | _, _ => false end.
Definition num_le (a b : jsnum) : bool :=
  match a, b with Num x, Num y => Qle_bool x y | _, _ => false end.
Definition num_gt (a b : jsnum) : bool := num_lt b a.
Definition num_ge (a b : jsnum) : bool := num_le b a.

(** [Math.round(x)]: the nearest integer, a tie going up. *)
Definition Math_round (x : Q) : Z := Qfloor (x + (1 # 2))%Q.

(** [Math.round(x * 10) / 10] *)
Definition round1 (x : Q) : Q := (inject_Z (Math_round (x * 10)) / 10)%Q.

(** ** date-fns on millisecond timestamps *)

Module DateFns.
Definition MS_PER_HOUR : Z := 3600000.
Definition addHours (d hours : Z) : Z := d + hours * MS_PER_HOUR.
Definition subHours (d hours : Z) : Z := d - hours * MS_PER_HOUR.
(** The number of full hours between two dates, truncated towards 0. *)
Definition differenceInHours (later earlier : Z) : Z :=
  Z.quot (later - earlier) MS_PER_HOUR.
Definition isAfter (d other : Z) : bool := other <? d.
Definition isBefore (d other : Z) : bool := d <? other.
End DateFns.
Import DateFns.

(** ** The store ([dashboardStore.js]) *)

Record colorRule : Type := {
  rule_operator : string;
  rule_value : jsnum;
  rule_operator2 : option string;   (* [None]: absent / [undefined] *)
  rule_value2 : option jsnum;       (* [None]: [undefined] *)
  rule_color : string
}.

Record dataSource : Type := {
  ds_id : string;
  ds_name : string;
  ds_field : string;
  ds_unit : string;
  ds_colorRules : list colorRule
}.

Record timeWindow : Type := {
  tw_start : Z;
  tw_end : Z
}.

(** The payload of the provider: [hourly.time] and one array per field. *)
Record hourlyData : Type := {
  hourly_time : option (list Z);
  hourly_fields : gmap string (list jsval)
}.

Record apiData : Type := {
  api_hourly : option hourlyData
}.

Record cacheEntry : Type := {
  entry_data : apiData;
  entry_timestamp : Z
}.

Record polygon : Type := {
  poly_id : string;
  poly_coordinates : list (Q * Q);
  poly_dataSource : string;
  poly_data : option Q;
  poly_color : option string;
  poly_lastUpdated : option Z;
  poly_error : option string
}.

Record store : Type := {
  currentTime : Z;
  timeRange : timeWindow;
  isRangeMode : bool;
  isPlaying : bool;
  polygons : list polygon;
  dataSources : list dataSource;
  weatherDataCache : gmap string cacheEntry
}.

Definition setCurrentTime (t : Z) (s : store) : store :=
  {| currentTime := t; timeRange := timeRange s; isRangeMode := isRangeMode s;
     isPlaying := isPlaying s; polygons := polygons s;
     dataSources := dataSources s; weatherDataCache := weatherDataCache s |}.

Definition setTimeRange (r : timeWindow) (s : store) : store :=
  {| currentTime := currentTime s; timeRange := r; isRangeMode := isRangeMode s;
     isPlaying := isPlaying s; polygons := polygons s;
     dataSources := dataSources s; weatherDataCache := weatherDataCache s |}.

Definition setRangeMode (b : bool) (s : store) : store :=
  {| currentTime := currentTime s; timeRange := timeRange s; isRangeMode := b;
     isPlaying := isPlaying s; polygons := polygons s;
     dataSources := dataSources s; weatherDataCache := weatherDataCache s |}.

Definition setPlaying (b : bool) (s : store) : store :=
  {| currentTime := currentTime s; timeRange := timeRange s;
     isRangeMode := isRangeMode s; isPlaying := b; polygons := polygons s;
     dataSources := dataSources s; weatherDataCache := weatherDataCache s |}.

Definition setPolygons (ps : list polygon) (s : store) : store :=
  {| currentTime := currentTime s; timeRange := timeRange s;
     isRangeMode := isRangeMode s; isPlaying := isPlaying s; polygons := ps;
     dataSources := dataSources s; weatherDataCache := weatherDataCache s |}.

Definition setCache (c : gmap string cacheEntry) (s : store) : store :=
  {| currentTime := currentTime s; timeRange := timeRange s;
     isRangeMode := isRangeMode s; isPlaying := isPlaying s;
     polygons := polygons s; dataSources := dataSources s;
     weatherDataCache := c |}.

(** The fields [updatePolygon] is called with by the refresh hooks. *)
Record polygonUpdate : Type := {
  upd_data : Q;
  upd_color : string;
  upd_lastUpdated : Z;
  upd_error : option string
}.

Definition applyUpdate (u : polygonUpdate) (p : polygon) : polygon :=
  {| poly_id := poly_id p; poly_coordinates := poly_coordinates p;
     poly_dataSource := poly_dataSource p;
     poly_data := Some (upd_data u); poly_color := Some (upd_color u);
     poly_lastUpdated := Some (upd_lastUpdated u);
     poly_error := upd_error u |}.

Definition updatePolygon (id : string) (u : polygonUpdate) (s : store) : store :=
  setPolygons
    (map (fun p => if String.eqb (poly_id p) id then applyUpdate u p else p)
         (polygons s)) s.

Definition CACHE_TTL : Z := 3600000.

(** [cacheWeatherData(key, data)] at wall-clock time [now]. *)
Definition cacheWeatherData (now : Z) (key : string) (data : apiData)
    (s : store) : store :=
  setCache
    (<[key := {| entry_data := data; entry_timestamp := now |}]>
       (weatherDataCache s)) s.

(** [getCachedWeatherData(key)] at wall-clock time [now]: the data, or
    [None] for [null], and the store after the possible eviction. *)
Definition getCachedWeatherData (now : Z) (key : string) (s : store)
    : option apiData * store :=
  match weatherDataCache s !! key with
  | None => (None, s)
  | Some cached =>
      if CACHE_TTL <? now - entry_timestamp cached
      then (None, setCache (delete key (weatherDataCache s)) s)
      else (Some (entry_data cached), s)
  end.

Definition getTimeWindow (s : store) : timeWindow :=
  if isRangeMode s then timeRange s
  else {| tw_start := currentTime s; tw_end := addHours (currentTime s) 1 |}.

Definition getPolygonById (id : string) (s : store) : option polygon :=
  List.find (fun p => String.eqb (poly_id p) id) (polygons s).

Definition getDataSourceById (id : string) (s : store) : option dataSource :=
  List.find (fun ds => String.eqb (ds_id ds) id) (dataSources s).

Definition DEFAULT_COLOR : string := "#666666".

(** The primary [switch] of [matchesRule]. *)
Definition primaryMatches (operator : string) (value ruleValue : jsnum) : bool :=
  if String.eqb operator "=" || String.eqb operator "==" then num_eq value ruleValue
  else if String.eqb operator "<" then num_lt value ruleValue
  else if String.eqb operator "<=" then num_le value ruleValue
  else if String.eqb operator ">" then num_gt value ruleValue
  else if String.eqb operator ">=" then num_ge value ruleValue
  else false.

(** The secondary [switch] of [matchesRule]; an operator outside the four
    leaves [matches] as it is. *)
Definition secondaryMatches (operator2 : string) (value value2 : jsnum) : bool :=
  if String.eqb operator2 "<" then num_lt value value2
  else if String.eqb operator2 "<=" then num_le value value2
  else if String.eqb operator2 ">" then num_gt value value2
  else if String.eqb operator2 ">=" then num_ge value value2
  else true.

(** Truthiness of [operator2]: absent and the empty string are falsy. *)
Definition truthy_operator (o : option string) : option string :=
  match o with
  | Some op => if String.eqb op "" then None else Some op
  | None => None
  end.

Definition matchesRule (value : jsnum) (rule : colorRule) : bool :=
  let matches := primaryMatches (rule_operator rule) value (rule_value rule) in
  match matches, truthy_operator (rule_operator2 rule), rule_value2 rule with
  | true, Some operator2, Some value2 =>
      matches && secondaryMatches operator2 value value2
  | _, _, _ => matches
  end.

(** The [for ... of] loop of [getColorForValue]. *)
Fixpoint firstMatchingColor (value : jsnum) (rules : list colorRule) : string :=
  match rules with
  | [] => DEFAULT_COLOR
  | rule :: rest =>
      if matchesRule value rule then rule_color rule
      else firstMatchingColor value rest
  end.

(** [getColorForValue(sourceId, value)]; [value = None] is [null] or
    [undefined]. *)
Definition getColorForValue (sourceId : string) (value : option jsnum)
    (s : store) : string :=
  match getDataSourceById sourceId s, value with
  | Some dataSource, Some v => firstMatchingColor v (ds_colorRules dataSource)
  | _, _ => DEFAULT_COLOR
  end.

(** ** A state-and-exception monad for the code that reads and writes the
    store and may [throw] *)

Definition M (A : Type) : Type := store -> outcome A * store.

Definition ret {A} (a : A) : M A := fun s => (Return a, s).
Definition throw {A} (message : string) : M A := fun s => (Throw message, s).
Definition bind {A B} (m : M A) (k : A -> M B) : M B :=
  fun s =>
    match m s with
    | (Return a, s') => k a s'
    | (Throw e, s') => (Throw e, s')
    end.
(** [try { m } catch (error) { handler(error.message) }] *)
Definition tryCatch {A} (m : M A) (handler : string -> M A) : M A :=
  fun s =>
    match m s with
    | (Return a, s') => (Return a, s')
    | (Throw e, s') => handler e s'
    end.
Definition gets {A} (f : store -> A) : M A := fun s => (Return (f s), s).
Definition modify (f : store -> store) : M unit := fun s => (Return tt, f s).

(** A store action that returns a value and cannot [throw]. *)
Definition liftS {A} (f : store -> A * store) : M A :=
  fun s => let '(a, s') := f s in (Return a, s').

Declare Scope js_scope.
Delimit Scope js_scope with js.
Notation "'let!' x := m 'in' k" := (bind m (fun x => k))
  (at level 10, x name, m at level 100, k at level 200) : js_scope.
Notation "'run!' m 'in' k" := (bind m (fun _ => k))
  (at level 10, m at level 100, k at level 200) : js_scope.

(** ** The provider hook ([useOpenMeteo]) *)

(** [Number.prototype.toFixed(4)]: the decimal to four places, a tie
    rounded away from zero. *)
Definition digits (n : Z) : string :=
  NilZero.string_of_uint (N.to_uint (Z.to_N n)).

Definition pad4 (n : Z) : string :=
  let d := digits n in
  String.append
    (match String.length d with
     | 1%nat => "000" | 2%nat => "00" | 3%nat => "0" | _ => ""
     end) d.

Definition toFixed4 (x : jsnum) : string :=
  match x with
  | NaN => "NaN"
  | Num q =>
      let n := Qfloor (Qabs q * 10000 + (1 # 2))%Q in
      String.append (if Qltb q 0 then "-" else "")
        (String.append (digits (n / 10000))
           (String.append "." (pad4 (n mod 10000))))
  end.

(** The query of the archive endpoint; the two dates are kept as
    timestamps instead of their [yyyy-MM-dd] rendering. *)
Record request : Type := {
  req_latitude : string;
  req_longitude : string;
  req_start_date : Z;
  req_end_date : Z;
  req_hourly : string
}.

Definition fieldMapping (field : string) : option string :=
  if String.eqb field "temperature_2m" then Some "temperature_2m"
  else if String.eqb field "relativehumidity_2m" then Some "relativehumidity_2m"
  else if String.eqb field "precipitation" then Some "precipitation"
  else if String.eqb field "windspeed_10m" then Some "windspeed_10m"
  else if String.eqb field "pressure_msl" then Some "pressure_msl"
  else None.

Definition MS_PER_DAY : Z := 86400000.

(** [buildApiUrl(lat, lon, dataSourceId)], [today] being [new Date()]. *)
Definition buildApiUrl (today : Z) (lat lon : jsnum) (dataSourceId : string)
    : M request :=
  (let! dataSource := gets (getDataSourceById dataSourceId) in
   match dataSource with
   | None =>
       throw (String.append "Data source "
                (String.append dataSourceId " not found"))
   | Some dataSource =>
       let apiField :=
         match fieldMapping (ds_field dataSource) with
         | Some f => f
         | None => ds_field dataSource
         end in
       ret {| req_latitude := toFixed4 lat;
              req_longitude := toFixed4 lon;
              req_start_date := today - 15 * MS_PER_DAY;
              req_end_date := today + 15 * MS_PER_DAY;
              req_hourly := apiField |}
   end)%js.

Definition mockDataRanges (dataSourceId : string) : option (Q * Q) :=
  if String.eqb dataSourceId "temperature" then Some (-10, 35)%Q
  else if String.eqb dataSourceId "humidity" then Some (30, 90)%Q
  else if String.eqb dataSourceId "precipitation" then Some (0, 20)%Q
  else None.

(** [generateMockData(dataSourceId)], [u] being the draw of
    [Math.random()], [0 <= u < 1]. *)
Definition generateMockData (u : Q) (dataSourceId : string) : Q :=
  let range :=
    match mockDataRanges dataSourceId with
    | Some r => r
    | None => (0, 100)%Q
    end in
  let value := (u * (snd range - fst range) + fst range)%Q in
  round1 value.

(** The [for] loop of [calculateCurrentValue]: [i] is the index of the
    head of [timestamps], [relevantValues] the array filled so far. *)
Fixpoint collectRelevant (w : timeWindow) (values : list jsval) (i : nat)
    (timestamps : list Z) (relevantValues : list Q) : list Q :=
  match timestamps with
  | [] => relevantValues
  | timestamp :: rest =>
      collectRelevant w values (S i) rest
        (if (tw_start w <=? timestamp) && (timestamp <=? tw_end w)
         then match values !! i with
              | Some (JNumber (Num value)) => relevantValues ++ [value]
              | _ => relevantValues
              end
         else relevantValues)
  end.

(** [relevantValues.reduce((sum, val) => sum + val, 0) / relevantValues.length] *)
Definition average (relevantValues : list Q) : Q :=
  (fold_left Qplus relevantValues 0 / inject_Z (Z.of_nat (length relevantValues)))%Q.

(** [calculateCurrentValue(apiData, dataSourceId)]; it reads the data
    source and the time window from the store as it is when called. *)
Definition calculateCurrentValue (u : Q) (data : apiData)
    (dataSourceId : string) (s : store) : Q :=
  let timeWindow := getTimeWindow s in
  match getDataSourceById dataSourceId s, api_hourly data with
  | Some dataSource, Some hourly =>
      match hourly_time hourly, hourly_fields hourly !! ds_field dataSource with
      | Some timestamps, Some values =>
          if (length timestamps =? 0)%nat || (length values =? 0)%nat
          then generateMockData u dataSourceId
          else
            let relevantValues := collectRelevant timeWindow values 0 timestamps [] in
            if (length relevantValues =? 0)%nat
            then generateMockData u dataSourceId
            else round1 (average relevantValues)
      | _, _ => generateMockData u dataSourceId
      end
  | _, _ => generateMockData u dataSourceId
  end.

Definition cacheKeyOf (lat lon : jsnum) (dataSourceId : string) : string :=
  String.append (toFixed4 lat)
    (String.append "_" (String.append (toFixed4 lon)
       (String.append "_" dataSourceId))).

(** How [axios.get] settles. *)
Inductive axiosResult : Type :=
  | Rejected (message : string)
  | Resolved (data : option apiData).   (* [None]: a falsy [response.data] *)

(** Where [fetchWeatherData] stands after its synchronous part. *)
Inductive fetchPhase : Type :=
  | Done (value : Q)
  | Await (url : request).

(** [fetchWeatherData] up to [await axios.get(url)], inside its [try]. *)
Definition fetchWeatherData_begin (now today : Z) (u : Q) (lat lon : jsnum)
    (dataSourceId : string) : M fetchPhase :=
  tryCatch
    (let cacheKey := cacheKeyOf lat lon dataSourceId in
     let! cachedData := liftS (getCachedWeatherData now cacheKey) in
     match cachedData with
     | Some cachedData =>
         let! value := gets (calculateCurrentValue u cachedData dataSourceId) in
         ret (Done value)
     | None =>
         let! url := buildApiUrl today lat lon dataSourceId in
         ret (Await url)
     end)%js
    (fun error => ret (Done (generateMockData u dataSourceId))).

(** [fetchWeatherData] from the moment [axios.get] settles, inside the
    same [try]; [now] is [Date.now()] at that moment. *)
Definition fetchWeatherData_resume (now : Z) (u : Q) (lat lon : jsnum)
    (dataSourceId : string) (response : axiosResult) : M Q :=
  tryCatch
    (let cacheKey := cacheKeyOf lat lon dataSourceId in
     match response with
     | Rejected message => throw message
     | Resolved None => throw "Invalid API response format"
     | Resolved (Some data) =>
         match api_hourly data with
         | None => throw "Invalid API response format"
         | Some _ =>
             run! modify (cacheWeatherData now cacheKey data) in
             gets (calculateCurrentValue u data dataSourceId)
         end
     end)%js
    (fun error => ret (generateMockData u dataSourceId)).

(** [fetchWeatherData(lat, lon, dataSourceId)] when nothing else runs
    while the request is in flight: [network] settles the request, [u1]
    and [u2] are the draws available before and after the [await]. *)
Definition fetchWeatherData (now now' today : Z) (u1 u2 : Q)
    (network : request -> axiosResult) (lat lon : jsnum)
    (dataSourceId : string) : M Q :=
  (let! phase := fetchWeatherData_begin now today u1 lat lon dataSourceId in
   match phase with
   | Done value => ret value
   | Await url =>
       fetchWeatherData_resume now' u2 lat lon dataSourceId (network url)
   end)%js.

(** One element of the array [fetchMultiplePolygons] resolves to. *)
Record fetchResult : Type := {
  res_polygonId : string;
  res_value : Q;
  res_error : option string
}.

(** [coordinates.reduce((sum, coord) => sum + coord[k], 0) / coordinates.length];
    on an empty array this is [0 / 0]. *)
Definition meanCoordinate (proj : Q * Q -> Q) (coordinates : list (Q * Q)) : jsnum :=
  match coordinates with
  | [] => NaN
  | _ => Num (fold_left (fun sum coord => sum + proj coord) coordinates 0
              / inject_Z (Z.of_nat (length coordinates)))%Q
  end.

(** A per-polygon task of [fetchMultiplePolygons]: fulfilled, rejected,
    or suspended at the [await] of its request. *)
Inductive slot : Type :=
  | Ready (result : fetchResult)
  | Failed (message : string)
  | Pending (polygonId : string) (lat lon : jsnum) (dataSourceId : string)
            (url : request).

(** The body of the [polygons.map] callback up to the first suspension;
    [u] is the draw for [fetchWeatherData], [u'] the draw for the [catch]
    of the callback. *)
Definition fetchPolygon_begin (now today : Z) (u u' : Q) (polygon : polygon)
    : M slot :=
  tryCatch
    (let coordinates := poly_coordinates polygon in
     let avgLat := meanCoordinate fst coordinates in
     let avgLon := meanCoordinate snd coordinates in
     let! phase := fetchWeatherData_begin now today u avgLat avgLon
                     (poly_dataSource polygon) in
     match phase with
     | Done value =>
         ret (Ready {| res_polygonId := poly_id polygon; res_value := value;
                       res_error := None |})
     | Await url =>
         ret (Pending (poly_id polygon) avgLat avgLon
                (poly_dataSource polygon) url)
     end)%js
    (fun error =>
       ret (Ready {| res_polygonId := poly_id polygon;
                     res_value := generateMockData u' (poly_dataSource polygon);
                     res_error := Some error |})).

(** The rest of the callback once the request has settled. *)
Definition fetchPolygon_resume (now : Z) (u u' : Q) (polygonId : string)
    (lat lon : jsnum) (dataSourceId : string) (response : axiosResult)
    : M fetchResult :=
  tryCatch
    (let! value := fetchWeatherData_resume now u lat lon dataSourceId response in
     ret {| res_polygonId := polygonId; res_value := value;
            res_error := None |})%js
    (fun error =>
       ret {| res_polygonId := polygonId;
              res_value := generateMockData u' dataSourceId;
              res_error := Some error |}).

(** ** The polygon refresh hook ([usePolygons]) *)

(** The [results.forEach] of [refreshAllPolygonData]: [snapshot] is the
    [polygons] array the callback closed over, the store is the live one. *)
Definition applyResult (now : Z) (snapshot : list polygon) (s : store)
    (r : fetchResult) : store :=
  match List.find (fun p => String.eqb (poly_id p) (res_polygonId r)) snapshot with
  | Some polygon =>
      let color :=
        getColorForValue (poly_dataSource polygon) (Some (Num (res_value r))) s in
      updatePolygon (res_polygonId r)
        {| upd_data := res_value r; upd_color := color;
           upd_lastUpdated := now; upd_error := res_error r |} s
  | None => s
  end.

Definition applyResults (now : Z) (snapshot : list polygon)
    (results : list fetchResult) (s : store) : store :=
  fold_left (applyResult now snapshot) results s.

(** A call of [refreshAllPolygonData] in flight. *)
Record refreshCall : Type := {
  call_polygons : list polygon;
  call_slots : list slot
}.

(** [Promise.all]: the results once every task is fulfilled.  With a
    rejected task the [await] of [refreshAllPolygonData] throws into its
    [catch], which writes nothing. *)
Fixpoint allSettled (slots : list slot) : option (list fetchResult) :=
  match slots with
  | [] => Some []
  | Ready r :: rest =>
      match allSettled rest with
      | Some rs => Some (r :: rs)
      | None => None
      end
  | Failed _ :: _ => None
  | Pending _ _ _ _ _ :: _ => None
  end.

(** The synchronous parts of the tasks, started in array order. *)
Fixpoint beginAll (now today : Z) (draw : nat -> Q * Q) (i : nat)
    (ps : list polygon) (s : store) : list slot * store :=
  match ps with
  | [] => ([], s)
  | p :: rest =>
      let '(o, s1) := fetchPolygon_begin now today (fst (draw i)) (snd (draw i)) p s in
      let '(slots, s2) := beginAll now today draw (S i) rest s1 in
      (match o with Return sl => sl | Throw e => Failed e end :: slots, s2)
  end.

(** The browser as far as the refresh is concerned: the store and the
    calls of [refreshAllPolygonData] started so far, oldest first. *)
Record system : Type := {
  sys_store : store;
  sys_calls : list refreshCall
}.

Inductive event : Type :=
  | UserSetCurrentTime (t : Z)
  | UserSetTimeRange (r : timeWindow)
  | UserSetRangeMode (b : bool)
  (** the debounce timer fires and [refreshAllPolygonData] starts *)
  | Refresh (now today : Z) (draw : nat -> Q * Q)
  (** the request of task [task] of call [call] settles *)
  | Response (call task : nat) (response : axiosResult) (now : Z) (u u' : Q).

(** What happens when the call has settled entirely. *)
Definition finishCall (now : Z) (c : refreshCall) (s : store) : store :=
  match allSettled (call_slots c) with
  | Some results => applyResults now (call_polygons c) results s
  | None => s
  end.

Definition step (sys : system) (e : event) : system :=
  let s := sys_store sys in
  match e with
  | UserSetCurrentTime t =>
      {| sys_store := setCurrentTime t s; sys_calls := sys_calls sys |}
  | UserSetTimeRange r =>
      {| sys_store := setTimeRange r s; sys_calls := sys_calls sys |}
  | UserSetRangeMode b =>
      {| sys_store := setRangeMode b s; sys_calls := sys_calls sys |}
  | Refresh now today draw =>
      match polygons s with
      | [] => sys
      | ps =>
          let '(slots, s1) := beginAll now today draw 0 ps s in
          let c := {| call_polygons := ps; call_slots := slots |} in
          {| sys_store := finishCall now c s1;
             sys_calls := sys_calls sys ++ [c] |}
      end
  | Response call task response now u u' =>
      match sys_calls sys !! call with
      | Some c =>
          match call_slots c !! task with
          | Some (Pending polygonId lat lon dataSourceId _) =>
              let '(o, s1) :=
                fetchPolygon_resume now u u' polygonId lat lon dataSourceId
                  response s in
              let settled :=
                match o with Return r => Ready r | Throw e => Failed e end in
              let c' := {| call_polygons := call_polygons c;
                           call_slots := <[task := settled]> (call_slots c) |} in
              {| sys_store := finishCall now c' s1;
                 sys_calls := <[call := c']> (sys_calls sys) |}
          | _ => sys
          end
      | None => sys
      end
  end.

Definition run (sys : system) (trace : list event) : system :=
  fold_left step trace sys.

(** ** The timeline hook ([useTimelineState]) *)

(** The horizon as computed at a render at wall-clock time [now]. *)
Definition timelineStart (now : Z) : Z := subHours now (15 * 24).
Definition timelineEnd (now : Z) : Z := addHours now (15 * 24).

Definition moveTimeForward (now : Z) (hours : Z) (s : store) : bool * store :=
  if isRangeMode s then
    let duration := differenceInHours (tw_end (timeRange s)) (tw_start (timeRange s)) in
    let newStart := addHours (tw_start (timeRange s)) hours in
    let newEnd := addHours newStart duration in
    if isAfter newEnd (timelineEnd now) then (false, setPlaying false s)
    else (true, setTimeRange {| tw_start := newStart; tw_end := newEnd |} s)
  else
    let newTime := addHours (currentTime s) hours in
    if isAfter newTime (timelineEnd now) then (false, setPlaying false s)
    else (true, setCurrentTime newTime s).

Definition moveTimeBackward (now : Z) (hours : Z) (s : store) : bool * store :=
  if isRangeMode s then
    let duration := differenceInHours (tw_end (timeRange s)) (tw_start (timeRange s)) in
    let newStart := subHours (tw_start (timeRange s)) hours in
    let newEnd := addHours newStart duration in
    if isBefore newStart (timelineStart now) then (false, s)
    else (true, setTimeRange {| tw_start := newStart; tw_end := newEnd |} s)
  else
    let newTime := subHours (currentTime s) hours in
    if isBefore newTime (timelineStart now) then (false, s)
    else (true, setCurrentTime newTime s).

Definition jumpToTime (now : Z) (targetTime : Z) (s : store) : bool * store :=
  if isBefore targetTime (timelineStart now) || isAfter targetTime (timelineEnd now)
  then (false, s)
  else if isRangeMode s then
    let duration := differenceInHours (tw_end (timeRange s)) (tw_start (timeRange s)) in
    let newEnd := addHours targetTime duration in
    if isAfter newEnd (timelineEnd now) then
      let adjustedStart := subHours (timelineEnd now) duration in
      (true, setTimeRange {| tw_start := adjustedStart; tw_end := timelineEnd now |} s)
    else (true, setTimeRange {| tw_start := targetTime; tw_end := newEnd |} s)
  else (true, setCurrentTime targetTime s).

Definition setTimeRangeDuration (now : Z) (hours : Z) (s : store) : store :=
  let newEnd := addHours (tw_start (timeRange s)) hours in
  if isAfter newEnd (timelineEnd now) then
    let adjustedStart := subHours (timelineEnd now) hours in
    setTimeRange {| tw_start := adjustedStart; tw_end := timelineEnd now |} s
  else setTimeRange {| tw_start := tw_start (timeRange s); tw_end := newEnd |} s.

Definition canMoveForward (now : Z) (s : store) : bool :=
  isBefore (tw_end (getTimeWindow s)) (timelineEnd now).

Definition canMoveBackward (now : Z) (s : store) : bool :=
  isAfter (tw_start (getTimeWindow s)) (timelineStart now).

(** One tick of the playback interval of the hook. *)
Definition playbackTick (now : Z) (s : store) : store :=
  let '(canContinue, s') := moveTimeForward now 1 s in
  if canContinue then s' else setPlaying false s'.

(** ** The timeline slider component ([TimelineSlider]) *)

Module TimelineSlider.

(** The step buttons of the component. *)
Definition stepBackward (s : store) : store :=
  if isRangeMode s then
    let duration := differenceInHours (tw_end (timeRange s)) (tw_start (timeRange s)) in
    let newStart := subHours (tw_start (timeRange s)) 1 in
    let newEnd := addHours newStart duration in
    setTimeRange {| tw_start := newStart; tw_end := newEnd |} s
  else setCurrentTime (subHours (currentTime s) 1) s.

Definition stepForward (s : store) : store :=
  if isRangeMode s then
    let duration := differenceInHours (tw_end (timeRange s)) (tw_start (timeRange s)) in
    let newStart := addHours (tw_start (timeRange s)) 1 in
    let newEnd := addHours newStart duration in
    setTimeRange {| tw_start := newStart; tw_end := newEnd |} s
  else setCurrentTime (addHours (currentTime s) 1) s.

(** One tick of the playback interval of the component. *)
Definition playbackTick (now : Z) (s : store) : store :=
  if isRangeMode s then
    let duration := differenceInHours (tw_end (timeRange s)) (tw_start (timeRange s)) in
    let newStart := addHours (tw_start (timeRange s)) 1 in
    let newEnd := addHours newStart duration in
    if timelineEnd now <? newEnd then setPlaying false s
    else setTimeRange {| tw_start := newStart; tw_end := newEnd |} s
  else
    let newTime := addHours (currentTime s) 1 in
    if timelineEnd now <? newTime then setPlaying false s
    else setCurrentTime newTime s.

End TimelineSlider.

(** The window invariant of the data model, for the horizon of [now]. *)
Definition withinHorizon (now : Z) (w : timeWindow) : Prop :=
  timelineStart now <= tw_start w /\ tw_end w <= timelineEnd now.

Definition windowContains (w : timeWindow) (t : Z) : Prop :=
  tw_start w <= t <= tw_end w.

Definition duration_ms (w : timeWindow) : Z := tw_end w - tw_start w.

(** ** The configuration the store starts with *)

Definition simpleRule (op : string) (v : Q) (color : string) : colorRule :=
  {| rule_operator := op; rule_value := Num v; rule_operator2 := None;
     rule_value2 := None; rule_color := color |}.

Definition compoundRule (op : string) (v : Q) (op2 : string) (v2 : Q)
    (color : string) : colorRule :=
  {| rule_operator := op; rule_value := Num v; rule_operator2 := Some op2;
     rule_value2 := Some (Num v2); rule_color := color |}.

Definition initialDataSources : list dataSource :=
  [ {| ds_id := "temperature"; ds_name := "Temperature";
       ds_field := "temperature_2m"; ds_unit := "C";
       ds_colorRules :=
         [ simpleRule "<" 0 "#1890ff";
           compoundRule ">=" 0 "<" 15 "#52c41a";
           compoundRule ">=" 15 "<" 25 "#faad14";
           simpleRule ">=" 25 "#f5222d" ] |};
    {| ds_id := "humidity"; ds_name := "Humidity";
       ds_field := "relativehumidity_2m"; ds_unit := "%";
       ds_colorRules :=
         [ simpleRule "<" 30 "#f5222d";
           compoundRule ">=" 30 "<" 60 "#faad14";
           compoundRule ">=" 60 "<" 80 "#52c41a";
           simpleRule ">=" 80 "#1890ff" ] |};
    {| ds_id := "precipitation"; ds_name := "Precipitation";
       ds_field := "precipitation"; ds_unit := "mm";
       ds_colorRules :=
         [ simpleRule "=" 0 "#d9d9d9";
           compoundRule ">" 0 "<" 1 "#91d5ff";
           compoundRule ">=" 1 "<" 5 "#40a9ff";
           simpleRule ">=" 5 "#096dd9" ] |} ].

(** The initial state of the store when it is created at time [now]. *)
Definition initialStore (now : Z) : store :=
  {| currentTime := now;
     timeRange := {| tw_start := subHours now 24; tw_end := addHours now 24 |};
     isRangeMode := false;
     isPlaying := false;
     polygons := [];
     dataSources := initialDataSources;
     weatherDataCache := ∅ |}.

(** ** The rule language as the data model describes it *)

(** [compares op v t]: the comparison [v op t] holds; [==] is accepted as
    a spelling of [=]. *)
Definition compares (op : string) (v t : jsnum) : Prop :=
  match v, t with
  | Num x, Num y =>
      ((op = "=" \/ op = "==") /\ x == y)%Q \/
      (op = "<" /\ x < y)%Q \/
      (op = "<=" /\ x <= y)%Q \/
      (op = ">" /\ y < x)%Q \/
      (op = ">=" /\ y <= x)%Q
  | _, _ => False
  end.

(** The full condition of a rule: the primary comparison and, when a
    secondary operator and threshold are present, the secondary one. *)
Definition ruleHolds (v : jsnum) (r : colorRule) : Prop :=
  compares (rule_operator r) v (rule_value r) /\
  match rule_operator2 r, rule_value2 r with
  | Some op2, Some t2 => compares op2 v t2
  | _, _ => True
  end.

(** A rule of the shape the data model allows: a primary operator of the
    language, and either no secondary clause (the operator absent, or the
    empty string the rule editor starts with, and no threshold) or a
    secondary operator of the language together with its threshold. *)
Definition validRule (r : colorRule) : Prop :=
  In (rule_operator r) ["="; "=="; "<"; "<="; ">"; ">="] /\
  match rule_operator2 r, rule_value2 r with
  | None, None => True
  | Some op2, None => op2 = ""
  | Some op2, Some _ => In op2 ["<"; "<="; ">"; ">="]
  | None, Some _ => False
  end.

(** The ways a request can fail for [fetchWeatherData]: the promise is
    rejected, or the response has no data or no [hourly] object. *)
Definition failedResponse (response : axiosResult) : Prop :=
  match response with
  | Rejected _ => True
  | Resolved None => True
  | Resolved (Some data) => api_hourly data = None
  end.

(** ** The aggregation as the design describes it *)





(** ** Concrete configurations used in the examples *)

Definition emptyPayload : apiData :=
  {| api_hourly :=
       Some {| hourly_time := Some []; hourly_fields := ∅ |} |}.

(** The store in range mode, with the window it starts with:
    [[-24h, +24h]] around time 0. *)
Definition rangeStore : store := setRangeMode true (initialStore 0).

(** Three hourly samples [10, 20, 30] of the temperature field. *)
Definition samplePayload : apiData :=
  {| api_hourly :=
       Some {| hourly_time := Some [0; 3600000; 7200000];
               hourly_fields :=
                 {[ "temperature_2m" :=
                      [JNumber (Num 10); JNumber (Num 20); JNumber (Num 30)] ]} |} |}.

(** The initial store when the clock ticks one millisecond between the
    two [new Date()] of its [timeRange], switched to range mode. *)
Definition tickedStore : store :=
  setRangeMode true
    (setTimeRange {| tw_start := subHours 0 24; tw_end := addHours 1 24 |}
       (initialStore 0)).

(** Range mode with a two-hour window [[0h, 2h]]. *)
Definition twoHourStore : store :=
  setRangeMode true
    (setTimeRange {| tw_start := 0; tw_end := addHours 0 2 |} (initialStore 0)).

(** Range mode with a window that ends on the forward horizon of time 0. *)
Definition edgeStore : store :=
  setRangeMode true
    (setTimeRange {| tw_start := subHours (timelineEnd 0) 48;
                     tw_end := timelineEnd 0 |} (initialStore 0)).

(** One triangle over Berlin, coloured by temperature, not yet refreshed. *)
Definition berlinPolygon : polygon :=
  {| poly_id := "1700000000000";
     poly_coordinates := [(525 # 10, 133 # 10); (526 # 10, 134 # 10);
                          (525 # 10, 135 # 10)]%Q;
     poly_dataSource := "temperature";
     poly_data := None; poly_color := None;
     poly_lastUpdated := None; poly_error := None |}.

Definition berlinStore : store := setPolygons [berlinPolygon] (initialStore 0).

Definition berlinSystem : system :=
  {| sys_store := berlinStore; sys_calls := [] |}.

Definition noDraw : nat -> Q * Q := fun _ => (0, 0)%Q.

(** A payload with one sample per hour for the hours 0 and 5. *)
Definition payloadOf (at0 at5 : Q) : apiData :=
  {| api_hourly :=
       Some {| hourly_time := Some [0; addHours 0 5];
               hourly_fields :=
                 {[ "temperature_2m" :=
                      [JNumber (Num at0); JNumber (Num at5)] ]} |} |}.

(** A refresh whose request fails, and one whose request succeeds with a
    reading of 12.5 degrees. *)
Definition failedRefresh : list event :=
  [ Refresh 0 0 noDraw;
    Response 0 0 (Rejected "Network Error") 100 (1 # 2) 0 ].

Definition realRefresh : list event :=
  [ Refresh 0 0 noDraw;
    Response 0 0 (Resolved (Some (payloadOf (125 # 10) 20))) 100 (1 # 2) 0 ].

(** Two refreshes in rapid succession: the window is at hour 0 for the
    first and at hour 5 for the second, the request of the second settles
    first and [late] is how the request of the first settles. *)
Definition overlappingRefreshes (late : axiosResult) : list event :=
  [ Refresh 0 0 noDraw;
    UserSetCurrentTime (addHours 0 5);
    Refresh 1000 0 noDraw;
    Response 1 0 (Resolved (Some (payloadOf 10 20))) 2000 0 0;
    Response 0 0 late 3000 (1 # 2) 0 ].

(** The same two refreshes before the first request has settled. *)
Definition secondRefreshDone : list event :=
  [ Refresh 0 0 noDraw;
    UserSetCurrentTime (addHours 0 5);
    Refresh 1000 0 noDraw;
    Response 1 0 (Resolved (Some (payloadOf 10 20))) 2000 0 0 ].

(** Range mode with a ninety-minute window [[0h, 1h30]]. *)
Definition ninetyMinuteStore : store :=
  setRangeMode true
    (setTimeRange {| tw_start := 0; tw_end := 5400000 |} (initialStore 0)).

(** Range mode with a window that starts on the backward horizon of time 0. *)
Definition startEdgeStore : store :=
  setRangeMode true
    (setTimeRange {| tw_start := timelineStart 0;
                     tw_end := addHours (timelineStart 0) 48 |}
       (initialStore 0)).

(** ** The refresh as the regions see it *)

(** The results of a call whose tasks are all fulfilled but one, once
    that one is fulfilled with [r]. *)
Definition settledWith (r : fetchResult) (slots : list slot) : list fetchResult :=
  map (fun sl => match sl with Ready r' => r' | _ => r end) slots.

(** The region [q] after the results of a call have been written: it is
    updated with the result that carries its identifier, if there is one,
    coloured by the rules of the metric the region had in [snapshot]. *)
Definition writtenBy (now : Z) (snapshot : list polygon) (s : store)
    (results : list fetchResult) (q : polygon) : polygon :=
  match List.find (fun r => String.eqb (poly_id q) (res_polygonId r)) results with
  | Some r =>
      match List.find (fun p => String.eqb (poly_id p) (res_polygonId r)) snapshot with
      | Some p =>
          applyUpdate
            {| upd_data := res_value r;
               upd_color :=
                 getColorForValue (poly_dataSource p) (Some (Num (res_value r))) s;
               upd_lastUpdated := now;
               upd_error := res_error r |} q
      | None => q
      end
  | None => q
  end.

(** The request of a refresh of the Berlin triangle, and the call while
    that request is in flight. *)
Definition berlinRequest : request :=
  {| req_latitude := "52.5333"; req_longitude := "13.4000";
     req_start_date := -1296000000; req_end_date := 1296000000;
     req_hourly := "temperature_2m" |}.

Definition berlinCall : refreshCall :=
  {| call_polygons := [berlinPolygon];
     call_slots :=
       [Pending "1700000000000"
          (meanCoordinate fst (poly_coordinates berlinPolygon))
          (meanCoordinate snd (poly_coordinates berlinPolygon))
          "temperature" berlinRequest] |}.

(** ** More of the store: editing rules and regions *)

Definition setDataSources (ds : list dataSource) (s : store) : store :=
  {| currentTime := currentTime s; timeRange := timeRange s;
     isRangeMode := isRangeMode s; isPlaying := isPlaying s;
     polygons := polygons s; dataSources := ds;
     weatherDataCache := weatherDataCache s |}.

Definition setColorRules (rules : list colorRule) (ds : dataSource) : dataSource :=
  {| ds_id := ds_id ds; ds_name := ds_name ds; ds_field := ds_field ds;
     ds_unit := ds_unit ds; ds_colorRules := rules |}.

(** [array.map((x, index) => f(index, x))] and
    [array.filter((x, index) => keep(index))], [i] being the index of the
    head. *)
Fixpoint mapWithIndex {A B} (f : nat -> A -> B) (i : nat) (l : list A) : list B :=
  match l with
  | [] => []
  | x :: rest => f i x :: mapWithIndex f (S i) rest
  end.

Fixpoint filterWithIndex {A} (keep : nat -> bool) (i : nat) (l : list A) : list A :=
  match l with
  | [] => []
  | x :: rest =>
      if keep i then x :: filterWithIndex keep (S i) rest
      else filterWithIndex keep (S i) rest
  end.

(** [state.dataSources.map(ds => ds.id === sourceId ? {...ds, colorRules: f(ds.colorRules)} : ds)] *)
Definition editColorRules (sourceId : string)
    (f : list colorRule -> list colorRule) (s : store) : store :=
  setDataSources
    (map (fun ds =>
            if String.eqb (ds_id ds) sourceId
            then setColorRules (f (ds_colorRules ds)) ds
            else ds)
         (dataSources s)) s.

Definition addColorRule (sourceId : string) (rule : colorRule) (s : store) : store :=
  editColorRules sourceId (fun rules => rules ++ [rule]) s.

(** The [updates] object of [updateColorRule]: [None] for a key the
    object does not have, [Some v] for a key it has, whose value may
    itself be [undefined] for the two optional fields. *)
Record ruleUpdates : Type := {
  set_operator : option string;
  set_value : option jsnum;
  set_operator2 : option (option string);
  set_value2 : option (option jsnum);
  set_color : option string
}.

(** [{ ...rule, ...updates }] *)
Definition mergeRule (rule : colorRule) (updates : ruleUpdates) : colorRule :=
  {| rule_operator := default (rule_operator rule) (set_operator updates);
     rule_value := default (rule_value rule) (set_value updates);
     rule_operator2 := default (rule_operator2 rule) (set_operator2 updates);
     rule_value2 := default (rule_value2 rule) (set_value2 updates);
     rule_color := default (rule_color rule) (set_color updates) |}.

(** [ruleIndex] is any integer the caller passes: [index === ruleIndex]. *)
Definition updateColorRule (sourceId : string) (ruleIndex : Z)
    (updates : ruleUpdates) (s : store) : store :=
  editColorRules sourceId
    (mapWithIndex
       (fun index rule =>
          if Z.of_nat index =? ruleIndex then mergeRule rule updates else rule)
       0) s.

Definition deleteColorRule (sourceId : string) (ruleIndex : Z) (s : store) : store :=
  editColorRules sourceId
    (filterWithIndex (fun index => negb (Z.of_nat index =? ruleIndex)) 0) s.

(** The part of the store the region editor works on: the store of the
    engine, the selected region and the drawing switch. *)
Record editorState : Type := {
  ed_store : store;
  activePolygon : option string;
  drawingMode : bool
}.

Definition setDrawingMode (mode : bool) (e : editorState) : editorState :=
  {| ed_store := ed_store e; activePolygon := activePolygon e;
     drawingMode := mode |}.

Definition setActivePolygon (id : option string) (e : editorState) : editorState :=
  {| ed_store := ed_store e; activePolygon := id; drawingMode := drawingMode e |}.

(** [addPolygon(polygon)] at time [now], [polygon] carrying the drawn
    [coordinates]: the identifier is [Date.now().toString()], the metric
    is the default one, there is no data yet.  The display fields [name],
    [createdAt] and [bounds] are not part of the record [polygon] of this
    development.  Returns the new identifier. *)
Definition addPolygon (now : Z) (coordinates : list (Q * Q)) (e : editorState)
    : string * editorState :=
  let newPolygon :=
    {| poly_id := digits now; poly_coordinates := coordinates;
       poly_dataSource := "temperature"; poly_data := None;
       poly_color := None; poly_lastUpdated := None; poly_error := None |} in
  (poly_id newPolygon,
   {| ed_store := setPolygons (polygons (ed_store e) ++ [newPolygon]) (ed_store e);
      activePolygon := Some (poly_id newPolygon);
      drawingMode := drawingMode e |}).

Definition deletePolygon (id : string) (e : editorState) : editorState :=
  {| ed_store :=
       setPolygons
         (List.filter (fun p => negb (String.eqb (poly_id p) id))
            (polygons (ed_store e))) (ed_store e);
     activePolygon :=
       match activePolygon e with
       | Some a => if String.eqb a id then None else Some a
       | None => None
       end;
     drawingMode := drawingMode e |}.

(** ** The drawing tool of the map ([PolygonDrawer]) *)

Record drawer : Type := {
  dr_editor : editorState;
  drawingPoints : list (Q * Q)
}.

(** [completePolygon(points)] at time [now]. *)
Definition completePolygon (now : Z) (points : list (Q * Q)) (d : drawer) : drawer :=
  if (length points <? 3)%nat then d
  else
    {| dr_editor := setDrawingMode false (addPolygon now points (dr_editor d)).2;
       drawingPoints := [] |}.

Inductive drawerEvent : Type :=
  (** a click on the map at [point]; [near] tells whether the map puts it
      less than 100 metres from the first point *)
  | MapClick (now : Z) (point : Q * Q) (near : bool)
  | ContextMenu (now : Z)
  | StartDrawing
  | StopDrawing.

Definition drawerStep (d : drawer) (ev : drawerEvent) : drawer :=
  match ev with
  | MapClick now newPoint near =>
      if negb (drawingMode (dr_editor d)) then d
      else
        let newPoints := drawingPoints d ++ [newPoint] in
        if (12 <? length newPoints)%nat then d
        else
          let d1 := {| dr_editor := dr_editor d; drawingPoints := newPoints |} in
          if (3 <=? length newPoints)%nat && near
          then completePolygon now newPoints d1
          else d1
  | ContextMenu now =>
      if negb (drawingMode (dr_editor d)) || (length (drawingPoints d) <? 3)%nat
      then d
      else completePolygon now (drawingPoints d) d
  | StartDrawing =>
      {| dr_editor := setDrawingMode true (dr_editor d);
         drawingPoints := drawingPoints d |}
  | StopDrawing =>
      {| dr_editor := setDrawingMode false (dr_editor d);
         drawingPoints := drawingPoints d |}
  end.

Definition drawerRun (d : drawer) (trace : list drawerEvent) : drawer :=
  fold_left drawerStep trace d.

(** The vertex bound of the data model. *)
Definition vertexCountOk (p : polygon) : Prop :=
  (3 <= length (poly_coordinates p) <= 12)%nat.

(** What the drawing tool keeps: every region has between 3 and 12
    vertices and at most 12 points are pending. *)
Definition drawerOk (d : drawer) : Prop :=
  Forall vertexCountOk (polygons (ed_store (dr_editor d))) /\
  (length (drawingPoints d) <= 12)%nat.

(** ** More of the timeline hook and of the slider *)

(** [getTimeProgress()] at a render at time [now]. *)
Definition getTimeProgress (now : Z) (s : store) : Q :=
  let window := getTimeWindow s in
  let totalDuration := differenceInHours (timelineEnd now) (timelineStart now) in
  let currentPosition := differenceInHours (tw_start window) (timelineStart now) in
  (inject_Z currentPosition / inject_Z totalDuration * 100)%Q.

(** [timeToSliderValue(time)] of the slider component. *)
Definition timeToSliderValue (now : Z) (time : Z) : Q :=
  let totalHours := differenceInHours (timelineEnd now) (timelineStart now) in
  let hoursFromStart := differenceInHours time (timelineStart now) in
  (inject_Z hoursFromStart / inject_Z totalHours * 100)%Q.

(** The playback interval of the hook: it exists only while [isPlaying],
    and each of its ticks is [playbackTick].  The hook computes the
    horizon anew at every render, so every tick comes with the clock of
    the render whose callback runs: [clocks] lists them, one per tick. *)
Fixpoint playbackAfter (clocks : list Z) (s : store) : store :=
  match clocks with
  | [] => s
  | now :: rest =>
      playbackAfter rest (if isPlaying s then playbackTick now s else s)
  end.

(** Where a forward step is measured from: the instant, or the end of
    the window as the step recomputes it. *)
Definition reached (s : store) : Z :=
  if isRangeMode s
  then addHours (tw_start (timeRange s))
         (differenceInHours (tw_end (timeRange s)) (tw_start (timeRange s)))
  else currentTime s.

(** The instant and the range window are both inside the horizon, and
    the window is not reversed. *)
Definition timelineOk (now : Z) (s : store) : Prop :=
  withinHorizon now (timeRange s) /\
  tw_start (timeRange s) <= tw_end (timeRange s) /\
  timelineStart now <= currentTime s <= timelineEnd now.

(** ** More of the provider hook *)

(** The region a task of [fetchMultiplePolygons] works for, when the
    task has not been rejected. *)
Definition slotPolygonId (sl : slot) : option string :=
  match sl with
  | Ready r => Some (res_polygonId r)
  | Failed _ => None
  | Pending polygonId _ _ _ _ => Some polygonId
  end.

(** The error a task has recorded, if it is fulfilled. *)
Definition slotError (sl : slot) : option string :=
  match sl with
  | Ready r => res_error r
  | Failed _ => None
  | Pending _ _ _ _ _ => None
  end.

(** ** More of the refresh hook *)

(** The object [getPolygonStats()] returns; [byDataSource] holds the own
    properties of the counting object, one per metric identifier met. *)
Record polygonStats : Type := {
  stats_total : nat;
  stats_withData : nat;
  stats_withErrors : nat;
  stats_byDataSource : gmap string nat
}.

(** Truthiness of [p.error]: a non-empty string. *)
Definition hasError (p : polygon) : bool :=
  match poly_error p with
  | Some e => negb (String.eqb e "")
  | None => false
  end.

(** The [forEach] that groups by metric.  The counting object is read as
    a map of its own properties: a metric identifier that names a property
    of [Object.prototype] is outside the model. *)
Definition countByDataSource (ps : list polygon) : gmap string nat :=
  fold_left
    (fun byDataSource p =>
       let ds := poly_dataSource p in
       <[ds := S (default 0%nat (byDataSource !! ds))]> byDataSource)
    ps ∅.

Definition getPolygonStats (s : store) : polygonStats :=
  {| stats_total := length (polygons s);
     stats_withData :=
       length (List.filter (fun p => bool_decide (poly_data p <> None)) (polygons s));
     stats_withErrors := length (List.filter hasError (polygons s));
     stats_byDataSource := countByDataSource (polygons s) |}.

(** The sum of the counts of a counting object. *)
Definition sumCounts (m : gmap string nat) : nat :=
  map_fold (fun _ n acc => (n + acc)%nat) 0%nat m.

(** What [refreshSinglePolygon] and [refreshAllPolygonData] write for one
    result of a region [polygon] at time [now]. *)
Definition writeResult (now : Z) (polygonId : string) (polygon : polygon)
    (r : fetchResult) (s : store) : store :=
  let color :=
    getColorForValue (poly_dataSource polygon) (Some (Num (res_value r))) s in
  updatePolygon polygonId
    {| upd_data := res_value r; upd_color := color;
       upd_lastUpdated := now; upd_error := res_error r |} s.

(** [refreshSinglePolygon(polygonId)] when nothing else runs while its
    request is in flight: it starts at [now], [network] settles the
    request and the result is written at [now']; [u] and [u'] are the
    draws of the synchronous part, [u2] and [u2'] those of the rest. *)
Definition refreshSinglePolygon (now now' today : Z) (u u' u2 u2' : Q)
    (network : request -> axiosResult) (polygonId : string) (s : store)
    : store :=
  match List.find (fun p => String.eqb (poly_id p) polygonId) (polygons s) with
  | None => s
  | Some polygon =>
      let '(o, s1) := fetchPolygon_begin now today u u' polygon s in
      match o with
      | Return (Ready r) => writeResult now polygonId polygon r s1
      | Return (Pending id lat lon dataSourceId url) =>
          let '(o2, s2) :=
            fetchPolygon_resume now' u2 u2' id lat lon dataSourceId
              (network url) s1 in
          match o2 with
          | Return r => writeResult now' polygonId polygon r s2
          | Throw _ => s2
          end
      | Return (Failed _) => s1
      | Throw _ => s1
      end
  end.

(** The events that come from the refresh itself, not from the user. *)
Definition isRefreshEvent (e : event) : bool :=
  match e with
  | Refresh _ _ _ => true
  | Response _ _ _ _ _ _ => true
  | _ => false
  end.

(** No region and no task in flight carries an error. *)
Definition noErrorRecorded (sys : system) : Prop :=
  Forall (fun p => poly_error p = None) (polygons (sys_store sys)) /\
  Forall (fun c => Forall (fun sl => slotError sl = None) (call_slots c))
    (sys_calls sys).

(** The fields of a region the refresh may not touch. *)
Definition regionCore (p : polygon) : string * list (Q * Q) * string :=
  (poly_id p, poly_coordinates p, poly_dataSource p).

(** ** The provider service: time series *)

(** An element of the series [extractTimeSeriesData] builds: the parsed
    time and the value read at the same index, [None] for [undefined]. *)
Record seriesItem : Type := {
  item_time : Z;
  item_value : option jsval;
  item_timestamp : Z
}.

(** [extractTimeSeriesData(response, parameter)]; [None] is a falsy
    [response]. *)
Definition extractTimeSeriesData (response : option apiData)
    (parameter : string) : list seriesItem :=
  match response with
  | Some r =>
      match api_hourly r with
      | Some hourly =>
          match hourly_time hourly, hourly_fields hourly !! parameter with
          | Some time, Some values =>
              imap (fun index timestamp =>
                      {| item_time := timestamp;
                         item_value := values !! index;
                         item_timestamp := timestamp |}) time
          | _, _ => []
          end
      | None => []
      end
  | None => []
  end.

(** [filterDataByTimeRange(data, startTime, endTime)] *)
Definition filterDataByTimeRange (data : list seriesItem)
    (startTime endTime : Z) : list seriesItem :=
  List.filter
    (fun item => (startTime <=? item_time item) && (item_time item <=? endTime))
    data.

(** The numbers [calculateAverageValue] keeps: not [null], not
    [undefined], not [NaN]. *)
Definition validValue (value : option jsval) : option Q :=
  match value with
  | Some (JNumber (Num q)) => Some q
  | _ => None
  end.

(** [calculateAverageValue(data, parameter)]; [None] is [null]. *)
Definition calculateAverageValue (data : list seriesItem) : option Q :=
  let validValues := omap validValue (map item_value data) in
  if (length validValues =? 0)%nat then None
  else
    let sum := fold_left Qplus validValues 0%Q in
    Some (sum / inject_Z (Z.of_nat (length validValues)))%Q.

(** ** The colour utilities: [validateColorRule] *)

Definition isHexDigit (c : Ascii.ascii) : bool :=
  let n := Ascii.nat_of_ascii c in
  ((48 <=? n)%nat && (n <=? 57)%nat) ||
  ((65 <=? n)%nat && (n <=? 70)%nat) ||
  ((97 <=? n)%nat && (n <=? 102)%nat).

(** [color.match(/^#[0-9A-F]{6}$/i)]; 35 is the code of [#]. *)
Definition isHexColor (color : string) : bool :=
  match color with
  | String c rest =>
      Ascii.eqb c (Ascii.ascii_of_nat 35) &&
      (String.length rest =? 6)%nat &&
      forallb isHexDigit (String.list_ascii_of_string rest)
  | _ => false
  end.

Definition isNaN (n : jsnum) : bool :=
  match n with NaN => true | Num _ => false end.

Definition includes (list : list string) (x : string) : bool :=
  existsb (String.eqb x) list.

Definition RANGE_ERROR : string :=
  "Invalid range: first value must be less than second value".

(** [errors.push(message)] under the condition [c]. *)
Definition pushIf (c : bool) (message : string) (errors : list string)
    : list string :=
  if c then errors ++ [message] else errors.

(** [validateColorRule(rule)]: the list of error messages.  A threshold
    is a number here, so [null] and [undefined] do not occur for the
    first one, and [undefined] only for the second. *)
Definition validateColorRule (rule : colorRule) : list string :=
  let operator2 := truthy_operator (rule_operator2 rule) in
  let errors := [] in
  let errors :=
    pushIf (negb (isHexColor (rule_color rule)))
      "Invalid color format. Use hex format (#RRGGBB)" errors in
  let errors :=
    pushIf (isNaN (rule_value rule)) "Value must be a valid number" errors in
  let errors :=
    pushIf (negb (includes ["="; "=="; "<"; "<="; ">"; ">="] (rule_operator rule)))
      "Invalid operator" errors in
  let errors :=
    pushIf (match operator2 with
            | Some op2 => negb (includes ["<"; "<="; ">"; ">="] op2)
            | None => false
            end)
      "Invalid second operator" errors in
  let errors :=
    pushIf (match operator2, rule_value2 rule with
            | Some _, None => true
            | Some _, Some v2 => isNaN v2
            | None, _ => false
            end)
      "Second value must be a valid number when using compound rules" errors in
  match operator2, rule_value2 rule with
  | Some op2, Some value2 =>
      let errors :=
        pushIf (String.eqb (rule_operator rule) ">=" && String.eqb op2 "<" &&
                num_ge (rule_value rule) value2)
          RANGE_ERROR errors in
      pushIf (String.eqb (rule_operator rule) ">" && String.eqb op2 "<=" &&
              num_ge (rule_value rule) value2)
        RANGE_ERROR errors
  | _, _ => errors
  end.

(** The two pairs of operators the range check of [validateColorRule]
    looks at. *)
Definition rangeChecked (rule : colorRule) : Prop :=
  (rule_operator rule = ">=" /\ rule_operator2 rule = Some "<") \/
  (rule_operator rule = ">" /\ rule_operator2 rule = Some "<=").

(** ** The geometry utilities: centre and bounds *)

Record latLng : Type := {
  center_lat : Q;
  center_lng : Q
}.

Record latLngBounds : Type := {
  bounds_north : Q;
  bounds_south : Q;
  bounds_east : Q;
  bounds_west : Q
}.

(** [calculatePolygonCenter(coordinates)]; [None] is [null]. *)
Definition calculatePolygonCenter (coordinates : list (Q * Q)) : option latLng :=
  match coordinates with
  | [] => None
  | _ =>
      let totalLat := fold_left (fun sum coord => sum + fst coord)%Q coordinates 0%Q in
      let totalLng := fold_left (fun sum coord => sum + snd coord)%Q coordinates 0%Q in
      Some {| center_lat := totalLat / inject_Z (Z.of_nat (length coordinates));
              center_lng := totalLng / inject_Z (Z.of_nat (length coordinates)) |}
  end.

(** [Math.max(first, ...rest)] and [Math.min(first, ...rest)]. *)
Definition Math_max (first : Q) (rest : list Q) : Q :=
  fold_left (fun m x => if Qltb m x then x else m) rest first.
Definition Math_min (first : Q) (rest : list Q) : Q :=
  fold_left (fun m x => if Qltb x m then x else m) rest first.

(** [calculatePolygonBounds(coordinates)]; [None] is [null]. *)
Definition calculatePolygonBounds (coordinates : list (Q * Q))
    : option latLngBounds :=
  match coordinates with
  | [] => None
  | coord :: rest =>
      let lats := map fst rest in
      let lngs := map snd rest in
      Some {| bounds_north := Math_max (fst coord) lats;
              bounds_south := Math_min (fst coord) lats;
              bounds_east := Math_max (snd coord) lngs;
              bounds_west := Math_min (snd coord) lngs |}
  end.

(** ** The provider service: batches *)

(** [array.slice(start, end)] *)
Definition sliceIndex (len k : Z) : Z :=
  if k <? 0 then Z.max (len + k) 0 else Z.min k len.

Definition Array_slice {A} (l : list A) (start stop : Z) : list A :=
  let len := Z.of_nat (length l) in
  let from := sliceIndex len start in
  let to := sliceIndex len stop in
  take (Z.to_nat (to - from)) (drop (Z.to_nat from) l).

(** The loop of [batchFetchWeatherData] that fills [batches], from the
    index [i]; [None]: the loop has not ended within [fuel] iterations. *)
Fixpoint splitBatches {A} (fuel : nat) (maxConcurrent : Z) (locations : list A)
    (i : Z) : option (list (list A)) :=
  if i <? Z.of_nat (length locations) then
    match fuel with
    | O => None
    | S fuel' =>
        match splitBatches fuel' maxConcurrent locations (i + maxConcurrent) with
        | Some batches =>
            Some (Array_slice locations i (i + maxConcurrent) :: batches)
        | None => None
        end
    end
  else Some [].

(** [fetchOpenMeteoData(lat, lon, options)] for the location, given how
    the request of the location settles. *)
Definition fetchOpenMeteoData {A} (network : A -> axiosResult) (location : A)
    : outcome (option apiData) :=
  match network location with
  | Resolved data => Return data
  | Rejected message =>
      Throw (String.append "Failed to fetch weather data: " message)
  end.

(** An element of the result of [batchFetchWeatherData]; for [data],
    [None] is [null] or a response without payload. *)
Record batchResult (A : Type) : Type := {
  br_location : A;
  br_data : option apiData;
  br_error : option string
}.
Arguments br_location {A} _.
Arguments br_data {A} _.
Arguments br_error {A} _.

(** The task of one location: its [catch] turns a failure into a result. *)
Definition fetchLocation {A} (network : A -> axiosResult) (location : A)
    : batchResult A :=
  match fetchOpenMeteoData network location with
  | Return data =>
      {| br_location := location; br_data := data; br_error := None |}
  | Throw message =>
      {| br_location := location; br_data := None; br_error := Some message |}
  end.

(** [batchFetchWeatherData(locations, { maxConcurrent })]: the results
    and the time spent in the pauses between batches, in milliseconds. *)
Definition batchFetchWeatherData {A} (fuel : nat) (network : A -> axiosResult)
    (locations : list A) (maxConcurrent : Z)
    : option (list (batchResult A) * Z) :=
  match splitBatches fuel maxConcurrent locations 0 with
  | Some batches =>
      Some (fold_left
              (fun (acc : list (batchResult A) * Z) batch =>
                 (acc.1 ++ map (fetchLocation network) batch,
                  if (1 <? length batches)%nat then acc.2 + 100 else acc.2))
              batches ([], 0))
  | None => None
  end.

(** ** The provider service: retries *)

(** How [retryWithBackoff] settles: with the value of [fn], or rejected
    with [lastError], which is [undefined] ([None]) when [fn] was never
    called. *)
Inductive retried (A : Type) : Type :=
  | Fulfilled (a : A)
  | RejectedWith (lastError : option string).
Arguments Fulfilled {A} a.
Arguments RejectedWith {A} lastError.

(** The [for] loop of [retryWithBackoff] at the attempt [attempt], with
    [remaining] iterations to go.  [fn k] is how the call number [k] of
    [fn] settles (from 0); the result comes with the number of calls made
    and the time spent waiting. *)
Fixpoint retryLoop {A} (fn : nat -> outcome A) (maxRetries baseDelay : Z)
    (remaining : nat) (attempt : Z) (lastError : option string)
    (calls : nat) (waited : Z) : retried A * nat * Z :=
  match remaining with
  | O => (RejectedWith lastError, calls, waited)
  | S remaining' =>
      match fn calls with
      | Return a => (Fulfilled a, S calls, waited)
      | Throw message =>
          if attempt =? maxRetries
          then (RejectedWith (Some message), S calls, waited)
          else
            let delay := baseDelay * 2 ^ (attempt - 1) in
            retryLoop fn maxRetries baseDelay remaining' (attempt + 1)
              (Some message) (S calls) (waited + delay)
      end
  end.

(** [retryWithBackoff(fn, maxRetries, baseDelay)] *)
Definition retryWithBackoff {A} (fn : nat -> outcome A)
    (maxRetries baseDelay : Z) : retried A * nat * Z :=
  retryLoop fn maxRetries baseDelay (Z.to_nat maxRetries) 1 None 0 0.

(** ** The date utilities: hourly timestamps *)

(** The [while] loop of [generateHourlyTimestamps]; [None]: the loop has
    not ended within [fuel] iterations. *)
Fixpoint hourlyLoop (fuel : nat) (current stop : Z) (timestamps : list Z)
    : option (list Z) :=
  if current <=? stop then
    match fuel with
    | O => None
    | S fuel' =>
        hourlyLoop fuel' (addHours current 1) stop (timestamps ++ [current])
    end
  else Some timestamps.

Definition generateHourlyTimestamps (fuel : nat) (startDate endDate : Z)
    : option (list Z) :=
  hourlyLoop fuel startDate endDate [].

(** [findClosestTimestamp(targetTime, timestamps)]; [None] is [null]. *)
Definition findClosestTimestamp (targetTime : Z) (timestamps : list Z)
    : option Z :=
  match timestamps with
  | [] => None
  | first :: _ =>
      Some (fst (fold_left
                   (fun (acc : Z * Z) timestamp =>
                      let diff := Z.abs (targetTime - timestamp) in
                      if diff <? acc.2 then (timestamp, diff) else acc)
                   timestamps (first, Z.abs (targetTime - first))))
  end.

(** ** Limits of the JavaScript values *)

(** The time value of a JS [Date] is at most 8.64e15 ms in absolute
    value; past it the date is invalid, every comparison with it is
    false, and so are [isAfter] and [isBefore]. *)
Definition MAX_DATE : Z := 8640000000000000.

Definition validDate (d : Z) : Prop := - MAX_DATE <= d <= MAX_DATE.

(** The dates up to [hours] hours outside the horizon of [now] are valid
    dates. *)
Definition datesValid (now hours : Z) : Prop :=
  validDate (subHours (timelineStart now) (Z.abs hours)) /\
  validDate (addHours (timelineEnd now) (Z.abs hours)).

(** The dates the store holds are valid dates. *)
Definition storeDatesValid (s : store) : Prop :=
  validDate (currentTime s) /\
  validDate (tw_start (timeRange s)) /\
  validDate (tw_end (timeRange s)).

(** The properties every object literal inherits from [Object.prototype]:
    a lookup [table[key]] with one of these keys finds the inherited value
    and not [undefined]. *)
Definition objectPrototypeKeys : list string :=
  ["constructor"; "__proto__"; "hasOwnProperty"; "isPrototypeOf";
   "propertyIsEnumerable"; "toLocaleString"; "toString"; "valueOf";
   "__defineGetter__"; "__defineSetter__"; "__lookupGetter__";
   "__lookupSetter__"].

Definition ownKey (key : string) : Prop := ~ In key objectPrototypeKeys.

(** ** [updatePolygon] with any [updates] object *)

(** An [updates] object: for each field of a region, [None] when the
    object has no such property.  Properties the regions of this model do
    not carry ([name], [createdAt], [bounds]) do not show. *)
Record polygonPatch : Type := {
  patch_id : option string;
  patch_coordinates : option (list (Q * Q));
  patch_dataSource : option string;
  patch_data : option (option Q);
  patch_color : option (option string);
  patch_lastUpdated : option (option Z);
  patch_error : option (option string)
}.

(** [{ ...p, ...updates }] *)
Definition mergePolygon (updates : polygonPatch) (p : polygon) : polygon :=
  {| poly_id := default (poly_id p) (patch_id updates);
     poly_coordinates := default (poly_coordinates p) (patch_coordinates updates);
     poly_dataSource := default (poly_dataSource p) (patch_dataSource updates);
     poly_data := default (poly_data p) (patch_data updates);
     poly_color := default (poly_color p) (patch_color updates);
     poly_lastUpdated := default (poly_lastUpdated p) (patch_lastUpdated updates);
     poly_error := default (poly_error p) (patch_error updates) |}.

(** [updatePolygon(id, updates)] for any [updates]. *)
Definition updatePolygonWith (id : string) (updates : polygonPatch) (s : store)
    : store :=
  setPolygons
    (map (fun p => if String.eqb (poly_id p) id then mergePolygon updates p else p)
         (polygons s)) s.

(** The object the refresh hooks pass: [{ data, color, lastUpdated, error }]. *)
Definition patchOf (u : polygonUpdate) : polygonPatch :=
  {| patch_id := None; patch_coordinates := None; patch_dataSource := None;
     patch_data := Some (Some (upd_data u));
     patch_color := Some (Some (upd_color u));
     patch_lastUpdated := Some (Some (upd_lastUpdated u));
     patch_error := Some (upd_error u) |}.

(** The object the sidebar passes when the metric of a region is changed:
    [{ dataSource }]. *)
Definition dataSourcePatch (dataSourceId : string) : polygonPatch :=
  {| patch_id := None; patch_coordinates := None;
     patch_dataSource := Some dataSourceId;
     patch_data := None; patch_color := None; patch_lastUpdated := None;
     patch_error := None |}.

(** ** The aggregation in binary64 *)

(** JS numbers are IEEE 754 binary64 numbers: every operation rounds its
    exact result to the nearest representable number, ties to even.  The
    operations are those of the specification of floating-point
    arithmetic of the standard library, at 53 bits of precision. *)
Module Binary64.

Definition float : Type := SpecFloat.spec_float.
Definition prec : Z := 53.
Definition emax : Z := 1024.

Definition add : float -> float -> float := SpecFloat.SFadd prec emax.
Definition mul : float -> float -> float := SpecFloat.SFmul prec emax.
Definition div : float -> float -> float := SpecFloat.SFdiv prec emax.

(** The number an integer literal denotes. *)
Definition ofZ (k : Z) : float := SpecFloat.binary_normalize prec emax k 0 false.

(** The number a decimal literal, or a number of a JSON payload, denotes:
    the binary64 number nearest to it.  A rational that is a binary64
    number denotes itself. *)
Definition ofQ (q : Q) : float :=
  match Qnum q with
  | Z0 => SpecFloat.S754_zero false
  | Zpos n =>
      div (SpecFloat.S754_finite false n 0)
          (SpecFloat.S754_finite false (Qden q) 0)
  | Zneg n =>
      div (SpecFloat.S754_finite true n 0)
          (SpecFloat.S754_finite false (Qden q) 0)
  end.

Definition pow2 (e : Z) : Q :=
  match e with
  | Z0 => 1%Q
  | Zpos p => inject_Z (2 ^ Zpos p)
  | Zneg p => (1 / inject_Z (2 ^ Zpos p))%Q
  end.


(** [Math.round(x)]: the integer nearest to [x], a tie going up; a
    result of zero keeps the sign of [x]; [NaN] and the infinities are
    returned as they are. *)
Definition Math_round (x : float) : float :=
  match x with
  | SpecFloat.S754_finite s m e =>
      let value := ((if s then - inject_Z (Zpos m) else inject_Z (Zpos m)) * pow2 e)%Q in
      let k := Qfloor (value + (1 # 2))%Q in
      if k =? 0 then SpecFloat.S754_zero s else ofZ k
  | _ => x
  end.

(** [relevantValues.reduce((sum, val) => sum + val, 0) / relevantValues.length] *)
Definition average (relevantValues : list float) : float :=
  div (fold_left add relevantValues (ofZ 0))
      (ofZ (Z.of_nat (length relevantValues))).

(** [Math.round(x * 10) / 10] *)
Definition round1 (x : float) : float :=
  div (Math_round (mul x (ofZ 10))) (ofZ 10).

End Binary64.




(** The dates a step by [hours] hours reads and computes are valid
    dates. *)
Definition stepDatesValid (hours : Z) (s : store) : Prop :=
  storeDatesValid s /\
  validDate (addHours (currentTime s) hours) /\
  validDate (addHours (tw_start (timeRange s)) hours) /\
  validDate (addHours (tw_end (timeRange s)) hours).

(** * Properties *)

(** ** Comparisons *)

Lemma Qltb_iff (x y : Q) : Qltb x y = true <-> (x < y)%Q.
Proof.
  unfold Qltb. rewrite negb_true_iff. split.
  - intros H. apply Qnot_le_lt. intros Hle.
    apply Qle_bool_iff in Hle. congruence.
  - intros H. destruct (Qle_bool y x) eqn:E; [|reflexivity].
    apply Qle_bool_iff in E. exfalso. exact (Qlt_not_le _ _ H E).
Qed.

(** One case of the [switch]: the operator is the literal of the case,
    and the boolean comparison reflects the relation of that case, the
    other disjuncts being refuted by their operator. *)
Ltac switch_case v t reflect :=
  destruct v as [|?x], t as [|?y]; cbn; try (split; [discriminate | tauto]);
  rewrite reflect; split; [tauto|];
  intros [[[?|?] ?]|[[? ?]|[[? ?]|[[? ?]|[? ?]]]]]; done.

Lemma primaryMatches_compares (op : string) (v t : jsnum) :
  primaryMatches op v t = true <-> compares op v t.
Proof.
  unfold primaryMatches, compares.
  destruct (String.eqb_spec op "=") as [->|H1]; cbn [orb];
    [switch_case v t Qeq_bool_iff|].
  destruct (String.eqb_spec op "==") as [->|H2]; [switch_case v t Qeq_bool_iff|].
  destruct (String.eqb_spec op "<") as [->|H3]; [switch_case v t Qltb_iff|].
  destruct (String.eqb_spec op "<=") as [->|H4]; [switch_case v t Qle_bool_iff|].
  destruct (String.eqb_spec op ">") as [->|H5]; [switch_case v t Qltb_iff|].
  destruct (String.eqb_spec op ">=") as [->|H6]; [switch_case v t Qle_bool_iff|].
  split; [discriminate|].
  destruct v, t; tauto.
Qed.

Lemma secondaryMatches_compares (op2 : string) (v t2 : jsnum) :
  In op2 ["<"; "<="; ">"; ">="] ->
  secondaryMatches op2 v t2 = primaryMatches op2 v t2.
Proof.
  intros H. cbn in H.
  destruct H as [<-|[<-|[<-|[<-|[]]]]]; reflexivity.
Qed.

Lemma matchesRule_ruleHolds (v : jsnum) (r : colorRule) :
  validRule r -> matchesRule v r = true <-> ruleHolds v r.
Proof.
  intros [_ Hsec]. unfold matchesRule, ruleHolds.
  rewrite <- primaryMatches_compares.
  destruct (rule_operator2 r) as [op2|], (rule_value2 r) as [t2|];
    try contradiction.
  - rewrite <- primaryMatches_compares.
    assert (truthy_operator (Some op2) = Some op2) as ->.
    { cbn in Hsec. destruct Hsec as [<-|[<-|[<-|[<-|[]]]]]; reflexivity. }
    rewrite <- (secondaryMatches_compares op2 v t2 Hsec).
    destruct (primaryMatches (rule_operator r) v (rule_value r)); cbn.
    + tauto.
    + split; [discriminate|]. intros [? _]. discriminate.
  - destruct (primaryMatches _ _ _), (truthy_operator (Some op2)); tauto.
  - cbn. destruct (primaryMatches _ _ _); tauto.
Qed.

(** ** The colour rule engine *)

Lemma firstMatchingColor_app (v : jsnum) (pre rest : list colorRule) :
  Forall (fun r => matchesRule v r = false) pre ->
  firstMatchingColor v (pre ++ rest) = firstMatchingColor v rest.
Proof.
  induction 1 as [|r pre Hr _ IH]; cbn; [reflexivity|].
  now rewrite Hr.
Qed.

Lemma not_ruleHolds_matchesRule (v : jsnum) (rules : list colorRule) :
  Forall validRule rules ->
  Forall (fun r => ~ ruleHolds v r) rules ->
  Forall (fun r => matchesRule v r = false) rules.
Proof.
  induction 1 as [|r rules Hr _ IH]; intros Hn; [constructor|].
  apply Forall_cons in Hn as [Hn1 Hn2]. constructor; [|auto].
  destruct (matchesRule v r) eqn:E; [|reflexivity].
  exfalso. apply Hn1. now apply matchesRule_ruleHolds.
Qed.

Lemma matchesRule_no_threshold2 (v : jsnum) (r : colorRule) :
  rule_value2 r = None ->
  matchesRule v r = primaryMatches (rule_operator r) v (rule_value r).
Proof.
  intros Hv2. unfold matchesRule. rewrite Hv2.
  destruct (primaryMatches _ _ _), (truthy_operator (rule_operator2 r));
    reflexivity.
Qed.

(** C1.  For a metric of the data-source set whose rules have the shape
    of the rule language, and any number (a [NaN] included),
    [getColorForValue] returns the colour of the first rule, in list
    order, whose full condition holds (the primary comparison and, when a
    secondary clause is present, the secondary comparison); it returns
    the default colour [#666666] when no rule holds and when the value is
    absent; and an equality rule matches exactly when the value and the
    threshold are equal as numbers. *)
Theorem getColorForValue_first_match
    (s : store) (sourceId : string) (ds : dataSource) (v : jsnum) :
  getDataSourceById sourceId s = Some ds ->
  Forall validRule (ds_colorRules ds) ->
  (forall pre r post,
      ds_colorRules ds = pre ++ r :: post ->
      Forall (fun r' => ~ ruleHolds v r') pre ->
      ruleHolds v r ->
      getColorForValue sourceId (Some v) s = rule_color r) /\
  (Forall (fun r' => ~ ruleHolds v r') (ds_colorRules ds) ->
   getColorForValue sourceId (Some v) s = "#666666") /\
  getColorForValue sourceId None s = "#666666" /\
  (forall (op color : string) (x t : Q),
      op = "=" \/ op = "==" ->
      matchesRule (Num x) (simpleRule op t color) = true <-> (x == t)%Q).
Proof.
  intros Hds Hvalid. unfold getColorForValue. rewrite Hds.
  repeat split.
  - intros pre r post Hsplit Hpre Hr. rewrite Hsplit in *.
    apply Forall_app in Hvalid as [Hvpre Hvr].
    apply Forall_cons in Hvr as [Hvr _].
    rewrite firstMatchingColor_app
      by (apply not_ruleHolds_matchesRule; assumption).
    cbn. apply (matchesRule_ruleHolds v r Hvr) in Hr. now rewrite Hr.
  - intros Hnone.
    rewrite <- (app_nil_r (ds_colorRules ds)).
    rewrite firstMatchingColor_app
      by (apply not_ruleHolds_matchesRule; assumption).
    reflexivity.
  - rewrite matchesRule_no_threshold2 by reflexivity. intros Hm.
    apply Qeq_bool_iff. destruct H as [-> | ->]; exact Hm.
  - rewrite matchesRule_no_threshold2 by reflexivity. intros Hm.
    apply Qeq_bool_iff in Hm. destruct H as [-> | ->]; exact Hm.
Qed.

(** The example of the design: 17 degrees is yellow. *)
Lemma getColorForValue_first_match_witness :
  getDataSourceById "temperature" (initialStore 0)
    = nth_error initialDataSources 0 /\
  getColorForValue "temperature" (Some (Num 17)) (initialStore 0) = "#faad14".
Proof.
  split; [reflexivity|].
  refine (proj1 (getColorForValue_first_match (initialStore 0) "temperature"
                   _ (Num 17) eq_refl _)
            [simpleRule "<" 0 "#1890ff"; compoundRule ">=" 0 "<" 15 "#52c41a"]
            (compoundRule ">=" 15 "<" 25 "#faad14")
            [simpleRule ">=" 25 "#f5222d"] eq_refl _ _).
  - repeat (constructor; [split; cbn; auto 10|]). constructor.
  - repeat (constructor;
            [intros [H1 H2]; cbn in H1, H2; unfold Qlt, Qle, Qeq in H1, H2;
             cbn in H1, H2; intuition (discriminate || lia)|]).
    constructor.
  - unfold ruleHolds, compares; cbn. unfold Qlt, Qle, Qeq; cbn. split.
    + right; right; right; right. split; [reflexivity | lia].
    + right; left. split; [reflexivity | lia].
Defined.

Lemma matchesRule_unknown_operator (v : jsnum) (r : colorRule) :
  ~ In (rule_operator r) ["="; "=="; "<"; "<="; ">"; ">="] ->
  matchesRule v r = false.
Proof.
  intros Hop. unfold matchesRule.
  assert (primaryMatches (rule_operator r) v (rule_value r) = false) as ->;
    [|reflexivity].
  unfold primaryMatches. cbn in Hop.
  repeat match goal with
  | |- context [String.eqb ?a ?b] =>
      destruct (String.eqb_spec a b) as [E|_]; [exfalso; apply Hop; rewrite E; tauto|]
  end.
  reflexivity.
Qed.

Lemma firstMatchingColor_cases (x : jsnum) (l : list colorRule) :
  firstMatchingColor x l = "#666666" \/
  exists rule, In rule l /\ firstMatchingColor x l = rule_color rule.
Proof.
  induction l as [|a l IHl]; [now left|]. cbn.
  destruct (matchesRule x a).
  - right. exists a. auto.
  - destruct IHl as [->|(rule & Hin & ->)]; [now left|].
    right. exists rule. auto.
Qed.

(** C10.  Rule matching is total over arbitrary operator strings.  A
    rule whose primary operator is none of [=], [==], [<], [<=], [>],
    [>=] never matches, so evaluation falls through to the rules after it;
    a rule with a secondary operator but an undefined secondary threshold
    is evaluated on its primary comparison alone; and for every store,
    identifier and value [getColorForValue] returns a colour: the default
    one or the colour of a rule of the metric. *)
Theorem matchesRule_total
    (v : jsnum) (r : colorRule) (rest : list colorRule)
    (sourceId : string) (value : option jsnum) (s : store) :
  (~ In (rule_operator r) ["="; "=="; "<"; "<="; ">"; ">="] ->
   matchesRule v r = false /\
   firstMatchingColor v (r :: rest) = firstMatchingColor v rest) /\
  (rule_value2 r = None ->
   matchesRule v r = primaryMatches (rule_operator r) v (rule_value r)) /\
  (getColorForValue sourceId value s = "#666666" \/
   exists ds rule,
     getDataSourceById sourceId s = Some ds /\
     In rule (ds_colorRules ds) /\
     getColorForValue sourceId value s = rule_color rule).
Proof.
  split; [|split].
  - intros Hop. split.
    + now apply matchesRule_unknown_operator.
    + cbn. now rewrite matchesRule_unknown_operator.
  - apply matchesRule_no_threshold2.
  - unfold getColorForValue.
    destruct (getDataSourceById sourceId s) as [ds|]; [|now left].
    destruct value as [x|]; [|now left].
    destruct (firstMatchingColor_cases x (ds_colorRules ds))
      as [->|(rule & Hin & ->)]; [now left|].
    right. exists ds, rule. auto.
Qed.

Lemma matchesRule_total_witness :
  matchesRule (Num 3) (simpleRule "!=" 3 "#f5222d") = false /\
  matchesRule (Num 3)
    {| rule_operator := ">="; rule_value := Num 0; rule_operator2 := Some "<";
       rule_value2 := None; rule_color := "#52c41a" |} = true.
Proof.
  split.
  - refine (proj1 (proj1 (matchesRule_total (Num 3) (simpleRule "!=" 3 "#f5222d")
                            [] "temperature" None (initialStore 0)) _)).
    cbn. intros H. repeat (destruct H as [H|H]; [discriminate H|]). exact H.
  - rewrite (proj1 (proj2 (matchesRule_total (Num 3)
               {| rule_operator := ">="; rule_value := Num 0;
                  rule_operator2 := Some "<"; rule_value2 := None;
                  rule_color := "#52c41a" |}
               [] "temperature" None (initialStore 0))) eq_refl).
    reflexivity.
Defined.

(** ** The weather cache *)

Lemma getCachedWeatherData_fresh (s : store) (key : string) (e : cacheEntry)
    (now : Z) :
  weatherDataCache s !! key = Some e ->
  now - entry_timestamp e <= 3600000 ->
  getCachedWeatherData now key s = (Some (entry_data e), s).
Proof.
  intros He Hage. unfold getCachedWeatherData, CACHE_TTL. rewrite He.
  destruct (Z.ltb_spec 3600000 (now - entry_timestamp e)); [lia|reflexivity].
Qed.

Lemma getCachedWeatherData_expired (s : store) (key : string) (e : cacheEntry)
    (now : Z) :
  weatherDataCache s !! key = Some e ->
  3600000 < now - entry_timestamp e ->
  getCachedWeatherData now key s
    = (None, setCache (delete key (weatherDataCache s)) s).
Proof.
  intros He Hage. unfold getCachedWeatherData, CACHE_TTL. rewrite He.
  destruct (Z.ltb_spec 3600000 (now - entry_timestamp e)); [reflexivity|lia].
Qed.

(** C5.  [get] right after [put] returns the stored series; [get] of an
    entry at most one hour old returns it and leaves the store alone;
    [get] of an entry older than one hour returns absent and removes the
    key, and only that key, so that every later [get] of it is absent
    too; [put] stores the series under the key with the current time,
    whatever was there before. *)
Theorem weatherCache_get_put
    (s : store) (key : string) (data data0 : apiData) (e : cacheEntry)
    (now now0 now' : Z) :
  getCachedWeatherData now key (cacheWeatherData now key data s)
    = (Some data, cacheWeatherData now key data s) /\
  (weatherDataCache s !! key = Some e ->
   now' - entry_timestamp e <= 3600000 ->
   getCachedWeatherData now' key s = (Some (entry_data e), s)) /\
  (weatherDataCache s !! key = Some e ->
   3600000 < now' - entry_timestamp e ->
   let s' := (getCachedWeatherData now' key s).2 in
   (getCachedWeatherData now' key s).1 = None /\
   weatherDataCache s' !! key = None /\
   (forall later, getCachedWeatherData later key s' = (None, s')) /\
   (forall other, other <> key ->
      weatherDataCache s' !! other = weatherDataCache s !! other)) /\
  weatherDataCache (cacheWeatherData now key data s) !! key
    = Some {| entry_data := data; entry_timestamp := now |} /\
  cacheWeatherData now key data (cacheWeatherData now0 key data0 s)
    = cacheWeatherData now key data s.
Proof.
  assert (Hput : weatherDataCache (cacheWeatherData now key data s) !! key
                 = Some {| entry_data := data; entry_timestamp := now |})
    by apply lookup_insert_eq.
  split; [|split; [|split; [|split]]].
  - rewrite (getCachedWeatherData_fresh _ key _ now Hput); [reflexivity|].
    cbn. lia.
  - apply getCachedWeatherData_fresh.
  - intros He Hage s'. subst s'.
    rewrite (getCachedWeatherData_expired s key e now' He Hage). cbn.
    split; [reflexivity|]. split; [apply lookup_delete_eq|]. split.
    + intros later. unfold getCachedWeatherData. cbn.
      now rewrite lookup_delete_eq.
    + intros other Hne. now apply lookup_delete_ne.
  - exact Hput.
  - unfold cacheWeatherData, setCache. cbn. f_equal. apply insert_insert_eq.
Qed.

Lemma weatherCache_get_put_witness :
  let s := cacheWeatherData 1000 "52.5200_13.4100_temperature" emptyPayload
             (initialStore 0) in
  (getCachedWeatherData 3601000 "52.5200_13.4100_temperature" s).1
    = Some emptyPayload /\
  (getCachedWeatherData 3601001 "52.5200_13.4100_temperature" s).1 = None /\
  weatherDataCache
    (getCachedWeatherData 3601001 "52.5200_13.4100_temperature" s).2
    !! "52.5200_13.4100_temperature" = None.
Proof.
  intros s.
  pose proof (weatherCache_get_put s "52.5200_13.4100_temperature"
                emptyPayload emptyPayload
                {| entry_data := emptyPayload; entry_timestamp := 1000 |}
                0 0 3601000) as (_ & Hfresh & _).
  pose proof (weatherCache_get_put s "52.5200_13.4100_temperature"
                emptyPayload emptyPayload
                {| entry_data := emptyPayload; entry_timestamp := 1000 |}
                0 0 3601001) as (_ & _ & Hold & _).
  split; [|split].
  - rewrite Hfresh; [reflexivity | apply lookup_insert_eq | cbn; lia].
  - apply Hold; [apply lookup_insert_eq | cbn; lia].
  - apply Hold; [apply lookup_insert_eq | cbn; lia].
Defined.

(** ** Aggregation over the time window *)







(** [round1 x] is [k / 10] for the integer [k] nearest to [10 x]. *)
Lemma round1_nearest (x : Q) :
  exists k : Z,
    round1 x = (inject_Z k / 10)%Q /\
    (x * 10 - (1 # 2) < inject_Z k)%Q /\ (inject_Z k <= x * 10 + (1 # 2))%Q.
Proof.
  exists (Math_round (x * 10)). split; [reflexivity|]. unfold Math_round.
  split.
  - pose proof (Qlt_floor (x * 10 + (1 # 2))) as H.
    rewrite inject_Z_plus in H. change (inject_Z 1) with 1%Q in H. lra.
  - apply Qfloor_le.
Qed.





(** Rounding each sample before averaging would give another result:
    the mean of 0.04, 0.04 and 0.07 is reported as 0.1, while the samples
    rounded first average to 0. *)
Example round1_after_averaging :
  Binary64.round1
    (Binary64.average (map Binary64.ofQ [4 # 100; 4 # 100; 7 # 100]))
  = Binary64.ofQ (1 # 10) /\
  Binary64.round1
    (Binary64.average
       (map Binary64.round1 (map Binary64.ofQ [4 # 100; 4 # 100; 7 # 100])))
  = Binary64.ofZ 0.
Proof. split; vm_compute; reflexivity. Qed.

(** ** The time window *)

Lemma differenceInHours_whole (later earlier : Z) :
  (later - earlier) mod MS_PER_HOUR = 0 ->
  differenceInHours later earlier * MS_PER_HOUR = later - earlier.
Proof.
  unfold differenceInHours, MS_PER_HOUR. intros Hmod.
  apply Z.rem_mod_eq_0 in Hmod; [|lia].
  pose proof (Z.quot_rem' (later - earlier) 3600000). lia.
Qed.

Lemma differenceInHours_nonneg (later earlier : Z) :
  earlier <= later -> 0 <= differenceInHours later earlier.
Proof.
  intros H. unfold differenceInHours, MS_PER_HOUR.
  apply Z.quot_pos; lia.
Qed.

(** The window keeps its length in whole hours and loses the rest. *)
Lemma differenceInHours_addHours (start hours : Z) :
  differenceInHours (addHours start hours) start = hours.
Proof.
  unfold differenceInHours, addHours, MS_PER_HOUR.
  replace (start + hours * 3600000 - start) with (hours * 3600000) by lia.
  apply Z.quot_mul. lia.
Qed.

(** C6.  The code evaluated where it departs from the claim: a window
    whose length is not a whole number of hours.  Stepping the window
    [[-24h, 24h + 1ms]] by one hour is accepted and shortens it by the
    millisecond; stepping it by 336 hours is accepted although the window
    shifted as it is would end after the forward horizon (360h); stepping
    the window [[0h, 1h30]] by one hour gives [[1h, 2h]]. *)
Theorem moveTimeForward_drops_fraction :
  moveTimeForward 0 1 tickedStore
    = (true,
       setTimeRange {| tw_start := addHours 0 (-23); tw_end := addHours 0 25 |}
         tickedStore) /\
  duration_ms (timeRange tickedStore) = 48 * 3600000 + 1 /\
  duration_ms (timeRange (moveTimeForward 0 1 tickedStore).2) = 48 * 3600000 /\
  moveTimeForward 0 336 tickedStore
    = (true,
       setTimeRange {| tw_start := addHours 0 312; tw_end := addHours 0 360 |}
         tickedStore) /\
  timelineEnd 0 < addHours (tw_end (timeRange tickedStore)) 336 /\
  moveTimeForward 0 1 ninetyMinuteStore
    = (true,
       setTimeRange {| tw_start := addHours 0 1; tw_end := addHours 0 2 |}
         ninetyMinuteStore).
Proof. repeat split; vm_compute; congruence. Qed.

(** In instant mode, and in range mode for a window that lasts a whole
    number of hours, [moveTimeForward] does what is claimed: if the shifted
    instant or window would end after the forward horizon it returns
    [false] and only stops playback, and otherwise it stores the instant
    or the window shifted by the hours, its duration unchanged, and
    returns [true]. *)
Lemma moveTimeForward_whole_hours (now hours : Z) (s : store) :
  0 < hours ->
  (isRangeMode s = true ->
   (tw_end (timeRange s) - tw_start (timeRange s)) mod 3600000 = 0) ->
  let shifted :=
    {| tw_start := tw_start (timeRange s) + hours * 3600000;
       tw_end := tw_end (timeRange s) + hours * 3600000 |} in
  let reached :=
    if isRangeMode s then tw_end shifted
    else currentTime s + hours * 3600000 in
  (timelineEnd now < reached ->
   moveTimeForward now hours s = (false, setPlaying false s)) /\
  (reached <= timelineEnd now ->
   moveTimeForward now hours s
     = (true,
        if isRangeMode s then setTimeRange shifted s
        else setCurrentTime (currentTime s + hours * 3600000) s)).
Proof.
  intros Hpos Hwhole shifted reached.
  unfold moveTimeForward, isAfter, addHours. subst reached shifted.
  destruct (isRangeMode s); cbn [tw_end].
  - pose proof (differenceInHours_whole _ _ (Hwhole eq_refl)) as Hd.
    rewrite Hd. unfold MS_PER_HOUR.
    replace (tw_start (timeRange s) + hours * 3600000
             + (tw_end (timeRange s) - tw_start (timeRange s)))
      with (tw_end (timeRange s) + hours * 3600000) by lia.
    destruct (Z.ltb_spec (timelineEnd now)
                (tw_end (timeRange s) + hours * 3600000));
      split; intros; try lia; reflexivity.
  - unfold MS_PER_HOUR.
    destruct (Z.ltb_spec (timelineEnd now) (currentTime s + hours * 3600000));
      split; intros; try lia; reflexivity.
Qed.

Example moveTimeForward_at_the_edge :
  moveTimeForward 0 1 rangeStore
    = (true,
       setTimeRange {| tw_start := addHours 0 (-23); tw_end := addHours 0 25 |}
         rangeStore) /\
  moveTimeForward 0 1 edgeStore = (false, setPlaying false edgeStore) /\
  currentTime (setPlaying false edgeStore) = currentTime edgeStore /\
  timeRange (setPlaying false edgeStore) = timeRange edgeStore /\
  isPlaying (setPlaying false edgeStore) = false.
Proof. repeat split. Qed.

(** C7, as the claim states it, fails: in range mode the window is not
    centred on the target, it starts there.  Jumping to 10h with the
    window [[0h, 2h]] gives [[10h, 12h]], whose centre is 11h. *)
Lemma jumpToTime_not_centred :
  jumpToTime 0 (addHours 0 10) twoHourStore
    = (true,
       setTimeRange {| tw_start := addHours 0 10; tw_end := addHours 0 12 |}
         twoHourStore) /\
  let w := timeRange (jumpToTime 0 (addHours 0 10) twoHourStore).2 in
  tw_start w + tw_end w <> 2 * addHours 0 10.
Proof. split; vm_compute; congruence. Qed.

(** C7, amended.  For a target inside the horizon, and a window whose
    start is not after its end, [jumpToTime] returns [true] and the
    resulting window contains the target.  In instant mode the instant
    becomes the target.  In range mode the window starts at the target or,
    clipped, ends on the horizon end; when it lasts a whole number of
    hours it keeps its duration: it is the window of that duration that
    starts at the target, or the one that ends on the horizon end if the
    former would end after it.  For a target outside the horizon
    [jumpToTime] returns [false] and the store is unchanged. *)
Theorem jumpToTime_spec (now t : Z) (s : store) :
  tw_start (timeRange s) <= tw_end (timeRange s) ->
  (timelineStart now <= t <= timelineEnd now ->
   exists s',
     jumpToTime now t s = (true, s') /\
     windowContains (getTimeWindow s') t /\
     isRangeMode s' = isRangeMode s /\
     (isRangeMode s = false -> s' = setCurrentTime t s) /\
     (isRangeMode s = true ->
      (tw_start (timeRange s') = t \/
       tw_end (timeRange s') = timelineEnd now) /\
      ((tw_end (timeRange s) - tw_start (timeRange s)) mod 3600000 = 0 ->
       let d := duration_ms (timeRange s) in
       timeRange s'
       = if timelineEnd now <? t + d
         then {| tw_start := timelineEnd now - d; tw_end := timelineEnd now |}
         else {| tw_start := t; tw_end := t + d |}))) /\
  (t < timelineStart now \/ timelineEnd now < t ->
   jumpToTime now t s = (false, s)).
Proof.
  intros Hord.
  pose proof (differenceInHours_nonneg _ _ Hord) as Hd.
  split.
  - intros [Hlo Hhi]. unfold jumpToTime, isBefore, isAfter.
    destruct (Z.ltb_spec t (timelineStart now)); [lia|].
    destruct (Z.ltb_spec (timelineEnd now) t); [lia|]. cbn [orb].
    destruct (isRangeMode s) eqn:Hmode.
    + set (duration := differenceInHours (tw_end (timeRange s))
                         (tw_start (timeRange s))) in *.
      assert (Hwhole :
                (tw_end (timeRange s) - tw_start (timeRange s)) mod 3600000 = 0 ->
                duration * MS_PER_HOUR = duration_ms (timeRange s)).
      { intros Hw. apply differenceInHours_whole. exact Hw. }
      unfold addHours, subHours.
      destruct (Z.ltb_spec (timelineEnd now) (t + duration * MS_PER_HOUR))
        as [Hclip|Hfit].
      * eexists. split; [reflexivity|].
        unfold windowContains, getTimeWindow. cbn. rewrite Hmode. cbn.
        unfold MS_PER_HOUR in *.
        split; [lia|]. split; [reflexivity|]. split; [discriminate|].
        intros _. split; [now right|]. intros Hw.
        rewrite <- (Hwhole Hw).
        destruct (Z.ltb_spec (timelineEnd now) (t + duration * 3600000));
          [reflexivity|lia].
      * eexists. split; [reflexivity|].
        unfold windowContains, getTimeWindow. cbn. rewrite Hmode. cbn.
        unfold MS_PER_HOUR in *.
        split; [lia|]. split; [reflexivity|]. split; [discriminate|].
        intros _. split; [now left|]. intros Hw.
        rewrite <- (Hwhole Hw).
        destruct (Z.ltb_spec (timelineEnd now) (t + duration * 3600000));
          [lia|reflexivity].
    + eexists. split; [reflexivity|].
      unfold windowContains, getTimeWindow, addHours, MS_PER_HOUR.
      cbn. rewrite Hmode. cbn.
      split; [lia|]. split; [reflexivity|]. split; [reflexivity|discriminate].
  - intros Hout. unfold jumpToTime, isBefore, isAfter.
    destruct (Z.ltb_spec t (timelineStart now)); [reflexivity|].
    destruct (Z.ltb_spec (timelineEnd now) t); [reflexivity|]. lia.
Qed.

Lemma jumpToTime_spec_witness :
  (jumpToTime 0 (addHours 0 350) rangeStore).1 = true /\
  windowContains
    (getTimeWindow (jumpToTime 0 (addHours 0 350) rangeStore).2)
    (addHours 0 350) /\
  jumpToTime 0 (addHours 0 361) rangeStore = (false, rangeStore).
Proof.
  destruct (jumpToTime_spec 0 (addHours 0 350) rangeStore
              ltac:(vm_compute; congruence)) as [Hin _].
  destruct (Hin ltac:(vm_compute; split; congruence))
    as (s' & Hrun & Hcontains & _).
  rewrite Hrun. split; [reflexivity|]. split; [exact Hcontains|].
  apply (jumpToTime_spec 0 (addHours 0 361) rangeStore
           ltac:(vm_compute; congruence)).
  right. vm_compute. reflexivity.
Defined.

(** C8.  The code evaluated where it departs from the claim: the step
    buttons of the slider store the shifted window without testing it
    against the horizon.  From a window that ends on the horizon end, the
    forward button gives a window that ends an hour after it, where
    [moveTimeForward] and the playback tick of the same component refuse
    the step; from a window that starts on the horizon start, the backward
    button gives a window that starts an hour before it, where
    [moveTimeBackward] refuses. *)
Theorem stepForward_leaves_horizon :
  withinHorizon 0 (getTimeWindow edgeStore) /\
  timeRange (TimelineSlider.stepForward edgeStore)
    = {| tw_start := subHours (timelineEnd 0) 47;
         tw_end := addHours (timelineEnd 0) 1 |} /\
  ~ withinHorizon 0 (getTimeWindow (TimelineSlider.stepForward edgeStore)) /\
  moveTimeForward 0 1 edgeStore = (false, setPlaying false edgeStore) /\
  TimelineSlider.playbackTick 0 edgeStore = setPlaying false edgeStore /\
  withinHorizon 0 (getTimeWindow startEdgeStore) /\
  ~ withinHorizon 0 (getTimeWindow (TimelineSlider.stepBackward startEdgeStore)) /\
  moveTimeBackward 0 1 startEdgeStore = (false, startEdgeStore).
Proof.
  repeat split; try (vm_compute; congruence).
  - intros [_ H]. vm_compute in H. congruence.
  - intros [H _]. vm_compute in H. congruence.
Qed.

(** The hook keeps the end of the window inside the forward horizon. *)
Lemma moveTimeForward_keeps_end (now hours : Z) (s : store) :
  0 <= hours ->
  tw_end (timeRange s) <= timelineEnd now ->
  currentTime s <= timelineEnd now ->
  tw_end (timeRange (moveTimeForward now hours s).2) <= timelineEnd now /\
  currentTime (moveTimeForward now hours s).2 <= timelineEnd now.
Proof.
  intros Hh Hend Hcur. unfold moveTimeForward, isAfter.
  destruct (isRangeMode s).
  - destruct (Z.ltb_spec (timelineEnd now)
                (addHours (addHours (tw_start (timeRange s)) hours)
                   (differenceInHours (tw_end (timeRange s))
                      (tw_start (timeRange s))))); cbn; lia.
  - destruct (Z.ltb_spec (timelineEnd now) (addHours (currentTime s) hours));
      cbn; lia.
Qed.

(** ** Fetching: failures, unknown metrics, synthetic values *)

(** The cache is the only part of the store a lookup can change. *)
Lemma getCachedWeatherData_frame (now : Z) (key : string) (s : store) :
  exists c, (getCachedWeatherData now key s).2 = setCache c s.
Proof.
  unfold getCachedWeatherData.
  destruct (weatherDataCache s !! key) as [e|].
  - destruct (CACHE_TTL <? now - entry_timestamp e); cbn.
    + eexists; reflexivity.
    + exists (weatherDataCache s). now destruct s.
  - exists (weatherDataCache s). now destruct s.
Qed.

Lemma calculateCurrentValue_setCache (u : Q) (data : apiData)
    (dataSourceId : string) (c : gmap string cacheEntry) (s : store) :
  calculateCurrentValue u data dataSourceId (setCache c s)
  = calculateCurrentValue u data dataSourceId s.
Proof. reflexivity. Qed.

(** [fetchWeatherData] never throws, before or after its [await]. *)
Lemma fetchWeatherData_begin_returns (now today : Z) (u : Q) (lat lon : jsnum)
    (dataSourceId : string) (s : store) :
  exists phase s',
    fetchWeatherData_begin now today u lat lon dataSourceId s
    = (Return phase, s').
Proof.
  unfold fetchWeatherData_begin, tryCatch, bind, liftS, gets, ret, buildApiUrl,
    throw.
  destruct (getCachedWeatherData now (cacheKeyOf lat lon dataSourceId) s)
    as [[cached|] s1]; cbn; [eauto|].
  destruct (getDataSourceById dataSourceId s1); cbn; eauto.
Qed.

Lemma fetchWeatherData_resume_returns (now : Z) (u : Q) (lat lon : jsnum)
    (dataSourceId : string) (response : axiosResult) (s : store) :
  exists value s',
    fetchWeatherData_resume now u lat lon dataSourceId response s
    = (Return value, s').
Proof.
  unfold fetchWeatherData_resume, tryCatch, bind, modify, gets, ret, throw.
  destruct response as [message|[data|]]; cbn; eauto.
  destruct (api_hourly data); cbn; eauto.
Qed.

Lemma fetchWeatherData_returns (now now' today : Z) (u1 u2 : Q)
    (network : request -> axiosResult) (lat lon : jsnum)
    (dataSourceId : string) (s : store) :
  exists value s',
    fetchWeatherData now now' today u1 u2 network lat lon dataSourceId s
    = (Return value, s').
Proof.
  unfold fetchWeatherData, bind.
  destruct (fetchWeatherData_begin_returns now today u1 lat lon dataSourceId s)
    as (phase & s1 & ->).
  destruct phase as [value|url]; [unfold ret; eauto|].
  apply fetchWeatherData_resume_returns.
Qed.

(** A request that fails, or a response without the [hourly] object,
    gives the synthetic value and leaves the store alone. *)
Lemma fetchWeatherData_resume_failed (now : Z) (u : Q) (lat lon : jsnum)
    (dataSourceId : string) (response : axiosResult) (s : store) :
  failedResponse response ->
  fetchWeatherData_resume now u lat lon dataSourceId response s
  = (Return (generateMockData u dataSourceId), s).
Proof.
  unfold fetchWeatherData_resume, tryCatch, bind, modify, gets, ret, throw.
  destruct response as [message|[data|]]; cbn; try reflexivity.
  now intros ->.
Qed.

Lemma fetchWeatherData_resume_ok (now : Z) (u : Q) (lat lon : jsnum)
    (dataSourceId : string) (data : apiData) (h : hourlyData) (s : store) :
  api_hourly data = Some h ->
  fetchWeatherData_resume now u lat lon dataSourceId (Resolved (Some data)) s
  = (Return (calculateCurrentValue u data dataSourceId s),
     cacheWeatherData now (cacheKeyOf lat lon dataSourceId) data s).
Proof.
  intros Hh.
  unfold fetchWeatherData_resume, tryCatch, bind, modify, gets, ret, throw.
  now rewrite Hh.
Qed.

(** The callback of [fetchMultiplePolygons] records no error, however the
    request settles: its [catch] is never entered. *)
Lemma fetchPolygon_resume_no_error (now : Z) (u u' : Q) (polygonId : string)
    (lat lon : jsnum) (dataSourceId : string) (response : axiosResult)
    (s : store) :
  exists value s',
    fetchWeatherData_resume now u lat lon dataSourceId response s
      = (Return value, s') /\
    fetchPolygon_resume now u u' polygonId lat lon dataSourceId response s
      = (Return {| res_polygonId := polygonId; res_value := value;
                   res_error := None |}, s').
Proof.
  destruct (fetchWeatherData_resume_returns now u lat lon dataSourceId
              response s) as (value & s' & Hres).
  exists value, s'. split; [exact Hres|].
  unfold fetchPolygon_resume, tryCatch, bind, ret. now rewrite Hres.
Qed.

Lemma Math_round_inject_Z (k : Z) : Math_round (inject_Z k) = k.
Proof.
  unfold Math_round.
  apply Z.le_antisymm.
  - apply Z.lt_succ_r. rewrite (Zlt_Qlt _ (Z.succ k)).
    eapply Qle_lt_trans; [apply Qfloor_le|].
    unfold Z.succ. rewrite inject_Z_plus. change (inject_Z 1) with 1%Q. lra.
  - rewrite <- (Qfloor_Z k) at 1. apply Qfloor_resp_le. lra.
Qed.

Lemma Math_round_mono (x y : Q) : (x <= y)%Q -> Math_round x <= Math_round y.
Proof. intros H. unfold Math_round. apply Qfloor_resp_le. lra. Qed.

Lemma Qdiv10 (q : Q) : (q / 10 == q * (1 # 10))%Q.
Proof. reflexivity. Qed.

(** Rounding to one decimal keeps a value between two bounds that are
    themselves tenths. *)
Lemma round1_between (a b : Z) (x : Q) :
  (inject_Z a / 10 <= x)%Q -> (x <= inject_Z b / 10)%Q ->
  (inject_Z a / 10 <= round1 x)%Q /\ (round1 x <= inject_Z b / 10)%Q.
Proof.
  intros Ha Hb. unfold round1. rewrite !Qdiv10 in *.
  assert (inject_Z a <= x * 10)%Q as Ha' by lra.
  assert (x * 10 <= inject_Z b)%Q as Hb' by lra.
  apply Math_round_mono in Ha', Hb'. rewrite Math_round_inject_Z in Ha', Hb'.
  rewrite Zle_Qle in Ha', Hb'.
  split; lra.
Qed.

(** The synthetic value lies in the range of the metric and is a tenth. *)
Lemma generateMockData_range (u : Q) (dataSourceId : string) :
  (0 <= u)%Q -> (u < 1)%Q ->
  let range :=
    match mockDataRanges dataSourceId with
    | Some r => r
    | None => (0, 100)%Q
    end in
  (range.1 <= generateMockData u dataSourceId)%Q /\
  (generateMockData u dataSourceId <= range.2)%Q /\
  exists k : Z, generateMockData u dataSourceId = (inject_Z k / 10)%Q.
Proof.
  intros H0 H1 range.
  assert (exists a b : Z, (range.1 == inject_Z a / 10)%Q /\
                          (range.2 == inject_Z b / 10)%Q /\ a <= b)
    as (a & b & Ea & Eb & Hab).
  { subst range. unfold mockDataRanges.
    repeat match goal with
    | |- context [String.eqb ?x ?y] => destruct (String.eqb x y)
    end; cbn [fst snd].
    - exists (-100), 350. repeat split; lia || reflexivity.
    - exists 300, 900. repeat split; lia || reflexivity.
    - exists 0, 200. repeat split; lia || reflexivity.
    - exists 0, 1000. repeat split; lia || reflexivity. }
  assert (range.1 <= range.2)%Q as Hle.
  { rewrite Ea, Eb, !Qdiv10. rewrite Zle_Qle in Hab. lra. }
  unfold generateMockData. fold range.
  destruct (round1_between a b (u * (range.2 - range.1) + range.1)) as [Hl Hh].
  - rewrite <- Ea. nra.
  - rewrite <- Eb. nra.
  - split; [|split].
    + eapply Qle_trans; [|exact Hl]. apply Qle_lteq. right. exact Ea.
    + eapply Qle_trans; [exact Hh|]. apply Qle_lteq. right. symmetry. exact Eb.
    + eexists. reflexivity.
Qed.

(** C9, as the claim states it, fails: an unknown metric identifier is
    reported to nobody.  [getColorForValue] answers the default colour and
    [fetchWeatherData] a synthetic value; only [buildApiUrl] throws, into
    the [catch] of [fetchWeatherData]. *)
Lemma unknown_metric_swallowed :
  getDataSourceById "windspeed" berlinStore = None /\
  getColorForValue "windspeed" (Some (Num 5)) berlinStore = "#666666" /\
  fetchWeatherData 0 0 0 (1 # 2) (1 # 2) (fun _ => Rejected "Network Error")
    (Num 52) (Num 13) "windspeed" berlinStore
    = (Return (generateMockData (1 # 2) "windspeed"), berlinStore) /\
  (generateMockData (1 # 2) "windspeed" == 50)%Q /\
  (buildApiUrl 0 (Num 52) (Num 13) "windspeed" berlinStore).1
    = Throw "Data source windspeed not found".
Proof. repeat split. Qed.

(** C9, amended.  For an identifier that names no metric of the store,
    [getColorForValue] returns the default colour for every value,
    [calculateCurrentValue] and [fetchWeatherData] return the synthetic
    value of that identifier without throwing and without a request, and
    [buildApiUrl] alone throws "Data source ... not found". *)
Theorem unknown_metric_defaults (s : store) (sourceId : string) :
  getDataSourceById sourceId s = None ->
  (forall value, getColorForValue sourceId value s = "#666666") /\
  (forall u data,
      calculateCurrentValue u data sourceId s = generateMockData u sourceId) /\
  (forall now now' today u1 u2 network lat lon,
      exists s',
        fetchWeatherData now now' today u1 u2 network lat lon sourceId s
        = (Return (generateMockData u1 sourceId), s')) /\
  (forall today lat lon,
      buildApiUrl today lat lon sourceId s
      = (Throw (String.append "Data source "
                  (String.append sourceId " not found")), s)).
Proof.
  intros Hnone. split; [|split; [|split]].
  - intros value. unfold getColorForValue. now rewrite Hnone.
  - intros u data. unfold calculateCurrentValue. now rewrite Hnone.
  - intros now now' today u1 u2 network lat lon.
    unfold fetchWeatherData, fetchWeatherData_begin, tryCatch, bind, liftS,
      gets, ret, buildApiUrl, throw.
    destruct (getCachedWeatherData_frame now (cacheKeyOf lat lon sourceId) s)
      as [c Hc].
    destruct (getCachedWeatherData now (cacheKeyOf lat lon sourceId) s)
      as [[cached|] s1]; cbn in Hc; subst s1; cbn.
    + rewrite calculateCurrentValue_setCache. unfold calculateCurrentValue.
      rewrite Hnone. eauto.
    + unfold getDataSourceById in Hnone. rewrite Hnone. cbn. eauto.
  - intros today lat lon. unfold buildApiUrl, bind, gets, throw.
    now rewrite Hnone.
Qed.

Lemma unknown_metric_defaults_witness :
  getColorForValue "windspeed" (Some (Num 5)) berlinStore = "#666666" /\
  calculateCurrentValue (1 # 2) samplePayload "windspeed" berlinStore
    = generateMockData (1 # 2) "windspeed".
Proof.
  pose proof (unknown_metric_defaults berlinStore "windspeed" eq_refl)
    as (Hcolor & Hcalc & _).
  split; [apply Hcolor | apply Hcalc].
Defined.

(** On a cache miss for a known metric, a failed request makes
    [fetchWeatherData] return the synthetic value, as a plain number. *)
Lemma fetchWeatherData_failure (now now' today : Z) (u1 u2 : Q)
    (network : request -> axiosResult) (lat lon : jsnum)
    (dataSourceId : string) (ds : dataSource) (s : store) :
  weatherDataCache s !! cacheKeyOf lat lon dataSourceId = None ->
  getDataSourceById dataSourceId s = Some ds ->
  (forall url, failedResponse (network url)) ->
  fetchWeatherData now now' today u1 u2 network lat lon dataSourceId s
  = (Return (generateMockData u2 dataSourceId), s).
Proof.
  intros Hmiss Hds Hfail.
  unfold fetchWeatherData, fetchWeatherData_begin, tryCatch, bind, liftS,
    gets, ret, buildApiUrl, throw, getCachedWeatherData.
  rewrite Hmiss. cbn. rewrite Hds. unfold ret.
  now apply fetchWeatherData_resume_failed.
Qed.

(** C4 fails on its last part.  After a refresh whose request fails, the
    region holds the synthetic value 12.5 with no error recorded: the same
    region, field for field, as after a refresh whose request succeeds
    with a reading of 12.5. *)
Theorem synthetic_value_unmarked :
  polygons (sys_store (run berlinSystem failedRefresh))
    = polygons (sys_store (run berlinSystem realRefresh)) /\
  map poly_data (polygons (sys_store (run berlinSystem failedRefresh)))
    = [Some (generateMockData (1 # 2) "temperature")] /\
  map poly_error (polygons (sys_store (run berlinSystem failedRefresh)))
    = [None].
Proof. repeat split; vm_compute; reflexivity. Qed.

(** ** Overlapping refreshes *)

(** C2, as the claim states it, fails: nothing is discarded.  The second
    refresh records 20 degrees for the window at hour 5; when the request
    of the first refresh settles afterwards, its result is written over
    it: 18 degrees if it carries another payload, the synthetic 12.5 if it
    fails, and a new update time even if it carries the same payload. *)
Lemma stale_refresh_overwrites :
  map poly_data (polygons (sys_store (run berlinSystem secondRefreshDone)))
    = [Some (inject_Z 200 / 10)%Q] /\
  map poly_data
    (polygons (sys_store (run berlinSystem
       (overlappingRefreshes (Resolved (Some (payloadOf 10 18)))))))
    = [Some (inject_Z 180 / 10)%Q] /\
  map poly_data
    (polygons (sys_store (run berlinSystem
       (overlappingRefreshes (Rejected "timeout of 10000ms exceeded")))))
    = [Some (inject_Z 125 / 10)%Q] /\
  map poly_lastUpdated
    (polygons (sys_store (run berlinSystem
       (overlappingRefreshes (Resolved (Some (payloadOf 10 20)))))))
    = [Some 3000] /\
  map poly_lastUpdated
    (polygons (sys_store (run berlinSystem secondRefreshDone)))
    = [Some 2000].
Proof. repeat split; vm_compute; reflexivity. Qed.

Lemma updatePolygon_polygons (id : string) (u : polygonUpdate) (s : store) :
  polygons (updatePolygon id u s)
  = map (fun q => if String.eqb (poly_id q) id then applyUpdate u q else q)
        (polygons s).
Proof. reflexivity. Qed.

Lemma find_result_None (id : string) (results : list fetchResult) :
  ~ In id (map res_polygonId results) ->
  List.find (fun r => String.eqb id (res_polygonId r)) results = None.
Proof.
  induction results as [|r rest IH]; intros Hnot; [reflexivity|].
  cbn in *. destruct (String.eqb_spec id (res_polygonId r)) as [->|_].
  - exfalso. apply Hnot. now left.
  - apply IH. intros Hin. apply Hnot. now right.
Qed.

(** The [forEach] of the refresh, region by region: when no two results
    carry the same identifier, every region of the store ends as
    [writtenBy] says. *)
Lemma applyResults_polygons (now : Z) (snapshot : list polygon)
    (results : list fetchResult) :
  List.NoDup (map res_polygonId results) ->
  forall s : store,
    polygons (applyResults now snapshot results s)
    = map (writtenBy now snapshot s results) (polygons s) /\
    dataSources (applyResults now snapshot results s) = dataSources s /\
    getTimeWindow (applyResults now snapshot results s) = getTimeWindow s.
Proof.
  induction results as [|r rest IH]; intros Hnodup s.
  - cbn. split; [|split; reflexivity].
    rewrite <- (map_id (polygons s)) at 1. reflexivity.
  - apply List.NoDup_cons_iff in Hnodup as [Hfresh Hnodup].
    change (applyResults now snapshot (r :: rest) s)
      with (applyResults now snapshot rest (applyResult now snapshot s r)).
    destruct (IH Hnodup (applyResult now snapshot s r)) as (Hpoly & Hds & Htw).
    rewrite Hpoly, Hds, Htw. clear Hpoly Hds Htw IH.
    unfold applyResult.
    destruct (List.find (fun p => String.eqb (poly_id p) (res_polygonId r))
                snapshot) as [p|] eqn:Hfind.
    + split; [|split; reflexivity].
      rewrite updatePolygon_polygons, map_map. apply map_ext. intros q.
      unfold writtenBy at 2. cbn [List.find].
      destruct (String.eqb_spec (poly_id q) (res_polygonId r)) as [Hid|Hid].
      * rewrite Hfind. unfold writtenBy. cbn [applyUpdate poly_id].
        rewrite Hid, (find_result_None _ _ Hfresh). reflexivity.
      * reflexivity.
    + split; [|split; reflexivity].
      apply map_ext. intros q. unfold writtenBy at 2. cbn [List.find].
      destruct (String.eqb_spec (poly_id q) (res_polygonId r)) as [Hid|Hid].
      * rewrite Hfind. unfold writtenBy.
        rewrite Hid, (find_result_None _ _ Hfresh). reflexivity.
      * reflexivity.
Qed.

Lemma allSettled_Ready (r : fetchResult) (slots : list slot) :
  Forall (fun sl => exists r', sl = Ready r') slots ->
  allSettled slots = Some (settledWith r slots).
Proof.
  induction 1 as [|sl slots [r' ->] _ IH]; [reflexivity|].
  cbn. now rewrite IH.
Qed.

Lemma allSettled_settledWith (r : fetchResult) (slots : list slot) (i : nat) :
  (forall j sl, j <> i -> slots !! j = Some sl -> exists r', sl = Ready r') ->
  allSettled (<[i := Ready r]> slots)
  = Some (settledWith r (<[i := Ready r]> slots)).
Proof.
  intros Hothers. apply allSettled_Ready, Forall_lookup. intros j sl Hj.
  destruct (decide (j = i)) as [->|Hne].
  - apply list_lookup_insert_Some in Hj as [(_ & <- & _)|[Hne _]]; [eauto|done].
  - rewrite list_lookup_insert_ne in Hj by done. eauto.
Qed.

Lemma applyResults_getTimeWindow (now : Z) (snapshot : list polygon)
    (results : list fetchResult) :
  forall s : store,
    getTimeWindow (applyResults now snapshot results s) = getTimeWindow s.
Proof.
  induction results as [|r rest IH]; intros s; [reflexivity|].
  change (applyResults now snapshot (r :: rest) s)
    with (applyResults now snapshot rest (applyResult now snapshot s r)).
  rewrite IH. unfold applyResult.
  now destruct (List.find _ snapshot).
Qed.

(** C2, amended.  A refresh carries no generation tag.  When the last
    pending request of a refresh settles, whatever other refreshes have
    started or finished meanwhile, the results of that refresh are written
    to the regions: every region whose identifier a result carries gets
    the value of the result, the colour of that value, the time of the
    write and the error of the result, which is none for the request that
    has just settled.  The value of that request is the synthetic one if
    it failed, and otherwise the aggregate of its payload over the time
    window the store holds at that moment, not the window of the time of
    the call. *)
Theorem late_response_applied
    (sys : system) (call task : nat) (c : refreshCall) (polygonId : string)
    (lat lon : jsnum) (dataSourceId : string) (url : request)
    (response : axiosResult) (now : Z) (u u' : Q) :
  sys_calls sys !! call = Some c ->
  call_slots c !! task = Some (Pending polygonId lat lon dataSourceId url) ->
  (forall j sl, j <> task -> call_slots c !! j = Some sl ->
                exists r, sl = Ready r) ->
  let s := sys_store sys in
  let s' := sys_store (step sys (Response call task response now u u')) in
  exists value : Q,
    let result := {| res_polygonId := polygonId; res_value := value;
                     res_error := None |} in
    let results := settledWith result (<[task := Ready result]> (call_slots c)) in
    (fetchWeatherData_resume now u lat lon dataSourceId response s).1
      = Return value /\
    (forall data h,
        response = Resolved (Some data) -> api_hourly data = Some h ->
        value = calculateCurrentValue u data dataSourceId s) /\
    (failedResponse response -> value = generateMockData u dataSourceId) /\
    results !! task = Some result /\
    (List.NoDup (map res_polygonId results) ->
     polygons s' = map (writtenBy now (call_polygons c) s results) (polygons s)) /\
    getTimeWindow s' = getTimeWindow s.
Proof.
  intros Hcall Hslot Hothers s s'.
  destruct (fetchPolygon_resume_no_error now u u' polygonId lat lon
              dataSourceId response s) as (value & s1 & Hres & Hpoly).
  assert (Hs1 : exists cache, s1 = setCache cache s).
  { destruct response as [message|[data|]].
    - rewrite fetchWeatherData_resume_failed in Hres by exact I.
      injection Hres as _ <-. exists (weatherDataCache s). now destruct s.
    - destruct (api_hourly data) as [h|] eqn:Hh.
      + rewrite (fetchWeatherData_resume_ok _ _ _ _ _ _ h) in Hres by exact Hh.
        injection Hres as _ <-. eexists. reflexivity.
      + rewrite fetchWeatherData_resume_failed in Hres by exact Hh.
        injection Hres as _ <-. exists (weatherDataCache s). now destruct s.
    - rewrite fetchWeatherData_resume_failed in Hres by exact I.
      injection Hres as _ <-. exists (weatherDataCache s). now destruct s. }
  destruct Hs1 as [cache ->].
  exists value. intros result results.
  split; [now rewrite Hres|]. split; [|split; [|split]].
  - intros data h -> Hh.
    rewrite (fetchWeatherData_resume_ok _ _ _ _ _ _ h) in Hres by exact Hh.
    now injection Hres as <- _.
  - intros Hfail.
    rewrite fetchWeatherData_resume_failed in Hres by exact Hfail.
    now injection Hres as <- _.
  - subst results. unfold settledWith. rewrite list_lookup_fmap.
    rewrite list_lookup_insert_eq; [reflexivity|].
    now apply lookup_lt_Some in Hslot.
  - assert (Hstore : s' = applyResults now (call_polygons c) results
                            (setCache cache s)).
    { subst s'. unfold step. fold s. rewrite Hcall, Hslot, Hpoly.
      cbn [sys_store]. unfold finishCall. cbn [call_slots call_polygons].
      fold result.
      now rewrite (allSettled_settledWith result _ _ Hothers). }
    rewrite Hstore. split.
    + intros Hnodup.
      now destruct (applyResults_polygons now (call_polygons c) results Hnodup
                      (setCache cache s)) as (-> & _ & _).
    + now rewrite applyResults_getTimeWindow.
Qed.

Lemma late_response_applied_witness :
  map poly_data
    (polygons (sys_store
       (step (run berlinSystem secondRefreshDone)
          (Response 0 0 (Resolved (Some (payloadOf 10 18))) 3000 (1 # 2) 0))))
  = [Some (calculateCurrentValue (1 # 2) (payloadOf 10 18) "temperature"
             (sys_store (run berlinSystem secondRefreshDone)))].
Proof.
  assert (Hothers :
            forall (j : nat) (sl : slot), j <> 0%nat ->
              call_slots berlinCall !! j = Some sl -> exists r, sl = Ready r).
  { intros [|j] sl Hj; [congruence|]. discriminate. }
  destruct (late_response_applied (run berlinSystem secondRefreshDone) 0 0
              berlinCall "1700000000000"
              (meanCoordinate fst (poly_coordinates berlinPolygon))
              (meanCoordinate snd (poly_coordinates berlinPolygon))
              "temperature" berlinRequest
              (Resolved (Some (payloadOf 10 18))) 3000 (1 # 2) 0
              eq_refl eq_refl Hothers)
    as (value & _ & Hvalue & _ & _ & Hpolygons & _).
  rewrite Hpolygons.
  - rewrite (Hvalue _ _ eq_refl eq_refl). reflexivity.
  - repeat constructor. intros Hin. inversion Hin.
Defined.

(** * More properties of the store and the hooks *)

(** ** Editing the rules of a metric *)

Lemma find_map_same_key {A} (key : A -> string) (f : A -> A) (id : string)
    (l : list A) :
  (forall x, key (f x) = key x) ->
  List.find (fun x => String.eqb (key x) id) (map f l)
  = f <$> List.find (fun x => String.eqb (key x) id) l.
Proof.
  intros Hkey. induction l as [|x l IH]; [reflexivity|].
  cbn. rewrite Hkey. now destruct (String.eqb (key x) id).
Qed.

Lemma find_key_eq {A} (key : A -> string) (id : string) (l : list A) (x : A) :
  List.find (fun x => String.eqb (key x) id) l = Some x -> key x = id.
Proof.
  intros H. apply List.find_some in H as [_ H]. now apply String.eqb_eq.
Qed.

Lemma getDataSourceById_editColorRules (id sourceId : string)
    (f : list colorRule -> list colorRule) (s : store) :
  getDataSourceById id (editColorRules sourceId f s)
  = (fun ds => if String.eqb id sourceId
               then setColorRules (f (ds_colorRules ds)) ds else ds)
      <$> getDataSourceById id s.
Proof.
  unfold getDataSourceById, editColorRules. cbn [dataSources setDataSources].
  rewrite (find_map_same_key ds_id).
  - destruct (List.find _ (dataSources s)) as [ds|] eqn:Hfind; [|reflexivity].
    cbn. now rewrite (find_key_eq ds_id _ _ _ Hfind).
  - intros ds. now destruct (String.eqb (ds_id ds) sourceId).
Qed.

Lemma firstMatchingColor_snoc (v : jsnum) (rules : list colorRule)
    (rule : colorRule) :
  firstMatchingColor v (rules ++ [rule])
  = if existsb (matchesRule v) rules then firstMatchingColor v rules
    else if matchesRule v rule then rule_color rule else "#666666".
Proof.
  induction rules as [|r rules IH]; cbn; [reflexivity|].
  now destruct (matchesRule v r).
Qed.

(** X1.  A rule added to a metric is consulted last: a value that some
    rule of the metric already matched keeps its colour, a value that none
    matched gets the colour of the new rule if that one matches, and the
    other metrics and the absent value are not affected. *)
Theorem addColorRule_keeps_matches
    (s : store) (id sourceId : string) (rule : colorRule) (v : jsnum) :
  getColorForValue id (Some v) (addColorRule sourceId rule s)
  = match getDataSourceById id s with
    | Some ds =>
        if existsb (matchesRule v) (ds_colorRules ds) || negb (String.eqb id sourceId)
        then getColorForValue id (Some v) s
        else if matchesRule v rule then rule_color rule else "#666666"
    | None => "#666666"
    end /\
  getColorForValue id None (addColorRule sourceId rule s) = "#666666".
Proof.
  split.
  - unfold getColorForValue, addColorRule.
    rewrite getDataSourceById_editColorRules.
    destruct (getDataSourceById id s) as [ds|]; [|reflexivity]. cbn.
    destruct (String.eqb id sourceId); cbn.
    + rewrite firstMatchingColor_snoc, orb_false_r.
      now destruct (existsb (matchesRule v) (ds_colorRules ds)).
    + now rewrite orb_true_r.
  - unfold getColorForValue. now destruct (getDataSourceById id _).
Qed.

Lemma mapWithIndex_past {A} (g : A -> A) (target : Z) (l : list A) :
  forall k : nat,
    target < Z.of_nat k ->
    mapWithIndex
      (fun index x => if Z.of_nat index =? target then g x else x) k l = l.
Proof.
  induction l as [|x l IH]; intros k Hk; [reflexivity|].
  cbn [mapWithIndex]. rewrite IH by lia.
  destruct (Z.eqb_spec (Z.of_nat k) target); [lia|reflexivity].
Qed.

Lemma mapWithIndex_alter {A} (g : A -> A) (l : list A) :
  forall k i : nat,
    mapWithIndex
      (fun index x => if Z.of_nat index =? Z.of_nat (k + i) then g x else x) k l
    = alter g i l.
Proof.
  induction l as [|x l IH]; intros k i; [reflexivity|].
  cbn [mapWithIndex]. destruct i as [|i].
  - rewrite Nat.add_0_r, Z.eqb_refl, mapWithIndex_past by lia. reflexivity.
  - destruct (Z.eqb_spec (Z.of_nat k) (Z.of_nat (k + S i))); [lia|].
    replace (k + S i)%nat with (S k + i)%nat by lia. now rewrite IH.
Qed.

Lemma filterWithIndex_past {A} (target : Z) (l : list A) :
  forall k : nat,
    target < Z.of_nat k ->
    filterWithIndex (fun index => negb (Z.of_nat index =? target)) k l = l.
Proof.
  induction l as [|x l IH]; intros k Hk; [reflexivity|].
  cbn [filterWithIndex]. rewrite IH by lia.
  destruct (Z.eqb_spec (Z.of_nat k) target); [lia|reflexivity].
Qed.

Lemma filterWithIndex_delete {A} (l : list A) :
  forall k i : nat,
    filterWithIndex (fun index => negb (Z.of_nat index =? Z.of_nat (k + i))) k l
    = delete i l.
Proof.
  induction l as [|x l IH]; intros k i; [reflexivity|].
  cbn [filterWithIndex]. destruct i as [|i].
  - rewrite Nat.add_0_r, Z.eqb_refl, filterWithIndex_past by lia. reflexivity.
  - destruct (Z.eqb_spec (Z.of_nat k) (Z.of_nat (k + S i))); [lia|].
    replace (k + S i)%nat with (S k + i)%nat by lia. cbn [negb]. now rewrite IH.
Qed.

Lemma alter_past {A} (g : A -> A) (l : list A) :
  forall i : nat, (length l <= i)%nat -> alter g i l = l.
Proof.
  induction l as [|x l IH]; intros i Hi; [reflexivity|].
  destruct i as [|i]; cbn in *; [lia|]. f_equal. apply IH. lia.
Qed.

Lemma delete_past {A} (l : list A) :
  forall i : nat, (length l <= i)%nat -> delete i l = l.
Proof.
  induction l as [|x l IH]; intros i Hi; [reflexivity|].
  destruct i as [|i]; cbn in *; [lia|]. f_equal. apply IH. lia.
Qed.

Lemma editColorRules_id (sourceId : string)
    (f : list colorRule -> list colorRule) (s : store) :
  (forall rules, f rules = rules) -> editColorRules sourceId f s = s.
Proof.
  intros Hf. unfold editColorRules.
  assert (map (fun ds => if String.eqb (ds_id ds) sourceId
                         then setColorRules (f (ds_colorRules ds)) ds else ds)
              (dataSources s) = dataSources s) as ->.
  { rewrite <- (map_id (dataSources s)) at 2. apply map_ext. intros ds.
    rewrite Hf. destruct ds. cbn. now destruct (String.eqb _ _). }
  now destruct s.
Qed.

(** X2.  The rule editor works by position.  [updateColorRule] merges the
    updates into the rule at the index and [deleteColorRule] removes the
    rule at the index, in the metric named and in no other; an index past
    the end or negative changes nothing; and deleting at the old length
    after [addColorRule] gives back the rules the metric had. *)
Theorem colorRule_edits_by_position
    (s : store) (sourceId other : string) (ds : dataSource) (i : nat)
    (updates : ruleUpdates) (rule : colorRule) (negative : Z) :
  getDataSourceById sourceId s = Some ds ->
  let rules := ds_colorRules ds in
  ds_colorRules <$> getDataSourceById sourceId
                      (updateColorRule sourceId (Z.of_nat i) updates s)
    = Some (alter (fun r => mergeRule r updates) i rules) /\
  ds_colorRules <$> getDataSourceById sourceId
                      (deleteColorRule sourceId (Z.of_nat i) s)
    = Some (delete i rules) /\
  ((length rules <= i)%nat ->
   getDataSourceById sourceId (updateColorRule sourceId (Z.of_nat i) updates s)
     = Some ds /\
   getDataSourceById sourceId (deleteColorRule sourceId (Z.of_nat i) s)
     = Some ds) /\
  (negative < 0 ->
   updateColorRule sourceId negative updates s = s /\
   deleteColorRule sourceId negative s = s) /\
  (other <> sourceId ->
   getDataSourceById other (updateColorRule sourceId (Z.of_nat i) updates s)
     = getDataSourceById other s /\
   getDataSourceById other (deleteColorRule sourceId (Z.of_nat i) s)
     = getDataSourceById other s) /\
  getDataSourceById sourceId
    (deleteColorRule sourceId (Z.of_nat (length rules))
       (addColorRule sourceId rule s))
    = Some ds.
Proof.
  intros Hds rules.
  split; [|split; [|split; [|split; [|split]]]].
  - unfold updateColorRule. rewrite getDataSourceById_editColorRules, Hds.
    cbn. rewrite String.eqb_refl. cbn.
    now rewrite (mapWithIndex_alter _ _ 0 i).
  - unfold deleteColorRule. rewrite getDataSourceById_editColorRules, Hds.
    cbn. rewrite String.eqb_refl. cbn.
    now rewrite (filterWithIndex_delete _ 0 i).
  - intros Hlen. unfold updateColorRule, deleteColorRule.
    rewrite !getDataSourceById_editColorRules, Hds. cbn.
    rewrite String.eqb_refl.
    rewrite (mapWithIndex_alter _ _ 0 i), (filterWithIndex_delete _ 0 i).
    fold rules. rewrite alter_past, delete_past by exact Hlen.
    subst rules. now destruct ds.
  - intros Hneg. split.
    + apply editColorRules_id. intros l. apply mapWithIndex_past. lia.
    + apply editColorRules_id. intros l. apply filterWithIndex_past. lia.
  - intros Hne. unfold updateColorRule, deleteColorRule.
    rewrite !getDataSourceById_editColorRules.
    destruct (String.eqb_spec other sourceId); [done|].
    split; now destruct (getDataSourceById other s).
  - unfold deleteColorRule, addColorRule.
    rewrite !getDataSourceById_editColorRules, Hds. cbn.
    rewrite String.eqb_refl. cbn.
    rewrite (filterWithIndex_delete _ 0 (length rules)).
    subst rules. rewrite (delete_middle (ds_colorRules ds) [] rule), app_nil_r.
    now destruct ds.
Qed.

Lemma colorRule_edits_by_position_witness :
  ds_colorRules <$> getDataSourceById "precipitation"
                      (deleteColorRule "precipitation" 0 (initialStore 0))
  = Some [ compoundRule ">" 0 "<" 1 "#91d5ff";
           compoundRule ">=" 1 "<" 5 "#40a9ff";
           simpleRule ">=" 5 "#096dd9" ].
Proof.
  pose proof (colorRule_edits_by_position (initialStore 0) "precipitation"
                "humidity" _ 0
                {| set_operator := None; set_value := None;
                   set_operator2 := None; set_value2 := None;
                   set_color := None |}
                (simpleRule "<" 0 "#1890ff") (-1) eq_refl) as (_ & Hdelete & _).
  exact Hdelete.
Defined.

(** ** Editing the regions *)

Lemma find_none_map_id {A} (pred : A -> bool) (f : A -> A) (l : list A) :
  List.find pred l = None ->
  map (fun x => if pred x then f x else x) l = l.
Proof.
  induction l as [|x l IH]; [reflexivity|]. cbn.
  destruct (pred x); [discriminate|]. intros H. now rewrite IH.
Qed.

(** X3.  [updatePolygon] merges the updates into the regions that carry
    the identifier and touches nothing else.  The number and the order of
    the regions are kept; a region with another identifier is kept as it
    is; a field the updates do not name is kept in every region; when the
    updates do not rename the region, the region found under the
    identifier is the old one with the updates merged in, and the regions
    found under other identifiers are the same as before; an identifier
    that no region carries leaves the store as it is.  The call of the
    refresh is the case of the four derived fields, and the call of the
    sidebar that changes the metric keeps the value and the colour the
    region had. *)
Theorem updatePolygon_frame
    (id other : string) (updates : polygonPatch) (s : store) :
  Forall2
    (fun p p' =>
       p' = (if String.eqb (poly_id p) id then mergePolygon updates p else p))
    (polygons s) (polygons (updatePolygonWith id updates s)) /\
  (patch_id updates = None ->
   map poly_id (polygons (updatePolygonWith id updates s))
     = map poly_id (polygons s) /\
   getPolygonById id (updatePolygonWith id updates s)
     = mergePolygon updates <$> getPolygonById id s /\
   (other <> id ->
    getPolygonById other (updatePolygonWith id updates s)
      = getPolygonById other s)) /\
  (patch_coordinates updates = None ->
   map poly_coordinates (polygons (updatePolygonWith id updates s))
     = map poly_coordinates (polygons s)) /\
  (patch_dataSource updates = None ->
   map poly_dataSource (polygons (updatePolygonWith id updates s))
     = map poly_dataSource (polygons s)) /\
  (getPolygonById id s = None -> updatePolygonWith id updates s = s) /\
  (forall u : polygonUpdate,
     updatePolygon id u s = updatePolygonWith id (patchOf u) s) /\
  (forall dataSourceId : string,
     map (fun p => (poly_data p, poly_color p))
       (polygons (updatePolygonWith id (dataSourcePatch dataSourceId) s))
     = map (fun p => (poly_data p, poly_color p)) (polygons s)).
Proof.
  assert (Hpolygons :
            polygons (updatePolygonWith id updates s)
            = map (fun p => if String.eqb (poly_id p) id
                            then mergePolygon updates p else p) (polygons s))
    by reflexivity.
  assert (Hfield : forall {B} (field : polygon -> B) (patch : polygonPatch),
             (forall p, field (mergePolygon patch p) = field p) ->
             map field (polygons (updatePolygonWith id patch s))
             = map field (polygons s)).
  { intros B field patch Hf. unfold updatePolygonWith. cbn [polygons setPolygons].
    rewrite map_map. apply map_ext. intros p.
    destruct (String.eqb (poly_id p) id); auto. }
  split; [|split; [|split; [|split; [|split; [|split]]]]].
  - rewrite Hpolygons. apply Forall2_fmap_r, Forall_Forall2_diag, Forall_forall.
    now intros p _.
  - intros Hid.
    assert (Hkeep : forall p, poly_id (mergePolygon updates p) = poly_id p)
      by (intros p; cbn; now rewrite Hid).
    assert (Hget : forall key,
               getPolygonById key (updatePolygonWith id updates s)
               = (fun p => if String.eqb key id then mergePolygon updates p else p)
                   <$> getPolygonById key s).
    { intros key. unfold getPolygonById. rewrite Hpolygons.
      rewrite (find_map_same_key poly_id).
      - destruct (List.find _ (polygons s)) as [p|] eqn:Hfind; [|reflexivity].
        cbn. now rewrite (find_key_eq poly_id _ _ _ Hfind).
      - intros p. destruct (String.eqb (poly_id p) id); [apply Hkeep|reflexivity]. }
    split; [now apply Hfield|]. split.
    + rewrite Hget, String.eqb_refl. reflexivity.
    + intros Hne. rewrite Hget. destruct (String.eqb_spec other id); [done|].
      now destruct (getPolygonById other s).
  - intros Hnone. apply Hfield. intros p. cbn. now rewrite Hnone.
  - intros Hnone. apply Hfield. intros p. cbn. now rewrite Hnone.
  - intros Hnone. unfold updatePolygonWith.
    rewrite (find_none_map_id (fun p => String.eqb (poly_id p) id)
               (mergePolygon updates) (polygons s) Hnone).
    now destruct s.
  - intros u. reflexivity.
  - intros dataSourceId. now apply Hfield.
Qed.

Lemma updatePolygon_frame_witness :
  getPolygonById "1700000000000"
    (updatePolygonWith "1700000000000" (dataSourcePatch "humidity") berlinStore)
  = mergePolygon (dataSourcePatch "humidity")
      <$> getPolygonById "1700000000000" berlinStore /\
  updatePolygonWith "42" (dataSourcePatch "humidity") berlinStore = berlinStore.
Proof.
  pose proof (updatePolygon_frame "1700000000000" "42"
                (dataSourcePatch "humidity") berlinStore)
    as (_ & Hid & _).
  pose proof (updatePolygon_frame "42" "42" (dataSourcePatch "humidity")
                berlinStore)
    as (_ & _ & _ & _ & Hnone & _).
  split.
  - apply (Hid eq_refl).
  - apply Hnone. reflexivity.
Defined.

Lemma find_filter_out {A} (key : A -> string) (id other : string) (l : list A) :
  List.find (fun x => String.eqb (key x) other)
    (List.filter (fun x => negb (String.eqb (key x) id)) l)
  = if String.eqb other id then None
    else List.find (fun x => String.eqb (key x) other) l.
Proof.
  induction l as [|x l IH]; cbn; [now destruct (String.eqb other id)|].
  destruct (String.eqb_spec (key x) id) as [Hx|Hx]; cbn.
  - rewrite IH. destruct (String.eqb_spec other id) as [->|Hne]; [reflexivity|].
    destruct (String.eqb_spec (key x) other); [congruence|reflexivity].
  - rewrite IH. destruct (String.eqb_spec (key x) other) as [<-|_];
      [|reflexivity].
    destruct (String.eqb_spec (key x) id); [done|reflexivity].
Qed.

(** X4.  [deletePolygon] removes every region that carries the
    identifier: none is found under it afterwards, the regions found under
    other identifiers are the same as before, the selection is cleared
    exactly when it was the deleted identifier, and deleting again changes
    nothing. *)
Theorem deletePolygon_removes (id other : string) (e : editorState) :
  getPolygonById id (ed_store (deletePolygon id e)) = None /\
  (other <> id ->
   getPolygonById other (ed_store (deletePolygon id e))
     = getPolygonById other (ed_store e)) /\
  activePolygon (deletePolygon id e)
    = (if decide (activePolygon e = Some id) then None else activePolygon e) /\
  deletePolygon id (deletePolygon id e) = deletePolygon id e.
Proof.
  assert (Hget : forall key,
             getPolygonById key (ed_store (deletePolygon id e))
             = if String.eqb key id then None
               else getPolygonById key (ed_store e)).
  { intros key. unfold getPolygonById, deletePolygon. cbn.
    apply (find_filter_out poly_id). }
  split; [|split; [|split]].
  - now rewrite Hget, String.eqb_refl.
  - intros Hne. rewrite Hget. now destruct (String.eqb_spec other id).
  - cbn. destruct (activePolygon e) as [a|]; [|now case_decide].
    destruct (String.eqb_spec a id) as [->|Hne]; case_decide; congruence.
  - assert (Hidem : forall l : list polygon,
               List.filter (fun p => negb (String.eqb (poly_id p) id))
                 (List.filter (fun p => negb (String.eqb (poly_id p) id)) l)
               = List.filter (fun p => negb (String.eqb (poly_id p) id)) l).
    { induction l as [|p l IH]; [reflexivity|]. cbn.
      destruct (String.eqb (poly_id p) id) eqn:E; cbn; [exact IH|].
      rewrite E. cbn. now rewrite IH. }
    destruct e as [st active mode]. destruct st. unfold deletePolygon. cbn.
    rewrite Hidem. destruct active as [a|]; [|reflexivity].
    destruct (String.eqb a id) eqn:E; [reflexivity|]. now rewrite E.
Qed.

Lemma deletePolygon_removes_witness :
  getPolygonById "1700000000000"
    (ed_store (deletePolygon "42"
                 {| ed_store := berlinStore; activePolygon := None;
                    drawingMode := false |}))
  = getPolygonById "1700000000000" berlinStore.
Proof.
  refine (proj1 (proj2 (deletePolygon_removes "42" "1700000000000"
                          {| ed_store := berlinStore; activePolygon := None;
                             drawingMode := false |})) _).
  discriminate.
Defined.

Lemma find_snoc {A} (pred : A -> bool) (l : list A) (x : A) :
  List.find pred (l ++ [x])
  = match List.find pred l with
    | Some y => Some y
    | None => if pred x then Some x else None
    end.
Proof.
  induction l as [|y l IH]; cbn; [reflexivity|]. now destruct (pred y).
Qed.

Lemma filter_out_fresh (id : string) (l : list polygon) :
  List.find (fun p => String.eqb (poly_id p) id) l = None ->
  List.filter (fun p => negb (String.eqb (poly_id p) id)) l = l.
Proof.
  induction l as [|p l IH]; [reflexivity|]. cbn.
  destruct (String.eqb (poly_id p) id); [discriminate|]. cbn.
  intros H. now rewrite IH.
Qed.

(** X5.  [addPolygon] names the new region after the clock, selects it and
    appends it.  If no region carries that identifier yet, the new region
    is the one found under it, and deleting it gives back the regions
    there were.  If a region added in the same millisecond carries it
    already, that older region is the one found under the identifier, and
    deleting the identifier removes both.  Regions found under other
    identifiers are not affected. *)
Theorem addPolygon_lookup
    (now : Z) (coordinates : list (Q * Q)) (other : string) (e : editorState) :
  let id := (addPolygon now coordinates e).1 in
  let e' := (addPolygon now coordinates e).2 in
  id = digits now /\
  activePolygon e' = Some id /\
  length (polygons (ed_store e')) = S (length (polygons (ed_store e))) /\
  (getPolygonById id (ed_store e) = None ->
   (exists p, getPolygonById id (ed_store e') = Some p /\
              poly_coordinates p = coordinates /\ poly_data p = None /\
              poly_dataSource p = "temperature") /\
   polygons (ed_store (deletePolygon id e')) = polygons (ed_store e)) /\
  (forall old, getPolygonById id (ed_store e) = Some old ->
     getPolygonById id (ed_store e') = Some old /\
     (length (polygons (ed_store (deletePolygon id e')))
      < length (polygons (ed_store e)))%nat) /\
  (other <> id ->
   getPolygonById other (ed_store e') = getPolygonById other (ed_store e)).
Proof.
  intros id e'. subst id e'. cbn [fst snd addPolygon].
  unfold getPolygonById. cbn [ed_store polygons setPolygons activePolygon].
  split; [reflexivity|]. split; [reflexivity|].
  split; [rewrite length_app; cbn; lia|].
  split; [|split].
  - intros Hfresh. rewrite find_snoc, Hfresh. cbn. rewrite String.eqb_refl.
    split; [eauto|].
    unfold deletePolygon. cbn. rewrite List.filter_app. cbn.
    rewrite String.eqb_refl. cbn. rewrite app_nil_r.
    now apply filter_out_fresh.
  - intros old Hold. rewrite find_snoc, Hold. split; [reflexivity|].
    unfold deletePolygon. cbn. rewrite List.filter_app. cbn.
    rewrite String.eqb_refl. cbn. rewrite app_nil_r.
    clear - Hold. induction (polygons (ed_store e)) as [|p l IH];
      [discriminate|].
    cbn in *. destruct (String.eqb (poly_id p) (digits now)); cbn.
    + pose proof (List.filter_length_le
                    (fun p => negb (String.eqb (poly_id p) (digits now))) l).
      lia.
    + specialize (IH Hold). lia.
  - intros Hne. rewrite find_snoc. cbn.
    destruct (List.find _ (polygons (ed_store e))); [reflexivity|].
    destruct (String.eqb_spec (digits now) other) as [E|_]; [|reflexivity].
    now symmetry in E.
Qed.

Lemma addPolygon_lookup_witness :
  polygons (ed_store
    (deletePolygon "1700000000001"
       (addPolygon 1700000000001 [(0, 0); (0, 1); (1, 0)]%Q
          {| ed_store := berlinStore; activePolygon := None;
             drawingMode := true |}).2))
  = polygons berlinStore.
Proof.
  apply (addPolygon_lookup 1700000000001 [(0, 0); (0, 1); (1, 0)]%Q "x"
           {| ed_store := berlinStore; activePolygon := None;
              drawingMode := true |}).
  reflexivity.
Defined.

(** ** The drawing tool *)

Lemma completePolygon_ok (now : Z) (points : list (Q * Q)) (d : drawer) :
  (length points <= 12)%nat -> drawerOk d -> drawerOk (completePolygon now points d).
Proof.
  intros Hmax [Hall Hpending]. unfold completePolygon.
  destruct (Nat.ltb_spec (length points) 3); [now split|].
  split; [|cbn; lia]. cbn.
  apply Forall_app. split; [exact Hall|].
  constructor; [|constructor]. unfold vertexCountOk. cbn. lia.
Qed.

Lemma drawerStep_ok (d : drawer) (ev : drawerEvent) :
  drawerOk d -> drawerOk (drawerStep d ev).
Proof.
  intros Hok. pose proof Hok as [Hall Hpending].
  destruct ev as [now point near|now| |]; cbn [drawerStep].
  - destruct (drawingMode (dr_editor d)); cbn [negb]; [|exact Hok].
    destruct (Nat.ltb_spec 12 (length (drawingPoints d ++ [point])));
      [exact Hok|].
    assert (drawerOk {| dr_editor := dr_editor d;
                        drawingPoints := drawingPoints d ++ [point] |})
      as Hok1 by now split.
    destruct ((3 <=? length (drawingPoints d ++ [point]))%nat && near);
      [|exact Hok1].
    now apply completePolygon_ok.
  - destruct (negb (drawingMode (dr_editor d))
              || (length (drawingPoints d) <? 3)%nat); [exact Hok|].
    now apply completePolygon_ok.
  - now split.
  - now split.
Qed.

(** X6.  The drawing tool only ever adds regions with 3 to 12 vertices:
    whatever the clicks, context menus and mode switches, if the regions
    had between 3 and 12 vertices and at most 12 points were pending, the
    same holds afterwards; and outside drawing mode clicks and context
    menus do nothing. *)
Theorem drawer_vertex_bound (d : drawer) (trace : list drawerEvent) :
  Forall vertexCountOk (polygons (ed_store (dr_editor d))) ->
  (length (drawingPoints d) <= 12)%nat ->
  Forall vertexCountOk (polygons (ed_store (dr_editor (drawerRun d trace)))) /\
  (length (drawingPoints (drawerRun d trace)) <= 12)%nat /\
  (drawingMode (dr_editor d) = false ->
   forall now point near,
     drawerStep d (MapClick now point near) = d /\
     drawerStep d (ContextMenu now) = d).
Proof.
  intros Hall Hpending.
  assert (Hrun : drawerOk (drawerRun d trace)).
  { assert (Hok : drawerOk d) by now split.
    clear Hall Hpending. revert d Hok. unfold drawerRun.
    induction trace as [|ev trace IH]; intros d Hok; [exact Hok|].
    cbn. apply IH. now apply drawerStep_ok. }
  destruct Hrun as [H1 H2]. split; [exact H1|]. split; [exact H2|].
  intros Hmode now point near. cbn. now rewrite Hmode.
Qed.

Lemma drawer_vertex_bound_witness :
  let d := {| dr_editor := {| ed_store := berlinStore; activePolygon := None;
                              drawingMode := true |};
              drawingPoints := [] |} in
  let trace := [ MapClick 1 (0, 0)%Q false; MapClick 2 (0, 1)%Q false;
                 ContextMenu 3; MapClick 4 (1, 0)%Q false; ContextMenu 5 ] in
  Forall vertexCountOk (polygons (ed_store (dr_editor (drawerRun d trace)))) /\
  length (polygons (ed_store (dr_editor (drawerRun d trace)))) = 2%nat.
Proof.
  intros d trace. split; [|reflexivity].
  apply (drawer_vertex_bound d trace).
  - repeat constructor; cbn; lia.
  - cbn. lia.
Defined.

(** ** The timeline hook: invariants and compositions *)

Lemma differenceInHours_le (later earlier : Z) :
  earlier <= later ->
  differenceInHours later earlier * 3600000 <= later - earlier.
Proof.
  intros H. unfold differenceInHours, MS_PER_HOUR.
  pose proof (Z.quot_rem' (later - earlier) 3600000).
  pose proof (Z.rem_nonneg (later - earlier) 3600000). lia.
Qed.

(** X7.  The steps of the hook keep the timeline inside the horizon: from
    an instant and a window inside the horizon, with the window not
    reversed, a forward or backward step by a non-negative number of
    hours, accepted or refused, leaves the instant and the window inside
    the horizon and the window not reversed.  The hours are such that the
    dates that far outside the horizon are still valid dates. *)
Theorem steps_keep_horizon (now hours : Z) (s : store) :
  0 <= hours ->
  datesValid now hours ->
  timelineOk now s ->
  timelineOk now (moveTimeForward now hours s).2 /\
  timelineOk now (moveTimeBackward now hours s).2.
Proof.
  intros Hh _ (Hwin & Hord & Hcur). destruct Hwin as [Hlo Hhi].
  pose proof (differenceInHours_le _ _ Hord) as Hle.
  pose proof (differenceInHours_nonneg _ _ Hord) as Hnn.
  unfold timelineOk, withinHorizon, moveTimeForward, moveTimeBackward,
    isAfter, isBefore, addHours, subHours, MS_PER_HOUR.
  split.
  - destruct (isRangeMode s).
    + destruct (Z.ltb_spec (timelineEnd now)
                  (tw_start (timeRange s) + hours * 3600000
                   + differenceInHours (tw_end (timeRange s))
                       (tw_start (timeRange s)) * 3600000)); cbn; lia.
    + destruct (Z.ltb_spec (timelineEnd now) (currentTime s + hours * 3600000));
        cbn; lia.
  - destruct (isRangeMode s).
    + destruct (Z.ltb_spec (tw_start (timeRange s) - hours * 3600000)
                  (timelineStart now)); cbn; lia.
    + destruct (Z.ltb_spec (currentTime s - hours * 3600000)
                  (timelineStart now)); cbn; lia.
Qed.

Lemma steps_keep_horizon_witness :
  timelineOk 0 (moveTimeForward 0 400 rangeStore).2 /\
  timelineOk 0 (moveTimeBackward 0 3 rangeStore).2.
Proof.
  assert (Hok : timelineOk 0 rangeStore)
    by (repeat split; vm_compute; congruence).
  split.
  - apply (steps_keep_horizon 0 400 rangeStore);
      [lia | split; split; vm_compute; congruence | exact Hok].
  - apply (steps_keep_horizon 0 3 rangeStore);
      [lia | split; split; vm_compute; congruence | exact Hok].
Defined.

(** X8.  Jumping and resizing keep the timeline inside the horizon.  From
    a timeline inside the horizon, [jumpToTime] to any target leaves it
    inside; [setTimeRangeDuration] makes the window last exactly the
    hours asked for, and leaves it inside the horizon when they are
    between 0 and 720, whereas for more than 720 hours the window starts
    before the horizon.  The target is a valid date, the horizon is at
    least 720 hours away from the limits of the dates, and the hours
    asked for are such that the dates that far outside the horizon are
    still valid dates. *)
Theorem jump_and_resize_keep_horizon (now t hours : Z) (s : store) :
  validDate t ->
  datesValid now 720 ->
  datesValid now hours ->
  timelineOk now s ->
  timelineOk now (jumpToTime now t s).2 /\
  duration_ms (timeRange (setTimeRangeDuration now hours s)) = hours * 3600000 /\
  (0 <= hours <= 720 -> timelineOk now (setTimeRangeDuration now hours s)) /\
  (720 < hours ->
   tw_start (timeRange (setTimeRangeDuration now hours s)) < timelineStart now).
Proof.
  intros _ _ _ (Hwin & Hord & Hcur). destruct Hwin as [Hlo Hhi].
  pose proof (differenceInHours_le _ _ Hord) as Hle.
  pose proof (differenceInHours_nonneg _ _ Hord) as Hnn.
  assert (Hspan : timelineEnd now - timelineStart now = 720 * 3600000)
    by (unfold timelineEnd, timelineStart, addHours, subHours, MS_PER_HOUR; lia).
  split; [|split; [|split]].
  - unfold timelineOk, withinHorizon, jumpToTime, isAfter, isBefore, addHours,
      subHours, MS_PER_HOUR.
    destruct (Z.ltb_spec t (timelineStart now)); cbn [orb]; [now repeat split|].
    destruct (Z.ltb_spec (timelineEnd now) t); cbn [orb]; [now repeat split|].
    destruct (isRangeMode s).
    + destruct (Z.ltb_spec (timelineEnd now)
                  (t + differenceInHours (tw_end (timeRange s))
                         (tw_start (timeRange s)) * 3600000)); cbn; lia.
    + cbn. lia.
  - unfold setTimeRangeDuration, duration_ms, isAfter, addHours, subHours,
      MS_PER_HOUR.
    destruct (Z.ltb_spec (timelineEnd now)
                (tw_start (timeRange s) + hours * 3600000)); cbn; lia.
  - intros Hrange.
    unfold timelineOk, withinHorizon, setTimeRangeDuration, isAfter, addHours,
      subHours, MS_PER_HOUR.
    destruct (Z.ltb_spec (timelineEnd now)
                (tw_start (timeRange s) + hours * 3600000)); cbn; lia.
  - intros Hlong.
    unfold setTimeRangeDuration, isAfter, addHours, subHours, MS_PER_HOUR.
    destruct (Z.ltb_spec (timelineEnd now)
                (tw_start (timeRange s) + hours * 3600000)); cbn; lia.
Qed.

Lemma jump_and_resize_keep_horizon_witness :
  timelineOk 0 (jumpToTime 0 (addHours 0 350) rangeStore).2 /\
  timelineOk 0 (setTimeRangeDuration 0 720 rangeStore).
Proof.
  assert (Hok : timelineOk 0 rangeStore)
    by (repeat split; vm_compute; congruence).
  assert (Hvalid : datesValid 0 720)
    by (split; split; vm_compute; congruence).
  assert (Hvalid0 : datesValid 0 0)
    by (split; split; vm_compute; congruence).
  assert (Ht : validDate (addHours 0 350)) by (split; vm_compute; congruence).
  assert (Ht0 : validDate 0) by (split; vm_compute; congruence).
  split.
  - apply (jump_and_resize_keep_horizon 0 (addHours 0 350) 0 rangeStore
             Ht Hvalid Hvalid0 Hok).
  - apply (jump_and_resize_keep_horizon 0 0 720 rangeStore Ht0 Hvalid Hvalid
             Hok).
    lia.
Defined.

(** X9.  A backward step undoes a forward step.  After an accepted forward
    step by some hours, from an instant or a window start not before the
    horizon start, the backward step by the same hours is accepted; in
    instant mode it gives back the store, and in range mode it gives back
    the window start with the duration in whole hours, which is the store
    itself when the window lasted a whole number of hours.  The horizon
    and the dates the two steps read and compute are valid dates. *)
Theorem backward_undoes_forward (now hours : Z) (s : store) :
  datesValid now 0 ->
  stepDatesValid hours s ->
  (moveTimeForward now hours s).1 = true ->
  timelineStart now
    <= (if isRangeMode s then tw_start (timeRange s) else currentTime s) ->
  let duration :=
    differenceInHours (tw_end (timeRange s)) (tw_start (timeRange s)) in
  moveTimeBackward now hours (moveTimeForward now hours s).2
    = (true,
       if isRangeMode s
       then setTimeRange
              {| tw_start := tw_start (timeRange s);
                 tw_end := addHours (tw_start (timeRange s)) duration |} s
       else s) /\
  ((tw_end (timeRange s) - tw_start (timeRange s)) mod 3600000 = 0 ->
   moveTimeBackward now hours (moveTimeForward now hours s).2 = (true, s)).
Proof.
  intros _ _ Hacc Hstart duration.
  assert (Hmain :
            moveTimeBackward now hours (moveTimeForward now hours s).2
            = (true,
               if isRangeMode s
               then setTimeRange
                      {| tw_start := tw_start (timeRange s);
                         tw_end := addHours (tw_start (timeRange s)) duration |} s
               else s)).
  { unfold moveTimeForward in *. destruct (isRangeMode s) eqn:Hmode.
    - fold duration in Hacc |- *.
      destruct (isAfter (addHours (addHours (tw_start (timeRange s)) hours)
                           duration) (timelineEnd now)); [discriminate|].
      cbn [snd]. unfold moveTimeBackward.
      cbn [isRangeMode setTimeRange timeRange tw_start tw_end]. rewrite Hmode.
      rewrite differenceInHours_addHours.
      replace (subHours (addHours (tw_start (timeRange s)) hours) hours)
        with (tw_start (timeRange s)) by (unfold subHours, addHours; lia).
      unfold isBefore.
      destruct (Z.ltb_spec (tw_start (timeRange s)) (timelineStart now));
        [lia|]. reflexivity.
    - destruct (isAfter (addHours (currentTime s) hours) (timelineEnd now));
        [discriminate|].
      cbn [snd]. unfold moveTimeBackward.
      cbn [isRangeMode setCurrentTime currentTime]. rewrite Hmode.
      replace (subHours (addHours (currentTime s) hours) hours)
        with (currentTime s) by (unfold subHours, addHours; lia).
      unfold isBefore.
      destruct (Z.ltb_spec (currentTime s) (timelineStart now)); [lia|].
      now destruct s. }
  split; [exact Hmain|].
  intros Hwhole. rewrite Hmain. f_equal.
  destruct (isRangeMode s); [|reflexivity].
  pose proof (differenceInHours_whole _ _ Hwhole) as Hd. fold duration in Hd.
  unfold addHours. rewrite Hd.
  replace (tw_start (timeRange s) + (tw_end (timeRange s) - tw_start (timeRange s)))
    with (tw_end (timeRange s)) by lia.
  destruct s as [c [a b] ? ? ? ? ?]. reflexivity.
Qed.

Lemma backward_undoes_forward_witness :
  moveTimeBackward 0 5 (moveTimeForward 0 5 rangeStore).2 = (true, rangeStore).
Proof.
  apply (backward_undoes_forward 0 5 rangeStore).
  - split; split; vm_compute; congruence.
  - repeat split; vm_compute; congruence.
  - reflexivity.
  - vm_compute. congruence.
  - reflexivity.
Defined.

(** X10.  Both playback intervals do the same: a tick of the interval of
    the slider component and a tick of the interval of the hook leave the
    same store. *)
Theorem playbackTick_agree (now : Z) (s : store) :
  TimelineSlider.playbackTick now s = playbackTick now s.
Proof.
  unfold TimelineSlider.playbackTick, playbackTick, moveTimeForward, isAfter.
  destruct (isRangeMode s).
  - now destruct (timelineEnd now <? _).
  - now destruct (timelineEnd now <? _).
Qed.

Lemma playbackAfter_stopped (clocks : list Z) (s : store) :
  isPlaying s = false -> playbackAfter clocks s = s.
Proof.
  intros Hstop. induction clocks as [|now rest IH]; [reflexivity|].
  cbn. now rewrite Hstop.
Qed.

(** A tick either stops playback and moves nothing, or moves [reached] by
    one hour and leaves playback as it is. *)
Lemma playbackTick_cases (now : Z) (s : store) :
  (timelineEnd now < reached s + 3600000 /\
   playbackTick now s = setPlaying false s) \/
  (reached s + 3600000 <= timelineEnd now /\
   reached (playbackTick now s) = reached s + 3600000 /\
   isPlaying (playbackTick now s) = isPlaying s).
Proof.
  unfold playbackTick, moveTimeForward, reached, isAfter.
  destruct (isRangeMode s) eqn:Hmode.
  - set (duration := differenceInHours _ _).
    destruct (Z.ltb_spec (timelineEnd now)
                (addHours (addHours (tw_start (timeRange s)) 1) duration))
      as [Hover|Hfit]; unfold addHours, MS_PER_HOUR in *.
    + left. split; [lia|reflexivity].
    + right. cbn. rewrite Hmode. split; [lia|]. split; [|reflexivity].
      replace (tw_start (timeRange s) + 1 * 3600000 + duration * 3600000)
        with (addHours (tw_start (timeRange s) + 1 * 3600000) duration)
        by (unfold addHours, MS_PER_HOUR; lia).
      rewrite differenceInHours_addHours. unfold addHours, MS_PER_HOUR. lia.
  - destruct (Z.ltb_spec (timelineEnd now) (addHours (currentTime s) 1))
      as [Hover|Hfit]; unfold addHours, MS_PER_HOUR in *.
    + left. split; [lia|reflexivity].
    + right. cbn. rewrite Hmode. split; [lia|]. split; [lia|reflexivity].
Qed.

Lemma timelineEnd_mono (now latest : Z) :
  now <= latest -> timelineEnd now <= timelineEnd latest.
Proof. unfold timelineEnd, addHours. lia. Qed.

(** While playback is still active, every tick has been accepted. *)
Lemma playbackAfter_playing (latest : Z) (clocks : list Z) :
  forall s : store,
    Forall (fun now => now <= latest) clocks ->
    clocks <> [] ->
    isPlaying (playbackAfter clocks s) = true ->
    reached s + Z.of_nat (length clocks) * 3600000 <= timelineEnd latest.
Proof.
  induction clocks as [|now rest IH]; intros s Hclocks Hne Hplay; [congruence|].
  apply Forall_cons in Hclocks as [Hnow Hrest].
  cbn [playbackAfter] in Hplay.
  destruct (isPlaying s) eqn:Hs;
    [|rewrite playbackAfter_stopped in Hplay by exact Hs; congruence].
  pose proof (timelineEnd_mono now latest Hnow) as Hmono.
  destruct (playbackTick_cases now s) as [[_ Hstop]|(Hfit & Hreach & Hsame)].
  - rewrite Hstop, playbackAfter_stopped in Hplay by reflexivity.
    discriminate.
  - destruct rest as [|now' rest]; [cbn; lia|].
    specialize (IH (playbackTick now s) Hrest ltac:(discriminate) Hplay).
    rewrite Hreach in IH. cbn [length] in *. lia.
Qed.

(** X11.  Playback stops by itself and never runs past the horizon.  The
    horizon is computed anew at every render, so each tick is checked
    against the horizon of its own clock.  After [n >= 1] ticks whose
    clocks are at most [latest], where the [n] hours exceed the distance
    from the instant (or the end of the window) to the horizon end of
    [latest], playback is inactive; and if the instant (or the end of the
    window) was not after that horizon end, it is not after it at any
    number of ticks. *)
Theorem playback_stops (latest : Z) (clocks : list Z) (s : store) :
  Forall (fun now => now <= latest) clocks ->
  (clocks <> [] ->
   timelineEnd latest - reached s < Z.of_nat (length clocks) * 3600000 ->
   isPlaying (playbackAfter clocks s) = false) /\
  (reached s <= timelineEnd latest ->
   reached (playbackAfter clocks s) <= timelineEnd latest).
Proof.
  intros Hclocks. split.
  - intros Hne Hfar.
    destruct (isPlaying (playbackAfter clocks s)) eqn:Hplay; [|reflexivity].
    pose proof (playbackAfter_playing latest clocks s Hclocks Hne Hplay). lia.
  - revert s. induction Hclocks as [|now rest Hnow _ IH]; intros s Hin;
      [exact Hin|].
    cbn [playbackAfter]. apply IH. destruct (isPlaying s); [|exact Hin].
    pose proof (timelineEnd_mono now latest Hnow) as Hmono.
    destruct (playbackTick_cases now s) as [[_ ->]|(Hfit & -> & _)];
      [exact Hin|lia].
Qed.

Lemma playback_stops_witness :
  isPlaying
    (playbackAfter (map (fun k => Z.of_nat k * 1000) (seq 0 362))
       (setCurrentTime 1000 (setPlaying true (initialStore 0)))) = false.
Proof.
  refine (proj1 (playback_stops 361000 _ _ _) _ _).
  - apply List.Forall_forall. intros now Hin.
    apply in_map_iff in Hin as (k & <- & Hk). apply in_seq in Hk. lia.
  - discriminate.
  - vm_compute. reflexivity.
Defined.

(** The horizon moves with the clock: with the instant one second after
    the first clock and the ticks one second apart, the 360th tick is
    still accepted, which it would not be against the horizon of the
    first clock. *)
Example playback_follows_the_clock :
  isPlaying
    (playbackAfter (map (fun k => Z.of_nat k * 1000) (seq 0 360))
       (setCurrentTime 1000 (setPlaying true (initialStore 0)))) = true /\
  isPlaying
    (playbackAfter (repeat 0 360)
       (setCurrentTime 1000 (setPlaying true (initialStore 0)))) = false.
Proof. split; vm_compute; reflexivity. Qed.

(** X12.  The forward guard against the forward step.  In instant mode,
    whenever [canMoveForward] holds a step of one hour is accepted; in
    range mode with a window that lasts a whole number of hours, whenever
    [canMoveForward] fails every step of one hour or more is refused, as
    long as the horizon and the dates the step reads and computes are
    valid dates. *)
Theorem canMoveForward_step (now hours : Z) (s : store) :
  (isRangeMode s = false -> canMoveForward now s = true ->
   (moveTimeForward now 1 s).1 = true) /\
  (isRangeMode s = true ->
   datesValid now 0 ->
   stepDatesValid hours s ->
   (tw_end (timeRange s) - tw_start (timeRange s)) mod 3600000 = 0 ->
   1 <= hours -> canMoveForward now s = false ->
   moveTimeForward now hours s = (false, setPlaying false s)).
Proof.
  unfold canMoveForward, moveTimeForward, getTimeWindow, isBefore, isAfter.
  split.
  - intros -> Hcan. cbn in *.
    apply Z.ltb_lt in Hcan.
    destruct (Z.ltb_spec (timelineEnd now) (addHours (currentTime s) 1));
      [lia|reflexivity].
  - intros -> _ _ Hwhole Hh Hcan. apply Z.ltb_ge in Hcan.
    pose proof (differenceInHours_whole _ _ Hwhole) as Hd.
    unfold addHours. rewrite Hd. unfold MS_PER_HOUR.
    destruct (Z.ltb_spec (timelineEnd now)
                (tw_start (timeRange s) + hours * 3600000
                 + (tw_end (timeRange s) - tw_start (timeRange s))));
      [reflexivity|lia].
Qed.

Lemma canMoveForward_step_witness :
  (moveTimeForward 0 1 (initialStore 0)).1 = true /\
  moveTimeForward 0 2 edgeStore = (false, setPlaying false edgeStore).
Proof.
  split.
  - apply (canMoveForward_step 0 1 (initialStore 0)); reflexivity.
  - apply (canMoveForward_step 0 2 edgeStore); try reflexivity.
    + split; split; vm_compute; congruence.
    + repeat split; vm_compute; congruence.
    + lia.
Defined.

Lemma horizon_hours (now : Z) :
  differenceInHours (timelineEnd now) (timelineStart now) = 720.
Proof.
  unfold differenceInHours, timelineEnd, timelineStart, addHours, subHours,
    MS_PER_HOUR.
  replace (now + 15 * 24 * 3600000 - (now - 15 * 24 * 3600000))
    with (720 * 3600000) by lia.
  reflexivity.
Qed.

Lemma timeToSliderValue_bounds (now time : Z) :
  timelineStart now <= time <= timelineEnd now ->
  (0 <= timeToSliderValue now time)%Q /\ (timeToSliderValue now time <= 100)%Q.
Proof.
  intros [Hlo Hhi]. unfold timeToSliderValue. rewrite horizon_hours.
  set (h := differenceInHours time (timelineStart now)).
  assert (0 <= h <= 720) as [H0 H720].
  { subst h. split; [now apply differenceInHours_nonneg|].
    pose proof (differenceInHours_le _ _ Hlo).
    assert (time - timelineStart now <= 720 * 3600000)
      by (unfold timelineEnd, timelineStart, addHours, subHours, MS_PER_HOUR in *;
          lia).
    lia. }
  rewrite Zle_Qle in H0, H720.
  change (inject_Z 0) with 0%Q in H0. change (inject_Z 720) with 720%Q in *.
  assert (inject_Z h / 720 == inject_Z h * (1 # 720))%Q as -> by reflexivity.
  split; lra.
Qed.

(** X13.  The position shown for the timeline is a percentage: for a
    window that starts inside the horizon [getTimeProgress] lies between 0
    and 100, it is 0 while the window starts less than an hour after the
    horizon start and 100 when it starts on the horizon end, and it does
    not decrease when the start moves later; the slider value of a time
    inside the horizon lies between 0 and 100 as well. *)
Theorem getTimeProgress_percentage (now time : Z) (s s' : store) :
  timelineStart now <= tw_start (getTimeWindow s) <= timelineEnd now ->
  ((0 <= getTimeProgress now s)%Q /\ (getTimeProgress now s <= 100)%Q) /\
  (tw_start (getTimeWindow s) < timelineStart now + 3600000 ->
   (getTimeProgress now s == 0)%Q) /\
  (tw_start (getTimeWindow s) = timelineEnd now ->
   (getTimeProgress now s == 100)%Q) /\
  (tw_start (getTimeWindow s) <= tw_start (getTimeWindow s') ->
   (getTimeProgress now s <= getTimeProgress now s')%Q) /\
  (timelineStart now <= time <= timelineEnd now ->
   (0 <= timeToSliderValue now time)%Q /\ (timeToSliderValue now time <= 100)%Q).
Proof.
  intros Hin.
  assert (Hsame : forall st, getTimeProgress now st
                             = timeToSliderValue now (tw_start (getTimeWindow st)))
    by reflexivity.
  split; [|split; [|split; [|split]]].
  - rewrite Hsame. now apply timeToSliderValue_bounds.
  - intros Hfirst. unfold getTimeProgress. rewrite horizon_hours.
    assert (differenceInHours (tw_start (getTimeWindow s)) (timelineStart now) = 0)
      as ->; [|reflexivity].
    unfold differenceInHours, MS_PER_HOUR. apply Z.quot_small. lia.
  - intros Hlast. unfold getTimeProgress. rewrite horizon_hours, Hlast.
    rewrite horizon_hours. reflexivity.
  - intros Hle. unfold getTimeProgress. rewrite horizon_hours.
    assert (differenceInHours (tw_start (getTimeWindow s)) (timelineStart now)
            <= differenceInHours (tw_start (getTimeWindow s')) (timelineStart now))
      as Hmono.
    { unfold differenceInHours, MS_PER_HOUR. apply Z.quot_le_mono; lia. }
    rewrite Zle_Qle in Hmono.
    change (inject_Z 720) with 720%Q.
    assert (forall q, q / 720 == q * (1 # 720))%Q as Hdiv by reflexivity.
    rewrite !Hdiv. lra.
  - apply timeToSliderValue_bounds.
Qed.

Lemma getTimeProgress_percentage_witness :
  (0 <= getTimeProgress 0 (initialStore 0))%Q /\
  (getTimeProgress 0 (initialStore 0) <= 100)%Q.
Proof.
  refine (proj1 (getTimeProgress_percentage 0 0 (initialStore 0)
                   (initialStore 0) _)).
  vm_compute. split; congruence.
Defined.

(** ** The provider hook: synthetic values, the cache, the request *)

(** X14.  The synthetic value stays in the range of its metric and has one
    decimal: for a draw in [[0, 1)] it lies in [[-10, 35]] for
    temperature, [[30, 90]] for humidity, [[0, 20]] for precipitation and
    [[0, 100]] for any other identifier that is not a property of
    [Object.prototype], and ten times the value is an integer. *)
Theorem mock_value_in_range (u : Q) (dataSourceId : string) :
  ownKey dataSourceId ->
  (0 <= u)%Q -> (u < 1)%Q ->
  ((-10 <= generateMockData u "temperature")%Q /\
   (generateMockData u "temperature" <= 35)%Q) /\
  ((30 <= generateMockData u "humidity")%Q /\
   (generateMockData u "humidity" <= 90)%Q) /\
  ((0 <= generateMockData u "precipitation")%Q /\
   (generateMockData u "precipitation" <= 20)%Q) /\
  (mockDataRanges dataSourceId = None ->
   (0 <= generateMockData u dataSourceId)%Q /\
   (generateMockData u dataSourceId <= 100)%Q) /\
  exists k : Z, generateMockData u dataSourceId = (inject_Z k / 10)%Q.
Proof.
  intros _ H0 H1.
  pose proof (generateMockData_range u "temperature" H0 H1) as (Ht1 & Ht2 & _).
  pose proof (generateMockData_range u "humidity" H0 H1) as (Hh1 & Hh2 & _).
  pose proof (generateMockData_range u "precipitation" H0 H1) as (Hp1 & Hp2 & _).
  pose proof (generateMockData_range u dataSourceId H0 H1) as (Hd1 & Hd2 & Hk).
  split; [now split|]. split; [now split|]. split; [now split|].
  split; [|exact Hk].
  intros Hnone. cbv zeta in Hd1, Hd2. rewrite Hnone in Hd1, Hd2. now split.
Qed.

Lemma mock_value_in_range_witness :
  (-10 <= generateMockData (999 # 1000) "temperature")%Q /\
  (generateMockData (999 # 1000) "temperature" <= 35)%Q.
Proof.
  apply (mock_value_in_range (999 # 1000) "temperature");
    [|unfold Qle; cbn; lia|unfold Qlt; cbn; lia].
  unfold ownKey. cbn. intuition discriminate.
Defined.

(** X15.  [fetchWeatherData] never throws and touches nothing but the
    cache: whatever the coordinates, the metric, the clock, the draws and
    the way the request settles, it returns a number, and the store it
    leaves differs from the one it found in the cache at most. *)
Theorem fetch_never_throws (now now' today : Z) (u1 u2 : Q)
    (network : request -> axiosResult) (lat lon : jsnum)
    (dataSourceId : string) (s : store) :
  exists (value : Q) (cache : gmap string cacheEntry),
    fetchWeatherData now now' today u1 u2 network lat lon dataSourceId s
    = (Return value, setCache cache s).
Proof.
  unfold fetchWeatherData, fetchWeatherData_begin, tryCatch, bind, liftS,
    gets, ret, buildApiUrl, throw.
  destruct (getCachedWeatherData_frame now (cacheKeyOf lat lon dataSourceId) s)
    as [c Hc].
  destruct (getCachedWeatherData now (cacheKeyOf lat lon dataSourceId) s)
    as [[cached|] s1]; cbn in Hc; subst s1; cbn.
  - eauto.
  - destruct (List.find _ (dataSources s)) as [ds|]; cbn; [|eauto].
    set (url := {| req_latitude := _ |}).
    destruct (network url) as [message|[data|]].
    + rewrite fetchWeatherData_resume_failed by exact I. eauto.
    + destruct (api_hourly data) as [h|] eqn:Hh.
      * rewrite (fetchWeatherData_resume_ok _ _ _ _ _ _ h) by exact Hh.
        eexists. eexists. reflexivity.
      * rewrite fetchWeatherData_resume_failed by exact Hh. eauto.
    + rewrite fetchWeatherData_resume_failed by exact I. eauto.
Qed.

(** X16.  A failed fetch is answered with the synthetic value and caches
    nothing.  When the cache has no usable entry for the key (none, or one
    older than an hour, which the lookup removes), the metric is known and
    the request fails or carries no [hourly] object, [fetchWeatherData]
    returns the synthetic value of the metric and the key is absent from
    the cache afterwards. *)
Theorem failed_fetch_is_synthetic (now now' today : Z) (u1 u2 : Q)
    (network : request -> axiosResult) (lat lon : jsnum)
    (dataSourceId : string) (ds : dataSource) (s : store) :
  (getCachedWeatherData now (cacheKeyOf lat lon dataSourceId) s).1 = None ->
  getDataSourceById dataSourceId s = Some ds ->
  (forall url, failedResponse (network url)) ->
  exists s',
    fetchWeatherData now now' today u1 u2 network lat lon dataSourceId s
    = (Return (generateMockData u2 dataSourceId), s') /\
    weatherDataCache s' !! cacheKeyOf lat lon dataSourceId = None.
Proof.
  intros Hmiss Hds Hfail.
  unfold fetchWeatherData, fetchWeatherData_begin, tryCatch, bind, liftS,
    gets, ret, buildApiUrl, throw.
  assert (Hcache : weatherDataCache
                     (getCachedWeatherData now
                        (cacheKeyOf lat lon dataSourceId) s).2
                   !! cacheKeyOf lat lon dataSourceId = None).
  { unfold getCachedWeatherData in *.
    destruct (weatherDataCache s !! cacheKeyOf lat lon dataSourceId)
      as [e|] eqn:He; [|exact He].
    destruct (CACHE_TTL <? now - entry_timestamp e); [|discriminate].
    cbn. apply lookup_delete_eq. }
  destruct (getCachedWeatherData_frame now (cacheKeyOf lat lon dataSourceId) s)
    as [c Hc].
  destruct (getCachedWeatherData now (cacheKeyOf lat lon dataSourceId) s)
    as [[cached|] s1]; cbn in Hmiss, Hc, Hcache; [discriminate|].
  subst s1. cbn. unfold getDataSourceById in Hds. rewrite Hds. cbn.
  rewrite fetchWeatherData_resume_failed by apply Hfail.
  eexists. split; [reflexivity|exact Hcache].
Qed.

Lemma failed_fetch_is_synthetic_witness :
  (fetchWeatherData 0 5 0 (1 # 4) (1 # 2) (fun _ => Rejected "Network Error")
     (Num 52) (Num 13) "humidity" berlinStore).1
  = Return (generateMockData (1 # 2) "humidity").
Proof.
  destruct (failed_fetch_is_synthetic 0 5 0 (1 # 4) (1 # 2)
              (fun _ => Rejected "Network Error") (Num 52) (Num 13)
              "humidity" _ berlinStore eq_refl eq_refl (fun _ => I))
    as (s' & -> & _).
  reflexivity.
Defined.

(** X17.  A fetched payload is served from the cache for an hour.  After
    a request for a location and a metric has succeeded at time [t1], a
    fetch for the same location and metric at a time [t2] at most one hour
    later returns the aggregate of the cached payload over the window of
    that moment, without consulting the network and without changing the
    store; more than an hour later the entry is removed and, the metric
    being known, a new request is issued. *)
Theorem fetch_served_from_cache (t1 t2 t2' today : Z) (u u1 u2 : Q)
    (network : request -> axiosResult) (lat lon : jsnum)
    (dataSourceId : string) (data : apiData) (h : hourlyData) (ds : dataSource)
    (s : store) :
  api_hourly data = Some h ->
  let s1 := (fetchWeatherData_resume t1 u lat lon dataSourceId
               (Resolved (Some data)) s).2 in
  (t2 - t1 <= 3600000 ->
   fetchWeatherData t2 t2' today u1 u2 network lat lon dataSourceId s1
   = (Return (calculateCurrentValue u1 data dataSourceId s), s1)) /\
  (3600000 < t2 - t1 -> getDataSourceById dataSourceId s = Some ds ->
   exists url s2,
     fetchWeatherData_begin t2 today u1 lat lon dataSourceId s1
     = (Return (Await url), s2) /\
     weatherDataCache s2 !! cacheKeyOf lat lon dataSourceId = None).
Proof.
  intros Hh s1.
  assert (Hs1 : s1 = cacheWeatherData t1 (cacheKeyOf lat lon dataSourceId) data s).
  { subst s1. now rewrite (fetchWeatherData_resume_ok _ _ _ _ _ _ h). }
  assert (Hentry : weatherDataCache s1 !! cacheKeyOf lat lon dataSourceId
                   = Some {| entry_data := data; entry_timestamp := t1 |}).
  { rewrite Hs1. apply lookup_insert_eq. }
  split.
  - intros Hfresh.
    unfold fetchWeatherData, fetchWeatherData_begin, tryCatch, bind, liftS,
      gets, ret.
    rewrite (getCachedWeatherData_fresh s1 _ _ t2 Hentry) by (cbn; lia).
    cbn. now rewrite Hs1.
  - intros Hold Hds.
    unfold fetchWeatherData_begin, tryCatch, bind, liftS, gets, ret,
      buildApiUrl, throw.
    rewrite (getCachedWeatherData_expired s1 _ _ t2 Hentry) by (cbn; lia).
    cbn. rewrite Hs1. cbn. unfold getDataSourceById in Hds. rewrite Hds. cbn.
    eexists. eexists. split; [reflexivity|]. cbn. apply lookup_delete_eq.
Qed.

Lemma fetch_served_from_cache_witness :
  fetchWeatherData 3600000 3600000 0 (1 # 2) (1 # 2)
    (fun _ => Rejected "Network Error") (Num 52) (Num 13) "temperature"
    (fetchWeatherData_resume 0 (1 # 2) (Num 52) (Num 13) "temperature"
       (Resolved (Some samplePayload)) rangeStore).2
  = (Return (calculateCurrentValue (1 # 2) samplePayload "temperature" rangeStore),
     (fetchWeatherData_resume 0 (1 # 2) (Num 52) (Num 13) "temperature"
        (Resolved (Some samplePayload)) rangeStore).2).
Proof.
  refine (proj1 (fetch_served_from_cache 0 3600000 3600000 0 (1 # 2) (1 # 2)
                   (1 # 2) (fun _ => Rejected "Network Error") (Num 52)
                   (Num 13) "temperature" samplePayload _
                   (setColorRules [] (Build_dataSource "" "" "" "" []))
                   rangeStore eq_refl) _).
  lia.
Defined.




Lemma fetchPolygon_begin_slot (now today : Z) (u u' : Q) (p : polygon)
    (s : store) :
  exists (sl : slot) (cache : gmap string cacheEntry),
    fetchPolygon_begin now today u u' p s = (Return sl, setCache cache s) /\
    slotPolygonId sl = Some (poly_id p) /\ slotError sl = None.
Proof.
  unfold fetchPolygon_begin, tryCatch, bind, ret.
  destruct (fetchWeatherData_begin_returns now today u
              (meanCoordinate fst (poly_coordinates p))
              (meanCoordinate snd (poly_coordinates p))
              (poly_dataSource p) s) as (phase & s1 & Hbegin).
  assert (Hs1 : exists cache, s1 = setCache cache s).
  { revert Hbegin.
    unfold fetchWeatherData_begin, tryCatch, bind, liftS, gets, ret,
      buildApiUrl, throw.
    destruct (getCachedWeatherData_frame now
                (cacheKeyOf (meanCoordinate fst (poly_coordinates p))
                   (meanCoordinate snd (poly_coordinates p))
                   (poly_dataSource p)) s) as [c Hc].
    destruct (getCachedWeatherData now _ s) as [[cached|] s0];
      cbn in Hc; subst s0; cbn.
    - intros [= _ <-]. eauto.
    - destruct (List.find _ (dataSources s)); cbn; intros [= _ <-]; eauto. }
  destruct Hs1 as [cache ->]. rewrite Hbegin.
  destruct phase as [value|url]; eexists; exists cache; repeat split.
Qed.

(** X19.  [fetchMultiplePolygons] starts one task per region, in the order
    of the regions, and no task is ever rejected: the tasks are as many as
    the regions, the task at each position works for the region at that
    position and has recorded no error, and starting them changes nothing
    in the store but the cache. *)
Theorem beginAll_one_task_per_region (now today : Z) (draw : nat -> Q * Q)
    (ps : list polygon) (first : nat) (s : store) :
  map slotPolygonId (beginAll now today draw first ps s).1
    = map (fun p => Some (poly_id p)) ps /\
  Forall (fun sl => slotError sl = None) (beginAll now today draw first ps s).1 /\
  exists cache, (beginAll now today draw first ps s).2 = setCache cache s.
Proof.
  revert first s. induction ps as [|p ps IH]; intros first s.
  - cbn. repeat split; [constructor|].
    exists (weatherDataCache s). now destruct s.
  - cbn [beginAll].
    destruct (fetchPolygon_begin_slot now today (draw first).1 (draw first).2
                p s) as (sl & cache & Hbegin & Hid & Herr).
    change (fst (draw first)) with ((draw first).1).
    change (snd (draw first)) with ((draw first).2).
    rewrite Hbegin.
    destruct (IH (S first) (setCache cache s)) as (Hids & Herrs & cache' & Hs).
    destruct (beginAll now today draw (S first) ps (setCache cache s))
      as [slots s2].
    cbn in *. split; [now rewrite Hid, Hids|]. split; [now constructor|].
    exists cache'. now rewrite Hs.
Qed.






(** ** The refresh hook: statistics *)

Lemma sumCounts_bump (m : gmap string nat) (k : string) :
  sumCounts (<[k := S (default 0%nat (m !! k))]> m) = S (sumCounts m).
Proof.
  unfold sumCounts.
  destruct (m !! k) as [n|] eqn:Hk; cbn [default]; unfold id.
  - rewrite <- insert_delete_eq.
    rewrite map_fold_insert_L; [|intros; lia|apply lookup_delete_eq].
    rewrite (map_fold_delete_L _ _ k n m); [|intros; lia|exact Hk].
    cbn beta. lia.
  - rewrite map_fold_insert_L; [cbn beta; lia|intros; lia|exact Hk].
Qed.

Lemma countByDataSource_from (ps : list polygon) :
  forall (m : gmap string nat) (ds : string),
    let n := length (List.filter (fun p => String.eqb (poly_dataSource p) ds) ps) in
    sumCounts
      (fold_left
         (fun byDataSource p =>
            <[poly_dataSource p :=
                S (default 0%nat (byDataSource !! poly_dataSource p))]>
              byDataSource) ps m)
    = (length ps + sumCounts m)%nat /\
    fold_left
      (fun byDataSource p =>
         <[poly_dataSource p :=
             S (default 0%nat (byDataSource !! poly_dataSource p))]>
           byDataSource) ps m !! ds
    = match n with
      | O => m !! ds
      | S _ => Some (n + default 0%nat (m !! ds))%nat
      end.
Proof.
  induction ps as [|p ps IH]; intros m ds; [now split|].
  cbn [fold_left List.filter length].
  destruct (IH (<[poly_dataSource p :=
                   S (default 0%nat (m !! poly_dataSource p))]> m) ds)
    as [Hsum Hlook].
  split.
  - rewrite Hsum, sumCounts_bump. lia.
  - rewrite Hlook. clear Hsum Hlook IH.
    destruct (String.eqb_spec (poly_dataSource p) ds) as [->|Hne].
    + rewrite lookup_insert_eq. cbn [length default].
      destruct (length (List.filter _ ps)); unfold id; f_equal; lia.
    + now rewrite lookup_insert_ne.
Qed.

(** X21.  The statistics add up.  When no metric identifier involved is
    a property of [Object.prototype], in [getPolygonStats] the counts by
    metric sum to the total number of regions, the count recorded for a
    metric is the number of regions assigned to it, a metric without
    region has no entry, and the regions with data and the regions with an
    error are each at most the total. *)
Theorem getPolygonStats_counts (s : store) (ds : string) :
  Forall (fun p => ownKey (poly_dataSource p)) (polygons s) ->
  ownKey ds ->
  let stats := getPolygonStats s in
  let n := length (List.filter (fun p => String.eqb (poly_dataSource p) ds)
                     (polygons s)) in
  sumCounts (stats_byDataSource stats) = stats_total stats /\
  stats_byDataSource stats !! ds = (if (n =? 0)%nat then None else Some n) /\
  (stats_withData stats <= stats_total stats)%nat /\
  (stats_withErrors stats <= stats_total stats)%nat.
Proof.
  intros _ _ stats n. subst stats. cbn [getPolygonStats stats_byDataSource
    stats_total stats_withData stats_withErrors].
  destruct (countByDataSource_from (polygons s) ∅ ds) as [Hsum Hlook].
  unfold countByDataSource. split; [|split; [|split]].
  - rewrite Hsum. unfold sumCounts. rewrite map_fold_empty. lia.
  - rewrite Hlook. fold n. rewrite lookup_empty. destruct n; cbn; f_equal; lia.
  - apply List.filter_length_le.
  - apply List.filter_length_le.
Qed.

Lemma getPolygonStats_counts_witness :
  sumCounts (stats_byDataSource (getPolygonStats berlinStore)) = 1%nat /\
  stats_byDataSource (getPolygonStats berlinStore) !! "temperature" = Some 1%nat.
Proof.
  destruct (getPolygonStats_counts berlinStore "temperature")
    as (Hsum & Hlook & _).
  - repeat constructor. unfold ownKey. cbn. intuition discriminate.
  - unfold ownKey. cbn. intuition discriminate.
  - split; [exact Hsum|exact Hlook].
Defined.

(** ** The refresh: what it never changes *)

Lemma fetchWeatherData_resume_frame (now : Z) (u : Q) (lat lon : jsnum)
    (dataSourceId : string) (response : axiosResult) (s : store) :
  exists cache,
    (fetchWeatherData_resume now u lat lon dataSourceId response s).2
    = setCache cache s.
Proof.
  destruct response as [message|[data|]].
  - rewrite fetchWeatherData_resume_failed by exact I.
    exists (weatherDataCache s). now destruct s.
  - destruct (api_hourly data) as [h|] eqn:Hh.
    + rewrite (fetchWeatherData_resume_ok _ _ _ _ _ _ h) by exact Hh.
      eexists. reflexivity.
    + rewrite fetchWeatherData_resume_failed by exact Hh.
      exists (weatherDataCache s). now destruct s.
  - rewrite fetchWeatherData_resume_failed by exact I.
    exists (weatherDataCache s). now destruct s.
Qed.

Lemma fetchPolygon_resume_result (now : Z) (u u' : Q) (polygonId : string)
    (lat lon : jsnum) (dataSourceId : string) (response : axiosResult)
    (s : store) :
  exists value cache,
    fetchPolygon_resume now u u' polygonId lat lon dataSourceId response s
    = (Return {| res_polygonId := polygonId; res_value := value;
                 res_error := None |}, setCache cache s).
Proof.
  destruct (fetchPolygon_resume_no_error now u u' polygonId lat lon
              dataSourceId response s) as (value & s1 & Hres & Hpoly).
  destruct (fetchWeatherData_resume_frame now u lat lon dataSourceId response s)
    as [cache Hcache].
  rewrite Hres in Hcache. cbn in Hcache. subst s1. eauto.
Qed.

Lemma applyResult_core (now : Z) (snapshot : list polygon) (s : store)
    (r : fetchResult) :
  map regionCore (polygons (applyResult now snapshot s r))
    = map regionCore (polygons s) /\
  dataSources (applyResult now snapshot s r) = dataSources s /\
  isPlaying (applyResult now snapshot s r) = isPlaying s /\
  (res_error r = None ->
   Forall (fun p => poly_error p = None) (polygons s) ->
   Forall (fun p => poly_error p = None)
     (polygons (applyResult now snapshot s r))).
Proof.
  unfold applyResult.
  destruct (List.find _ snapshot) as [p|]; [|now repeat split].
  split; [|split; [reflexivity|split; [reflexivity|]]].
  - rewrite updatePolygon_polygons, map_map. apply map_ext.
    intros q. now destruct (String.eqb (poly_id q) (res_polygonId r)).
  - intros Hr Hpoly. rewrite updatePolygon_polygons. apply Forall_fmap.
    eapply Forall_impl; [exact Hpoly|]. intros q Hq. cbn.
    now destruct (String.eqb (poly_id q) (res_polygonId r)).
Qed.

Lemma applyResults_core (now : Z) (snapshot : list polygon)
    (results : list fetchResult) :
  forall s : store,
    map regionCore (polygons (applyResults now snapshot results s))
      = map regionCore (polygons s) /\
    dataSources (applyResults now snapshot results s) = dataSources s /\
    isPlaying (applyResults now snapshot results s) = isPlaying s /\
    (Forall (fun r => res_error r = None) results ->
     Forall (fun p => poly_error p = None) (polygons s) ->
     Forall (fun p => poly_error p = None)
       (polygons (applyResults now snapshot results s))).
Proof.
  induction results as [|r rest IH]; intros s; [now repeat split|].
  change (applyResults now snapshot (r :: rest) s)
    with (applyResults now snapshot rest (applyResult now snapshot s r)).
  destruct (IH (applyResult now snapshot s r)) as (Hcore & Hds & Hplay & Herr).
  destruct (applyResult_core now snapshot s r) as (Hcore1 & Hds1 & Hplay1 & Herr1).
  rewrite Hcore, Hds, Hplay, Hcore1, Hds1, Hplay1.
  split; [reflexivity|]. split; [reflexivity|]. split; [reflexivity|].
  intros Hres Hpoly. apply Forall_cons in Hres as [Hr Hrest].
  apply Herr; [exact Hrest|]. now apply Herr1.
Qed.

Lemma allSettled_errors (slots : list slot) (results : list fetchResult) :
  allSettled slots = Some results ->
  Forall (fun sl => slotError sl = None) slots ->
  Forall (fun r => res_error r = None) results.
Proof.
  revert results. induction slots as [|sl slots IH]; intros results.
  - intros [= <-] _. constructor.
  - destruct sl as [r| |]; cbn; try discriminate.
    destruct (allSettled slots) as [rs|]; [|discriminate].
    intros [= <-] Hall. apply Forall_cons in Hall as [Hr Hrest].
    constructor; [exact Hr|]. now apply IH.
Qed.

Lemma finishCall_core (now : Z) (c : refreshCall) (s : store) :
  map regionCore (polygons (finishCall now c s)) = map regionCore (polygons s) /\
  dataSources (finishCall now c s) = dataSources s /\
  getTimeWindow (finishCall now c s) = getTimeWindow s /\
  isPlaying (finishCall now c s) = isPlaying s /\
  (Forall (fun sl => slotError sl = None) (call_slots c) ->
   Forall (fun p => poly_error p = None) (polygons s) ->
   Forall (fun p => poly_error p = None) (polygons (finishCall now c s))).
Proof.
  unfold finishCall. destruct (allSettled (call_slots c)) as [results|] eqn:E;
    [|now repeat split].
  destruct (applyResults_core now (call_polygons c) results s)
    as (Hcore & Hds & Hplay & Herr).
  split; [exact Hcore|]. split; [exact Hds|].
  split; [apply applyResults_getTimeWindow|]. split; [exact Hplay|].
  intros Hslots. apply Herr. now apply (allSettled_errors _ _ E).
Qed.

Lemma beginAll_slots (now today : Z) (draw : nat -> Q * Q) (ps : list polygon) :
  forall (first : nat) (s : store),
    Forall (fun sl => slotError sl = None) (beginAll now today draw first ps s).1 /\
    exists cache, (beginAll now today draw first ps s).2 = setCache cache s.
Proof.
  induction ps as [|p ps IH]; intros first s.
  - cbn. split; [constructor|]. exists (weatherDataCache s). now destruct s.
  - cbn [beginAll].
    destruct (fetchPolygon_begin_slot now today (draw first).1 (draw first).2
                p s) as (sl & cache & Hbegin & Hid & Herr).
    change (fst (draw first)) with ((draw first).1).
    change (snd (draw first)) with ((draw first).2).
    rewrite Hbegin.
    destruct (IH (S first) (setCache cache s)) as (Herrs & cache' & Hs).
    destruct (beginAll now today draw (S first) ps (setCache cache s))
      as [slots s2].
    cbn in *. split; [now constructor|]. exists cache'. now rewrite Hs.
Qed.

(** What one event keeps. *)
Lemma step_keeps (sys : system) (e : event) :
  map regionCore (polygons (sys_store (step sys e)))
    = map regionCore (polygons (sys_store sys)) /\
  dataSources (sys_store (step sys e)) = dataSources (sys_store sys) /\
  (isRefreshEvent e = true ->
   getTimeWindow (sys_store (step sys e)) = getTimeWindow (sys_store sys) /\
   isPlaying (sys_store (step sys e)) = isPlaying (sys_store sys)) /\
  (noErrorRecorded sys -> noErrorRecorded (step sys e)).
Proof.
  destruct e as [t|r|b|now today draw|call task response now u u'];
    cbn [step isRefreshEvent].
  - split; [reflexivity|split; [reflexivity|split; [discriminate|]]].
    intros H. exact H.
  - split; [reflexivity|split; [reflexivity|split; [discriminate|]]].
    intros H. exact H.
  - split; [reflexivity|split; [reflexivity|split; [discriminate|]]].
    intros H. exact H.
  - destruct (polygons (sys_store sys)) as [|p ps] eqn:Hps;
      [cbv iota; rewrite Hps;
       split; [reflexivity|split; [reflexivity|split; [now split|tauto]]]|].
    destruct (beginAll_slots now today draw (p :: ps) 0 (sys_store sys))
      as (Hslots & cache & Hs1).
    destruct (beginAll now today draw 0 (p :: ps) (sys_store sys))
      as [slots s1]. cbn [fst snd] in Hslots, Hs1. subst s1.
    cbn [sys_store sys_calls].
    destruct (finishCall_core now
                {| call_polygons := p :: ps; call_slots := slots |}
                (setCache cache (sys_store sys)))
      as (Hcore & Hds & Htw & Hplay & Herr).
    rewrite Hcore, Hds, Htw, Hplay.
    split; [cbn [polygons setCache]; now rewrite Hps|].
    split; [reflexivity|]. split; [now split|].
    intros [Hpoly Hcalls]. split.
    + apply Herr; [exact Hslots|exact Hpoly].
    + apply Forall_app. split; [exact Hcalls|].
      constructor; [exact Hslots|constructor].
  - destruct (sys_calls sys !! call) as [c|] eqn:Hcall;
      [|split; [reflexivity|split; [reflexivity|split; [now split|tauto]]]].
    destruct (call_slots c !! task) as [[r|m|polygonId lat lon ds url]|]
      eqn:Hslot;
      try (split; [reflexivity|split; [reflexivity|split; [now split|tauto]]]).
    destruct (fetchPolygon_resume_result now u u' polygonId lat lon ds
                response (sys_store sys)) as (value & cache & Hres).
    rewrite Hres. cbn [sys_store sys_calls].
    set (c' := {| call_polygons := call_polygons c; call_slots := _ |}).
    destruct (finishCall_core now c' (setCache cache (sys_store sys)))
      as (Hcore & Hds & Htw & Hplay & Herr).
    rewrite Hcore, Hds, Htw, Hplay.
    split; [reflexivity|]. split; [reflexivity|]. split; [now split|].
    intros [Hpoly Hcalls].
    assert (Hc' : Forall (fun sl => slotError sl = None) (call_slots c')).
    { subst c'. cbn [call_slots]. apply Forall_insert; [|reflexivity].
      rewrite Forall_lookup in Hcalls. apply (Hcalls call c Hcall). }
    split.
    + apply Herr; [exact Hc'|exact Hpoly].
    + apply Forall_insert; [exact Hcalls|exact Hc'].
Qed.

(** X22.  The refresh writes derived fields only.  Whatever happens (the
    user moving the window, refreshes starting, requests settling in any
    order), the identifiers, the vertex lists and the metrics of the
    regions, their number and order, and the metrics with their rules stay
    as they were; and the events of the refresh itself never move the time
    window nor touch the playback. *)
Theorem refresh_writes_derived_fields_only (sys : system) (trace : list event) :
  map regionCore (polygons (sys_store (run sys trace)))
    = map regionCore (polygons (sys_store sys)) /\
  dataSources (sys_store (run sys trace)) = dataSources (sys_store sys) /\
  (forallb isRefreshEvent trace = true ->
   getTimeWindow (sys_store (run sys trace)) = getTimeWindow (sys_store sys) /\
   isPlaying (sys_store (run sys trace)) = isPlaying (sys_store sys)).
Proof.
  revert sys. unfold run. induction trace as [|e trace IH]; intros sys;
    [now repeat split|].
  cbn [fold_left forallb].
  destruct (IH (step sys e)) as (Hcore & Hds & Htw).
  destruct (step_keeps sys e) as (Hcore1 & Hds1 & Htw1 & _).
  rewrite Hcore, Hds, Hcore1, Hds1. split; [reflexivity|]. split; [reflexivity|].
  intros Hall. apply andb_prop in Hall as [He Htrace].
  destruct (Htw Htrace) as [-> ->]. now apply Htw1.
Qed.

Lemma refresh_writes_derived_fields_only_witness :
  getTimeWindow (sys_store (run berlinSystem failedRefresh))
  = getTimeWindow berlinStore.
Proof.
  apply (refresh_writes_derived_fields_only berlinSystem failedRefresh).
  reflexivity.
Defined.

(** X23.  No region ever records an error.  From a state where no region
    and no task in flight carries an error, as when the regions have just
    been drawn, no sequence of events leads to a region with an error:
    after every refresh, whether its requests succeed or fail, every
    region has [error] null and [getPolygonStats] counts no region with
    errors. *)
Theorem refresh_never_records_error (sys : system) (trace : list event) :
  noErrorRecorded sys ->
  noErrorRecorded (run sys trace) /\
  stats_withErrors (getPolygonStats (sys_store (run sys trace))) = 0%nat.
Proof.
  intros Hok.
  assert (Hrun : noErrorRecorded (run sys trace)).
  { revert sys Hok. unfold run. induction trace as [|e trace IH]; intros sys Hok;
      [exact Hok|].
    cbn [fold_left]. apply IH. now apply step_keeps. }
  split; [exact Hrun|].
  destruct Hrun as [Hpoly _]. cbn [getPolygonStats stats_withErrors].
  induction Hpoly as [|p ps Hp _ IH]; [reflexivity|].
  cbn. unfold hasError at 1. now rewrite Hp.
Qed.

Lemma refresh_never_records_error_witness :
  stats_withErrors
    (getPolygonStats
       (sys_store (run berlinSystem
          (overlappingRefreshes (Rejected "timeout of 10000ms exceeded")))))
  = 0%nat.
Proof.
  apply (refresh_never_records_error berlinSystem).
  split; repeat constructor.
Defined.

(** ** The refresh of one region *)

Lemma writeResult_spec (now : Z) (polygonId : string) (polygon : polygon)
    (r : fetchResult) (cache : gmap string cacheEntry) (s : store) :
  res_error r = None ->
  let s' := writeResult now polygonId polygon r (setCache cache s) in
  dataSources s' = dataSources s /\
  getTimeWindow s' = getTimeWindow s /\
  Forall2
    (fun q q' =>
       if String.eqb (poly_id q) polygonId
       then regionCore q' = regionCore q /\
            poly_error q' = None /\
            poly_lastUpdated q' = Some now /\
            exists v, poly_data q' = Some v /\
                      poly_color q'
                      = Some (getColorForValue (poly_dataSource polygon)
                                (Some (Num v)) s)
       else q' = q)
    (polygons s) (polygons s').
Proof.
  intros Hr s'. subst s'. unfold writeResult.
  split; [reflexivity|]. split; [reflexivity|].
  rewrite updatePolygon_polygons. cbn [polygons setCache].
  apply Forall2_fmap_r, Forall_Forall2_diag, Forall_forall. intros q _.
  unfold compose. cbn beta. destruct (String.eqb (poly_id q) polygonId); [|reflexivity].
  cbn. rewrite Hr. repeat split. now exists (res_value r).
Qed.

Lemma find_None_Forall {A} (f : A -> bool) (l : list A) :
  List.find f l = None -> Forall (fun x => f x = false) l.
Proof.
  induction l as [|x l IH]; cbn; [constructor|].
  destruct (f x) eqn:E; [discriminate|]. intros H. constructor; auto.
Qed.

(** X24.  The refresh of one region.  [refreshSinglePolygon] leaves the
    metrics and the time window alone and changes no region with another
    identifier; when a region with the identifier exists, every region
    with it ends with a number as data, the colour the rules of the found
    region's metric give that number, the time of the write as
    [lastUpdated], and [error] null, whether the request succeeds, fails
    or is served from the cache. *)
Theorem refreshSinglePolygon_writes (now now' today : Z) (u u' u2 u2' : Q)
    (network : request -> axiosResult) (polygonId : string) (s : store) :
  let s' := refreshSinglePolygon now now' today u u' u2 u2' network polygonId s in
  dataSources s' = dataSources s /\
  getTimeWindow s' = getTimeWindow s /\
  Forall2
    (fun q q' =>
       if String.eqb (poly_id q) polygonId
       then regionCore q' = regionCore q /\
            poly_error q' = None /\
            (poly_lastUpdated q' = Some now \/ poly_lastUpdated q' = Some now') /\
            exists v polygon,
              List.find (fun p => String.eqb (poly_id p) polygonId) (polygons s)
                = Some polygon /\
              poly_data q' = Some v /\
              poly_color q'
              = Some (getColorForValue (poly_dataSource polygon)
                        (Some (Num v)) s)
       else q' = q)
    (polygons s) (polygons s').
Proof.
  intros s'. subst s'. unfold refreshSinglePolygon.
  destruct (List.find _ (polygons s)) as [polygon|] eqn:Hfind.
  - assert (Hweak : forall (t : Z) (r : fetchResult) cache,
               res_error r = None ->
               let s' := writeResult t polygonId polygon r (setCache cache s) in
               (t = now \/ t = now') ->
               dataSources s' = dataSources s /\
               getTimeWindow s' = getTimeWindow s /\
               Forall2
                 (fun q q' =>
                    if String.eqb (poly_id q) polygonId
                    then regionCore q' = regionCore q /\
                         poly_error q' = None /\
                         (poly_lastUpdated q' = Some now \/
                          poly_lastUpdated q' = Some now') /\
                         exists v polygon0,
                           Some polygon = Some polygon0 /\
                           poly_data q' = Some v /\
                           poly_color q'
                           = Some (getColorForValue (poly_dataSource polygon0)
                                     (Some (Num v)) s)
                    else q' = q)
                 (polygons s) (polygons s')).
    { intros t r cache Hr s' Ht.
      destruct (writeResult_spec t polygonId polygon r cache s Hr)
        as (Hds & Htw & Hall).
      split; [exact Hds|]. split; [exact Htw|].
      eapply Forall2_impl; [exact Hall|]. intros q q'. cbn beta.
      destruct (String.eqb (poly_id q) polygonId); [|auto].
      intros (Hcore & Herr & Hlast & v & Hdata & Hcolor).
      split; [exact Hcore|]. split; [exact Herr|].
      split; [destruct Ht as [-> | ->]; auto|].
      exists v, polygon. auto. }
    destruct (fetchPolygon_begin_slot now today u u' polygon s)
      as (sl & cache & Hbegin & Hid & Herr).
    rewrite Hbegin. destruct sl as [r|m|id lat lon ds url]; [| discriminate |].
    + apply Hweak; [exact Herr|now left].
    + destruct (fetchPolygon_resume_result now' u2 u2' id lat lon ds
                  (network url) (setCache cache s)) as (value & cache' & Hres).
      rewrite Hres.
      change (setCache cache' (setCache cache s)) with (setCache cache' s).
      apply Hweak; [reflexivity|now right].
  - split; [reflexivity|]. split; [reflexivity|].
    apply Forall_Forall2_diag.
    eapply Forall_impl; [apply (find_None_Forall _ _ Hfind)|].
    intros q Hq. cbn beta in Hq. now rewrite Hq.
Qed.

(** ** The provider service and the provider hook *)

Lemma collectRelevant_series (w : timeWindow) (values : list jsval)
    (timestamps : list Z) :
  forall (i : nat) (acc : list Q),
    collectRelevant w values i timestamps acc
    = acc ++
      omap validValue
        (map item_value
           (filterDataByTimeRange
              (imap (fun index timestamp =>
                       {| item_time := timestamp;
                          item_value := values !! (i + index)%nat;
                          item_timestamp := timestamp |}) timestamps)
              (tw_start w) (tw_end w))).
Proof.
  induction timestamps as [|t rest IH]; intros i acc.
  - cbn. now rewrite app_nil_r.
  - cbn [collectRelevant]. rewrite IH, imap_cons. unfold filterDataByTimeRange.
    cbn [List.filter item_time]. rewrite Nat.add_0_r.
    match goal with
    | |- context [imap ?f rest] =>
        rewrite (imap_ext f (fun index timestamp =>
                               {| item_time := timestamp;
                                  item_value := values !! (S i + index)%nat;
                                  item_timestamp := timestamp |}) rest)
          by (intros j x _; cbn; now rewrite Nat.add_succ_r)
    end.
    destruct ((tw_start w <=? t) && (t <=? tw_end w)); [|reflexivity].
    cbn [map omap list_omap item_value].
    destruct (values !! i) as [[|[|q]]|]; cbn [validValue]; try reflexivity.
    now rewrite <- app_assoc.
Qed.

(** X25.  The service and the hook aggregate alike.  For a metric of the
    store, the value [calculateCurrentValue] gives for a payload is the
    average the service functions give for it ([extractTimeSeriesData],
    then [filterDataByTimeRange] to the current window, then
    [calculateAverageValue]) rounded to one decimal, and the hook draws a
    synthetic value exactly when the service's average is null. *)
Theorem hook_rounds_service_average (s : store) (u : Q) (data : apiData)
    (dataSourceId : string) (ds : dataSource) :
  getDataSourceById dataSourceId s = Some ds ->
  let window := getTimeWindow s in
  let series := extractTimeSeriesData (Some data) (ds_field ds) in
  calculateCurrentValue u data dataSourceId s
  = match calculateAverageValue
            (filterDataByTimeRange series (tw_start window) (tw_end window)) with
    | Some mean => round1 mean
    | None => generateMockData u dataSourceId
    end.
Proof.
  intros Hds window series. subst window series.
  unfold calculateCurrentValue, extractTimeSeriesData. rewrite Hds.
  destruct (api_hourly data) as [hourly|]; [|reflexivity].
  destruct (hourly_time hourly) as [timestamps|]; [|reflexivity].
  destruct (hourly_fields hourly !! ds_field ds) as [values|]; [|reflexivity].
  rewrite (collectRelevant_series (getTimeWindow s) values timestamps 0 []).
  cbn [app Nat.add]. unfold calculateAverageValue, average. cbv zeta.
  set (valid := omap validValue _).
  destruct (length timestamps =? 0)%nat eqn:Ht.
  - apply Nat.eqb_eq in Ht. destruct timestamps; [|discriminate]. reflexivity.
  - destruct (length values =? 0)%nat eqn:Hv; cbn [orb].
    + apply Nat.eqb_eq in Hv. destruct values; [|discriminate].
      assert (valid = []) as ->; [|reflexivity].
      subst valid. clear. generalize (tw_start (getTimeWindow s)).
      generalize (tw_end (getTimeWindow s)). intros e b.
      unfold filterDataByTimeRange.
      induction timestamps as [|t rest IH] using rev_ind; [reflexivity|].
      rewrite imap_app, List.filter_app, map_app, omap_app, IH.
      cbn. now destruct ((b <=? t) && (t <=? e)).
    + now destruct (length valid =? 0)%nat.
Qed.

Lemma hook_rounds_service_average_witness :
  exists ds : dataSource,
    getDataSourceById "temperature" rangeStore = Some ds /\
    calculateCurrentValue 0 samplePayload "temperature" rangeStore
    = match calculateAverageValue
              (filterDataByTimeRange
                 (extractTimeSeriesData (Some samplePayload) (ds_field ds))
                 (tw_start (getTimeWindow rangeStore))
                 (tw_end (getTimeWindow rangeStore))) with
      | Some mean => round1 mean
      | None => generateMockData 0 "temperature"
      end.
Proof.
  eexists. split; [reflexivity|].
  apply (hook_rounds_service_average rangeStore 0 samplePayload "temperature").
  reflexivity.
Defined.

(** ** The colour utilities and the colour rules *)

Lemma In_pushIf (x : string) (c : bool) (message : string)
    (errors : list string) :
  In x (pushIf c message errors) <-> In x errors \/ (c = true /\ x = message).
Proof.
  unfold pushIf. destruct c.
  - rewrite in_app_iff. cbn. intuition congruence.
  - intuition congruence.
Qed.

(** When the range error is reported, in terms of the fields. *)
Lemma RANGE_ERROR_reported (rule : colorRule) :
  In RANGE_ERROR (validateColorRule rule) <->
  exists op2 value2,
    truthy_operator (rule_operator2 rule) = Some op2 /\
    rule_value2 rule = Some value2 /\
    num_ge (rule_value rule) value2 = true /\
    ((rule_operator rule = ">=" /\ op2 = "<") \/
     (rule_operator rule = ">" /\ op2 = "<=")).
Proof.
  unfold validateColorRule. cbv zeta.
  assert (Hother : ~ In RANGE_ERROR
            (pushIf (match truthy_operator (rule_operator2 rule), rule_value2 rule with
                     | Some _, None => true
                     | Some _, Some v2 => isNaN v2
                     | None, _ => false
                     end)
               "Second value must be a valid number when using compound rules"
               (pushIf (match truthy_operator (rule_operator2 rule) with
                        | Some op2 => negb (includes ["<"; "<="; ">"; ">="] op2)
                        | None => false
                        end)
                  "Invalid second operator"
                  (pushIf (negb (includes ["="; "=="; "<"; "<="; ">"; ">="]
                                   (rule_operator rule)))
                     "Invalid operator"
                     (pushIf (isNaN (rule_value rule))
                        "Value must be a valid number"
                        (pushIf (negb (isHexColor (rule_color rule)))
                           "Invalid color format. Use hex format (#RRGGBB)"
                           [])))))).
  { rewrite !In_pushIf. cbn [In]. unfold RANGE_ERROR.
    intuition discriminate. }
  destruct (truthy_operator (rule_operator2 rule)) as [op2|] eqn:Hop2.
  - destruct (rule_value2 rule) as [value2|] eqn:Hv2.
    + rewrite !(In_pushIf RANGE_ERROR _ RANGE_ERROR). split.
      * intros [[H|[H _]]|[H _]]; [contradiction| |].
        -- apply andb_prop in H as [H Hge]. apply andb_prop in H as [H1 H2].
           apply String.eqb_eq in H1, H2. exists op2, value2. auto 10.
        -- apply andb_prop in H as [H Hge]. apply andb_prop in H as [H1 H2].
           apply String.eqb_eq in H1, H2. exists op2, value2. auto 10.
      * intros (op2' & value2' & [= <-] & [= <-] & Hge & [[H1 H2]|[H1 H2]]).
        -- left. right. split; [|reflexivity].
           rewrite H1, H2, Hge. reflexivity.
        -- right. split; [|reflexivity].
           rewrite H1, H2, Hge. reflexivity.
    + split; [contradiction|]. intros (? & ? & _ & [=] & _).
  - split; [contradiction|]. intros (? & ? & [=] & _).
Qed.

(** X26.  The range check of the validator against the matcher.  For a
    rule with two numeric thresholds whose operators are one of the pairs
    [>=] with [<] and [>] with [<=], [validateColorRule] reports the
    range error exactly when [matchesRule] accepts no value at all; for
    every other pair of operators it never reports it. *)
Theorem validateColorRule_range (rule : colorRule) (a b : Q) :
  rule_value rule = Num a ->
  rule_value2 rule = Some (Num b) ->
  (rangeChecked rule ->
   (In RANGE_ERROR (validateColorRule rule) <->
    forall value : jsnum, matchesRule value rule = false)) /\
  (~ rangeChecked rule -> ~ In RANGE_ERROR (validateColorRule rule)).
Proof.
  intros Ha Hb. rewrite RANGE_ERROR_reported. split.
  - intros Hchecked.
    assert (Hcases :
              (rule_operator rule = ">=" /\ rule_operator2 rule = Some "<" /\
               forall v, matchesRule v rule = num_ge v (Num a) && num_lt v (Num b)) \/
              (rule_operator rule = ">" /\ rule_operator2 rule = Some "<=" /\
               forall v, matchesRule v rule = num_gt v (Num a) && num_le v (Num b))).
    { destruct Hchecked as [[H1 H2]|[H1 H2]]; [left|right];
        (split; [exact H1|split; [exact H2|]]); intros v;
        unfold matchesRule; rewrite H1, H2, Ha, Hb; cbn;
        destruct v as [|x]; cbn; try reflexivity.
      - now destruct (Qle_bool a x).
      - now destruct (Qltb a x). }
    destruct Hcases as [(H1 & H2 & Hm)|(H1 & H2 & Hm)].
    + split.
      * intros (op2 & value2 & Hop2 & Hv2 & Hge & _) v. rewrite Hm.
        rewrite Hb in Hv2. injection Hv2 as <-. rewrite Ha in Hge. cbn in Hge.
        apply Qle_bool_iff in Hge. destruct v as [|x]; [reflexivity|]. cbn.
        destruct (Qle_bool a x) eqn:E1; [|reflexivity]. cbn.
        apply Qle_bool_iff in E1. apply negb_false_iff, Qle_bool_iff.
        now apply Qle_trans with a.
      * intros Hnone. exists "<", (Num b). rewrite H2, Ha, Hb.
        split; [reflexivity|]. split; [reflexivity|]. split; [|now left].
        cbn. specialize (Hnone (Num a)). rewrite Hm in Hnone. cbn in Hnone.
        rewrite (proj2 (Qle_bool_iff a a) (Qle_refl a)) in Hnone.
        cbn in Hnone. unfold Qltb in Hnone. now apply negb_false_iff in Hnone.
    + split.
      * intros (op2 & value2 & Hop2 & Hv2 & Hge & _) v. rewrite Hm.
        rewrite Hb in Hv2. injection Hv2 as <-. rewrite Ha in Hge. cbn in Hge.
        apply Qle_bool_iff in Hge. destruct v as [|x]; [reflexivity|]. cbn.
        destruct (Qle_bool x b) eqn:E1; [|now rewrite andb_false_r].
        rewrite andb_true_r. apply Qle_bool_iff in E1.
        apply negb_false_iff, Qle_bool_iff. now apply Qle_trans with b.
      * intros Hnone. exists "<=", (Num b). rewrite H2, Ha, Hb.
        split; [reflexivity|]. split; [reflexivity|]. split; [|now right].
        cbn. specialize (Hnone (Num b)). rewrite Hm in Hnone. cbn in Hnone.
        rewrite (proj2 (Qle_bool_iff b b) (Qle_refl b)) in Hnone.
        rewrite andb_true_r in Hnone. unfold Qltb in Hnone.
        now apply negb_false_iff in Hnone.
  - intros Hnot (op2 & value2 & Hop2 & _ & _ & Hpair). apply Hnot.
    assert (rule_operator2 rule = Some op2) as Hsome.
    { revert Hop2. unfold truthy_operator.
      destruct (rule_operator2 rule) as [o|]; [|discriminate].
      destruct (String.eqb o ""); [discriminate|]. now intros [= ->]. }
    unfold rangeChecked. rewrite Hsome.
    destruct Hpair as [[-> ->]|[-> ->]]; [now left|now right].
Qed.

Lemma validateColorRule_range_witness :
  In RANGE_ERROR
    (validateColorRule
       {| rule_operator := ">="; rule_value := Num 25;
          rule_operator2 := Some "<"; rule_value2 := Some (Num 10);
          rule_color := "#52c41a" |}) <->
  forall value : jsnum,
    matchesRule value
      {| rule_operator := ">="; rule_value := Num 25;
         rule_operator2 := Some "<"; rule_value2 := Some (Num 10);
         rule_color := "#52c41a" |} = false.
Proof.
  refine (proj1 (validateColorRule_range _ 25 10 _ _) _).
  - reflexivity.
  - reflexivity.
  - left. split; reflexivity.
Defined.

(** ** The geometry utilities *)

Lemma Math_max_upper (rest : list Q) :
  forall first : Q,
    (first <= Math_max first rest)%Q /\
    Forall (fun x => x <= Math_max first rest)%Q rest.
Proof.
  unfold Math_max. induction rest as [|x rest IH]; intros first; cbn [fold_left].
  - split; [apply Qle_refl|constructor].
  - destruct (IH (if Qltb first x then x else first)) as [Hacc Hrest].
    destruct (Qltb first x) eqn:E.
    + apply Qltb_iff in E. split; [|now constructor].
      apply Qle_trans with x; [now apply Qlt_le_weak|exact Hacc].
    + split; [exact Hacc|]. constructor; [|exact Hrest].
      apply Qle_trans with first; [|exact Hacc].
      unfold Qltb in E. apply negb_false_iff in E. now apply Qle_bool_iff.
Qed.

Lemma Math_min_lower (rest : list Q) :
  forall first : Q,
    (Math_min first rest <= first)%Q /\
    Forall (fun x => Math_min first rest <= x)%Q rest.
Proof.
  unfold Math_min. induction rest as [|x rest IH]; intros first; cbn [fold_left].
  - split; [apply Qle_refl|constructor].
  - destruct (IH (if Qltb x first then x else first)) as [Hacc Hrest].
    destruct (Qltb x first) eqn:E.
    + apply Qltb_iff in E. split; [|now constructor].
      apply Qle_trans with x; [exact Hacc|now apply Qlt_le_weak].
    + split; [exact Hacc|]. constructor; [|exact Hrest].
      apply Qle_trans with first; [exact Hacc|].
      unfold Qltb in E. apply negb_false_iff in E. now apply Qle_bool_iff.
Qed.

Lemma Math_max_attained (rest : list Q) :
  forall first : Q,
    Math_max first rest = first \/ In (Math_max first rest) rest.
Proof.
  unfold Math_max. induction rest as [|x rest IH]; intros first; cbn [fold_left];
    [now left|].
  destruct (IH (if Qltb first x then x else first)) as [H|H];
    [|right; now right].
  rewrite H. destruct (Qltb first x); [right; now left|now left].
Qed.

Lemma Math_min_attained (rest : list Q) :
  forall first : Q,
    Math_min first rest = first \/ In (Math_min first rest) rest.
Proof.
  unfold Math_min. induction rest as [|x rest IH]; intros first; cbn [fold_left];
    [now left|].
  destruct (IH (if Qltb x first then x else first)) as [H|H];
    [|right; now right].
  rewrite H. destruct (Qltb x first); [right; now left|now left].
Qed.

(** X27.  The bounds are tight.  For a region with at least one vertex,
    [calculatePolygonBounds] gives bounds that contain every vertex and
    whose north, south, east and west are each the coordinate of a
    vertex; and [calculatePolygonCenter] gives the very point the refresh
    requests the weather for. *)
Theorem calculatePolygonBounds_tight (coordinates : list (Q * Q)) :
  coordinates <> [] ->
  exists (bounds : latLngBounds) (center : latLng),
    calculatePolygonBounds coordinates = Some bounds /\
    calculatePolygonCenter coordinates = Some center /\
    Forall (fun coord =>
              (bounds_south bounds <= fst coord <= bounds_north bounds)%Q /\
              (bounds_west bounds <= snd coord <= bounds_east bounds)%Q)
      coordinates /\
    In (bounds_north bounds) (map fst coordinates) /\
    In (bounds_south bounds) (map fst coordinates) /\
    In (bounds_east bounds) (map snd coordinates) /\
    In (bounds_west bounds) (map snd coordinates) /\
    meanCoordinate fst coordinates = Num (center_lat center) /\
    meanCoordinate snd coordinates = Num (center_lng center).
Proof.
  intros Hne. destruct coordinates as [|coord rest]; [congruence|].
  eexists. eexists.
  split; [reflexivity|]. split; [reflexivity|].
  cbn [bounds_south bounds_north bounds_west bounds_east center_lat center_lng].
  destruct (Math_max_upper (map fst rest) (fst coord)) as [Hn1 Hn].
  destruct (Math_min_lower (map fst rest) (fst coord)) as [Hs1 Hs].
  destruct (Math_max_upper (map snd rest) (snd coord)) as [He1 He].
  destruct (Math_min_lower (map snd rest) (snd coord)) as [Hw1 Hw].
  split; [|split; [|split; [|split; [|split; [|split]]]]].
  - constructor; [now repeat split|].
    rewrite List.Forall_forall in Hn, Hs, He, Hw. apply List.Forall_forall.
    intros c Hc. repeat split.
    + apply Hs. now apply in_map.
    + apply Hn. now apply in_map.
    + apply Hw. now apply in_map.
    + apply He. now apply in_map.
  - cbn [map]. destruct (Math_max_attained (map fst rest) (fst coord)) as [->|H];
      [now left|now right].
  - cbn [map]. destruct (Math_min_attained (map fst rest) (fst coord)) as [->|H];
      [now left|now right].
  - cbn [map]. destruct (Math_max_attained (map snd rest) (snd coord)) as [->|H];
      [now left|now right].
  - cbn [map]. destruct (Math_min_attained (map snd rest) (snd coord)) as [->|H];
      [now left|now right].
  - reflexivity.
  - reflexivity.
Qed.

Lemma calculatePolygonBounds_tight_witness :
  exists (bounds : latLngBounds) (center : latLng),
    calculatePolygonBounds (poly_coordinates berlinPolygon) = Some bounds /\
    calculatePolygonCenter (poly_coordinates berlinPolygon) = Some center /\
    Forall (fun coord =>
              (bounds_south bounds <= fst coord <= bounds_north bounds)%Q /\
              (bounds_west bounds <= snd coord <= bounds_east bounds)%Q)
      (poly_coordinates berlinPolygon) /\
    In (bounds_north bounds) (map fst (poly_coordinates berlinPolygon)) /\
    In (bounds_south bounds) (map fst (poly_coordinates berlinPolygon)) /\
    In (bounds_east bounds) (map snd (poly_coordinates berlinPolygon)) /\
    In (bounds_west bounds) (map snd (poly_coordinates berlinPolygon)) /\
    meanCoordinate fst (poly_coordinates berlinPolygon)
      = Num (center_lat center) /\
    meanCoordinate snd (poly_coordinates berlinPolygon)
      = Num (center_lng center).
Proof.
  apply (calculatePolygonBounds_tight (poly_coordinates berlinPolygon)).
  discriminate.
Defined.

(** ** The provider service: batches *)

Lemma Array_slice_step {A} (l : list A) (i m : Z) :
  0 <= i < Z.of_nat (length l) -> 1 <= m ->
  Array_slice l i (i + m) ++ drop (Z.to_nat (i + m)) l = drop (Z.to_nat i) l /\
  (0 < length (Array_slice l i (i + m)))%nat /\
  Z.of_nat (length (Array_slice l i (i + m))) <= m.
Proof.
  intros Hi Hm. unfold Array_slice, sliceIndex.
  destruct (Z.ltb_spec i 0) as [?|_]; [lia|].
  destruct (Z.ltb_spec (i + m) 0) as [?|_]; [lia|].
  rewrite (Z.min_l i) by lia.
  assert (Hlen : (length (take (Z.to_nat (Z.min (i + m) (Z.of_nat (length l)) - i))
                            (drop (Z.to_nat i) l))
                  = Z.to_nat (Z.min (i + m) (Z.of_nat (length l)) - i))%nat).
  { rewrite length_take, length_drop. lia. }
  split; [|rewrite Hlen; lia].
  destruct (Z.le_gt_cases (i + m) (Z.of_nat (length l))) as [Hle|Hgt].
  - rewrite Z.min_l by lia.
    replace (Z.to_nat (i + m)) with (Z.to_nat i + Z.to_nat (i + m - i))%nat by lia.
    rewrite <- drop_drop. apply take_drop.
  - rewrite Z.min_r by lia.
    rewrite (drop_ge l (Z.to_nat (i + m))) by lia.
    rewrite app_nil_r. apply take_ge. rewrite length_drop. lia.
Qed.

Lemma splitBatches_ends {A} (maxConcurrent : Z) (locations : list A) :
  1 <= maxConcurrent ->
  forall (fuel : nat) (i : Z),
    0 <= i ->
    Z.of_nat (length locations) - i <= Z.of_nat fuel ->
    exists batches,
      splitBatches fuel maxConcurrent locations i = Some batches /\
      concat batches = drop (Z.to_nat i) locations /\
      Forall (fun batch => (0 < length batch)%nat /\
                           Z.of_nat (length batch) <= maxConcurrent) batches.
Proof.
  intros Hm. induction fuel as [|fuel IH]; intros i Hi Hfuel.
  - exists []. cbn. destruct (Z.ltb_spec i (Z.of_nat (length locations))); [lia|].
    split; [reflexivity|]. split; [|constructor].
    symmetry. apply drop_ge. lia.
  - cbn [splitBatches].
    destruct (Z.ltb_spec i (Z.of_nat (length locations))) as [Hlt|Hge].
    + destruct (IH (i + maxConcurrent)) as (batches & Hsplit & Hcat & Hall);
        [lia|lia|].
      rewrite Hsplit. eexists. split; [reflexivity|].
      destruct (Array_slice_step locations i maxConcurrent) as (Hstep & Hpos & Hmax);
        [lia|lia|].
      split; [cbn [concat]; now rewrite Hcat|]. now constructor.
    + exists []. split; [reflexivity|]. split; [|constructor].
      symmetry. apply drop_ge. lia.
Qed.

Lemma splitBatches_loops {A} (maxConcurrent : Z) (locations : list A) :
  maxConcurrent <= 0 -> locations <> [] ->
  forall (fuel : nat) (i : Z),
    i <= 0 -> splitBatches fuel maxConcurrent locations i = None.
Proof.
  intros Hm Hne. induction fuel as [|fuel IH]; intros i Hi; cbn [splitBatches];
    (destruct (Z.ltb_spec i (Z.of_nat (length locations))) as [_|Hge];
     [|destruct locations; [congruence|cbn in Hge; lia]]).
  - reflexivity.
  - now rewrite IH by lia.
Qed.

Lemma fold_batches {A} (network : A -> axiosResult) (pause : bool)
    (batches : list (list A)) :
  forall (results : list (batchResult A)) (waited : Z),
    fold_left
      (fun (acc : list (batchResult A) * Z) batch =>
         (acc.1 ++ map (fetchLocation network) batch,
          if pause then acc.2 + 100 else acc.2))
      batches (results, waited)
    = (results ++ map (fetchLocation network) (concat batches),
       if pause then waited + 100 * Z.of_nat (length batches) else waited).
Proof.
  induction batches as [|batch batches IH]; intros results waited;
    cbn [fold_left concat length fst snd].
  - rewrite app_nil_r. destruct pause; f_equal; lia.
  - rewrite IH. cbn [fst snd]. rewrite map_app, app_assoc.
    destruct pause; f_equal; lia.
Qed.

(** X28.  Batching loses nothing.  With a batch size of at least one and
    as many iterations as there are locations, [batchFetchWeatherData]
    returns: the locations are cut into non-empty batches of at most
    [maxConcurrent], the result holds one entry per location in the order
    of the locations, a failed request giving an entry with an error and
    not a rejection, and it pauses 100 ms after every batch when there is
    more than one.  With a batch size of zero or less and a location to
    fetch, the loop that cuts the batches never ends. *)
Theorem batchFetchWeatherData_keeps_order {A} (network : A -> axiosResult)
    (locations : list A) (maxConcurrent : Z) :
  (1 <= maxConcurrent ->
   forall fuel : nat,
     (length locations <= fuel)%nat ->
     exists batches : list (list A),
       concat batches = locations /\
       Forall (fun batch => (0 < length batch)%nat /\
                            Z.of_nat (length batch) <= maxConcurrent) batches /\
       batchFetchWeatherData fuel network locations maxConcurrent
       = Some (map (fetchLocation network) locations,
               if (1 <? length batches)%nat
               then 100 * Z.of_nat (length batches) else 0)) /\
  (maxConcurrent <= 0 -> locations <> [] ->
   forall fuel : nat,
     batchFetchWeatherData fuel network locations maxConcurrent = None).
Proof.
  split.
  - intros Hm fuel Hfuel.
    destruct (splitBatches_ends maxConcurrent locations Hm fuel 0)
      as (batches & Hsplit & Hcat & Hall); [lia|lia|].
    exists batches. cbn [Z.to_nat drop] in Hcat.
    split; [exact Hcat|]. split; [exact Hall|].
    unfold batchFetchWeatherData. rewrite Hsplit, fold_batches, Hcat.
    cbn [app]. now destruct (1 <? length batches)%nat.
  - intros Hm Hne fuel. unfold batchFetchWeatherData.
    now rewrite (splitBatches_loops maxConcurrent locations Hm Hne fuel 0).
Qed.

Lemma batchFetchWeatherData_keeps_order_witness :
  (exists batches : list (list nat),
     concat batches = [1; 2; 3]%nat /\
     Forall (fun batch => (0 < length batch)%nat /\
                          Z.of_nat (length batch) <= 2) batches /\
     batchFetchWeatherData 3 (fun _ : nat => Rejected "Network Error")
       [1; 2; 3]%nat 2
     = Some (map (fetchLocation (fun _ : nat => Rejected "Network Error"))
               [1; 2; 3]%nat,
             if (1 <? length batches)%nat
             then 100 * Z.of_nat (length batches) else 0)) /\
  batchFetchWeatherData 3 (fun _ : nat => Rejected "Network Error")
    [1; 2; 3]%nat 0 = None.
Proof.
  split.
  - refine (proj1 (batchFetchWeatherData_keeps_order _ [1; 2; 3]%nat 2) _ 3%nat _).
    + lia.
    + cbn. lia.
  - refine (proj2 (batchFetchWeatherData_keeps_order _ [1; 2; 3]%nat 0) _ _ 3%nat).
    + lia.
    + discriminate.
Defined.

(** ** The provider service: retries *)

Lemma retryLoop_succeeds {A} (fn : nat -> outcome A) (maxRetries baseDelay : Z)
    (k : nat) (a : A) :
  Z.of_nat k < maxRetries ->
  fn k = Return a ->
  forall (d c : nat) (lastError : option string),
    k = (c + d)%nat ->
    (forall j, (c <= j < k)%nat -> exists message, fn j = Throw message) ->
    retryLoop fn maxRetries baseDelay (Z.to_nat maxRetries - c) (Z.of_nat c + 1)
      lastError c (baseDelay * (2 ^ Z.of_nat c - 1))
    = (Fulfilled a, S k, baseDelay * (2 ^ Z.of_nat k - 1)).
Proof.
  intros Hk Hfn. induction d as [|d IH]; intros c lastError Hc Hfail.
  - rewrite Nat.add_0_r in Hc. subst c.
    destruct (Z.to_nat maxRetries - k)%nat eqn:E; [lia|].
    cbn [retryLoop]. now rewrite Hfn.
  - destruct (Z.to_nat maxRetries - c)%nat as [|remaining] eqn:E; [lia|].
    cbn [retryLoop]. destruct (Hfail c) as [message Hmessage]; [lia|].
    rewrite Hmessage. destruct (Z.eqb_spec (Z.of_nat c + 1) maxRetries); [lia|].
    cbv zeta.
    replace remaining with (Z.to_nat maxRetries - S c)%nat by lia.
    replace (Z.of_nat c + 1 - 1) with (Z.of_nat c) by lia.
    replace (baseDelay * (2 ^ Z.of_nat c - 1) + baseDelay * 2 ^ Z.of_nat c)
      with (baseDelay * (2 ^ Z.of_nat (S c) - 1))
      by (rewrite Nat2Z.inj_succ, Z.pow_succ_r by lia; lia).
    replace (Z.of_nat c + 1 + 1) with (Z.of_nat (S c) + 1) by lia.
    apply IH; [lia|]. intros j Hj. apply Hfail. lia.
Qed.

Lemma retryLoop_gives_up {A} (fn : nat -> outcome A) (maxRetries baseDelay : Z)
    (k : nat) (message : string) :
  Z.of_nat (S k) = maxRetries ->
  fn k = Throw message ->
  forall (d c : nat) (lastError : option string),
    k = (c + d)%nat ->
    (forall j, (c <= j < k)%nat -> exists m, fn j = Throw m) ->
    retryLoop fn maxRetries baseDelay (Z.to_nat maxRetries - c) (Z.of_nat c + 1)
      lastError c (baseDelay * (2 ^ Z.of_nat c - 1))
    = (RejectedWith (Some message), S k, baseDelay * (2 ^ Z.of_nat k - 1)).
Proof.
  intros Hk Hfn. induction d as [|d IH]; intros c lastError Hc Hfail.
  - rewrite Nat.add_0_r in Hc. subst c.
    destruct (Z.to_nat maxRetries - k)%nat eqn:E; [lia|].
    cbn [retryLoop]. rewrite Hfn.
    destruct (Z.eqb_spec (Z.of_nat k + 1) maxRetries); [reflexivity|lia].
  - destruct (Z.to_nat maxRetries - c)%nat as [|remaining] eqn:E; [lia|].
    cbn [retryLoop]. destruct (Hfail c) as [m Hm]; [lia|].
    rewrite Hm. destruct (Z.eqb_spec (Z.of_nat c + 1) maxRetries); [lia|].
    cbv zeta.
    replace remaining with (Z.to_nat maxRetries - S c)%nat by lia.
    replace (Z.of_nat c + 1 - 1) with (Z.of_nat c) by lia.
    replace (baseDelay * (2 ^ Z.of_nat c - 1) + baseDelay * 2 ^ Z.of_nat c)
      with (baseDelay * (2 ^ Z.of_nat (S c) - 1))
      by (rewrite Nat2Z.inj_succ, Z.pow_succ_r by lia; lia).
    replace (Z.of_nat c + 1 + 1) with (Z.of_nat (S c) + 1) by lia.
    apply IH; [lia|]. intros j Hj. apply Hfail. lia.
Qed.

(** X29.  Retrying with backoff.  When the first [k] calls of [fn] fail:
    if the next call succeeds and [k] is below [maxRetries],
    [retryWithBackoff] gives its value after [k + 1] calls and
    [baseDelay * (2^k - 1)] of waiting; if the next call fails too and is
    the last allowed one, it rejects with the error of that call, without
    waiting after it.  With [maxRetries] of zero or less it rejects with
    [undefined] and never calls [fn]. *)
Theorem retryWithBackoff_first_success {A} (fn : nat -> outcome A)
    (maxRetries baseDelay : Z) (k : nat) :
  (forall j, (j < k)%nat -> exists message, fn j = Throw message) ->
  (forall a, Z.of_nat k < maxRetries -> fn k = Return a ->
     retryWithBackoff fn maxRetries baseDelay
     = (Fulfilled a, S k, baseDelay * (2 ^ Z.of_nat k - 1))) /\
  (forall message, Z.of_nat (S k) = maxRetries -> fn k = Throw message ->
     retryWithBackoff fn maxRetries baseDelay
     = (RejectedWith (Some message), S k, baseDelay * (2 ^ Z.of_nat k - 1))) /\
  (maxRetries <= 0 ->
     retryWithBackoff fn maxRetries baseDelay = (RejectedWith None, 0%nat, 0)).
Proof.
  intros Hfail. unfold retryWithBackoff. split; [|split].
  - intros a Hk Hfn.
    pose proof (retryLoop_succeeds fn maxRetries baseDelay k a Hk Hfn k 0%nat
                  None eq_refl) as H.
    rewrite Nat.sub_0_r in H. change (Z.of_nat 0 + 1) with 1 in H.
    replace (baseDelay * (2 ^ Z.of_nat 0 - 1)) with 0 in H by (cbn; lia).
    apply H. intros j Hj. apply Hfail. lia.
  - intros message Hk Hfn.
    pose proof (retryLoop_gives_up fn maxRetries baseDelay k message Hk Hfn k
                  0%nat None eq_refl) as H.
    rewrite Nat.sub_0_r in H. change (Z.of_nat 0 + 1) with 1 in H.
    replace (baseDelay * (2 ^ Z.of_nat 0 - 1)) with 0 in H by (cbn; lia).
    apply H. intros j Hj. apply Hfail. lia.
  - intros Hm. now replace (Z.to_nat maxRetries) with 0%nat by lia.
Qed.

Lemma retryWithBackoff_first_success_witness :
  retryWithBackoff
    (fun call => if (call <? 2)%nat then Throw "Network Error" else Return 7)
    3 1000
  = (Fulfilled 7, 3%nat, 1000 * (2 ^ 2 - 1)).
Proof.
  refine (proj1 (retryWithBackoff_first_success _ 3 1000 2 _) 7 _ _).
  - intros j Hj. exists "Network Error".
    destruct j as [|[|j]]; [reflexivity|reflexivity|lia].
  - lia.
  - reflexivity.
Defined.

(** ** The date utilities *)

Lemma hourlyLoop_grid (stop : Z) :
  forall (n fuel : nat) (current : Z) (timestamps : list Z),
    (n <= fuel)%nat ->
    ((0 < n)%nat -> addHours current (Z.of_nat n - 1) <= stop) ->
    stop < addHours current (Z.of_nat n) ->
    hourlyLoop fuel current stop timestamps
    = Some (timestamps ++
            map (fun k => addHours current (Z.of_nat k)) (seq 0 n)).
Proof.
  unfold addHours, MS_PER_HOUR.
  induction n as [|n IH]; intros fuel current timestamps Hfuel Hlast Hnext.
  - cbn [seq map]. rewrite app_nil_r.
    destruct fuel; cbn [hourlyLoop];
      destruct (Z.leb_spec current stop); (reflexivity || lia).
  - destruct fuel as [|fuel]; [lia|]. cbn [hourlyLoop].
    specialize (Hlast ltac:(lia)).
    destruct (Z.leb_spec current stop); [|lia].
    unfold addHours, MS_PER_HOUR. rewrite IH; [|lia|lia|lia].
    rewrite <- app_assoc. do 2 f_equal. cbn [seq map app]. f_equal; [lia|].
    rewrite <- seq_shift, map_map. apply map_ext. intros k. lia.
Qed.

Lemma findClosestTimestamp_fold (targetTime : Z) (timestamps : list Z) :
  forall (closest : Z),
    let result :=
      fold_left
        (fun (acc : Z * Z) timestamp =>
           let diff := Z.abs (targetTime - timestamp) in
           if diff <? acc.2 then (timestamp, diff) else acc)
        timestamps (closest, Z.abs (targetTime - closest)) in
    result.2 = Z.abs (targetTime - result.1) /\
    (result.1 = closest \/ In result.1 timestamps) /\
    result.2 <= Z.abs (targetTime - closest) /\
    Forall (fun t => result.2 <= Z.abs (targetTime - t)) timestamps.
Proof.
  induction timestamps as [|t rest IH]; intros closest; cbn [fold_left].
  - cbn. split; [reflexivity|]. split; [now left|]. split; [lia|constructor].
  - cbv zeta. cbn [snd].
    destruct (Z.ltb_spec (Z.abs (targetTime - t)) (Z.abs (targetTime - closest)))
      as [Hlt|Hge].
    + destruct (IH t) as (Hd & Hin & Hle & Hall). cbv zeta in Hd, Hin, Hle, Hall.
      split; [exact Hd|]. split; [destruct Hin; [right; now left|right; now right]|].
      split; [lia|]. constructor; [exact Hle|exact Hall].
    + destruct (IH closest) as (Hd & Hin & Hle & Hall).
      cbv zeta in Hd, Hin, Hle, Hall.
      split; [exact Hd|]. split; [destruct Hin; [now left|right; now right]|].
      split; [exact Hle|]. constructor; [lia|exact Hall].
Qed.

(** X30.  The closest hourly timestamp.  For a window [startDate ..
    endDate] and enough iterations, [generateHourlyTimestamps] returns
    the times one hour apart from [startDate] on, as long as they do not
    pass [endDate]; and for a target inside the window,
    [findClosestTimestamp] picks among them a time that is inside the
    window, no farther from the target than any other of them, and less
    than one hour away from it. *)
Theorem closest_hourly_timestamp (startDate endDate targetTime : Z)
    (fuel : nat) :
  startDate <= targetTime <= endDate ->
  (Z.to_nat ((endDate - startDate) / MS_PER_HOUR) < fuel)%nat ->
  exists (timestamps : list Z) (closest : Z),
    generateHourlyTimestamps fuel startDate endDate = Some timestamps /\
    timestamps
    = map (fun k => addHours startDate (Z.of_nat k))
          (seq 0 (S (Z.to_nat ((endDate - startDate) / MS_PER_HOUR)))) /\
    findClosestTimestamp targetTime timestamps = Some closest /\
    In closest timestamps /\
    startDate <= closest <= endDate /\
    Forall (fun t => Z.abs (targetTime - closest) <= Z.abs (targetTime - t))
      timestamps /\
    Z.abs (targetTime - closest) < MS_PER_HOUR.
Proof.
  intros Htarget Hfuel.
  set (n := Z.to_nat ((endDate - startDate) / MS_PER_HOUR)) in *.
  assert (Hh : 0 < MS_PER_HOUR) by (unfold MS_PER_HOUR; lia).
  assert (Hn : Z.of_nat n = (endDate - startDate) / MS_PER_HOUR).
  { subst n. rewrite Z2Nat.id; [reflexivity|]. apply Z.div_pos; lia. }
  pose proof (Z.mul_div_le (endDate - startDate) MS_PER_HOUR Hh) as Hlow.
  pose proof (Z.mul_succ_div_gt (endDate - startDate) MS_PER_HOUR Hh) as Hhigh.
  rewrite <- Hn in Hlow, Hhigh.
  assert (Hgrid : generateHourlyTimestamps fuel startDate endDate
                  = Some (map (fun k => addHours startDate (Z.of_nat k))
                            (seq 0 (S n)))).
  { unfold generateHourlyTimestamps.
    rewrite (hourlyLoop_grid endDate (S n) fuel startDate []); [reflexivity|lia| |].
    - intros _. unfold addHours. lia.
    - unfold addHours. lia. }
  set (timestamps := map (fun k => addHours startDate (Z.of_nat k)) (seq 0 (S n)))
    in *.
  assert (Hwithin : Forall (fun t => startDate <= t <= endDate) timestamps).
  { subst timestamps. apply List.Forall_forall. intros t Ht.
    apply in_map_iff in Ht as (k & <- & Hk). apply in_seq in Hk.
    unfold addHours. nia. }
  assert (Hnear : exists t, In t timestamps /\ Z.abs (targetTime - t) < MS_PER_HOUR).
  { set (k := (targetTime - startDate) / MS_PER_HOUR).
    pose proof (Z.mul_div_le (targetTime - startDate) MS_PER_HOUR Hh) as Hk1.
    pose proof (Z.mul_succ_div_gt (targetTime - startDate) MS_PER_HOUR Hh) as Hk2.
    fold k in Hk1, Hk2.
    assert (0 <= k) by (apply Z.div_pos; lia).
    assert (k <= Z.of_nat n).
    { rewrite Hn. apply Z.div_le_mono; lia. }
    exists (addHours startDate k). split.
    - subst timestamps. apply in_map_iff. exists (Z.to_nat k).
      split; [now rewrite Z2Nat.id|]. apply in_seq. lia.
    - unfold addHours. lia. }
  change timestamps with (addHours startDate (Z.of_nat 0)
                          :: map (fun k => addHours startDate (Z.of_nat k)) (seq 1 n))
    in *.
  set (first := addHours startDate (Z.of_nat 0)) in *.
  set (rest := map (fun k => addHours startDate (Z.of_nat k)) (seq 1 n)) in *.
  destruct (findClosestTimestamp_fold targetTime (first :: rest) first)
    as (Hd & Hin & _ & Hall).
  cbv zeta in Hd, Hin, Hall.
  eexists. eexists. split; [exact Hgrid|]. split; [reflexivity|].
  split; [reflexivity|].
  set (result := fold_left _ (first :: rest) _) in *.
  assert (Hmember : In result.1 (first :: rest)).
  { destruct Hin as [->|Hin]; [now left|exact Hin]. }
  split; [exact Hmember|].
  split; [rewrite List.Forall_forall in Hwithin; now apply Hwithin|].
  rewrite <- Hd. split; [exact Hall|].
  destruct Hnear as (t & Ht & Hlt). rewrite List.Forall_forall in Hall.
  specialize (Hall t Ht). lia.
Qed.

Lemma closest_hourly_timestamp_witness :
  exists (timestamps : list Z) (closest : Z),
    generateHourlyTimestamps 3 0 7000000 = Some timestamps /\
    timestamps
    = map (fun k => addHours 0 (Z.of_nat k))
          (seq 0 (S (Z.to_nat ((7000000 - 0) / MS_PER_HOUR)))) /\
    findClosestTimestamp 5000000 timestamps = Some closest /\
    In closest timestamps /\
    0 <= closest <= 7000000 /\
    Forall (fun t => Z.abs (5000000 - closest) <= Z.abs (5000000 - t))
      timestamps /\
    Z.abs (5000000 - closest) < MS_PER_HOUR.
Proof.
  apply (closest_hourly_timestamp 0 7000000 5000000 3).
  - lia.
  - vm_compute. lia.
Defined.
